(** * smart-todo-backend: a shallow embedding of the two Express servers

    The repository holds two deployable servers over a Mongoose [Todo]
    model:

    - variant 1 ([src/unnamed/part_000]): unauthenticated CRUD, list with
      query filters and regular-expression search, toggle (its health
      and subtask-update routes are not embedded);
    - variant 2 ([src/server.js]): registration, login, a bearer-token
      gate in front of every todo route, per-user scoping of the queries.

    Conventions of the embedding.

    - Strings are sequences of ASCII characters ([string]); case folding
      is the ASCII one.
    - A request body is the object after [express.json()] and Mongoose
      casting: every schema field is either absent ([None]) or carries a
      value of the schema's type.  Fields outside the schema are dropped
      by Mongoose's strict mode and do not appear.
    - A collection is the list of its documents in insertion order; the
      position of a document stands for its [_id].
    - [Date.now] and [uuidv4] are oracles stored in the world: the k-th
      call returns the k-th value of the oracle.
    - The persistence layer always answers; the [catch] branches that
      only report a driver failure are not reachable in the model. *)

From Stdlib Require Import List String Ascii ZArith Bool Arith Lia.
From Stdlib Require Import Sorted Permutation.
Import ListNotations.

Set Implicit Arguments.

Local Open Scope string_scope.
Local Open Scope list_scope.

(* ------------------------------------------------------------------ *)
(** ** JavaScript values used by the handlers *)

Module Js.

(** [if (s)] on a query parameter or header: absent and empty strings
    are falsy. *)
Definition truthy (o : option string) : bool :=
  match o with
  | Some s => negb (s =? "")%string
  | None => false
  end.

(** [String.prototype.split] with a one-character separator. *)
Fixpoint split (sep : ascii) (s : string) : list string :=
  match s with
  | EmptyString => [EmptyString]
  | String c s' =>
      if Ascii.eqb c sep then EmptyString :: split sep s'
      else match split sep s' with
           | [] => [String c EmptyString]
           | w :: ws => String c w :: ws
           end
  end.

(** [a?.split(" ")[1]]: [None] stands for [undefined]. *)
Definition second_word (o : option string) : option string :=
  match o with
  | None => None
  | Some s => nth_error (split " " s) 1
  end.

End Js.

(* ------------------------------------------------------------------ *)
(** ** Regular expressions: [new RegExp(search, "i")] and [$regex] *)

Module RegExp.

Inductive regex : Type :=
| Void
| Eps
| Chr (c : ascii)
| Dot
| Cat (r s : regex)
| Alt (r s : regex)
| Star (r : regex).

(** ASCII case folding, as the [i] flag does on ASCII letters. *)
Definition lower (c : ascii) : ascii :=
  let n := nat_of_ascii c in
  if ((65 <=? n) && (n <=? 90))%nat then ascii_of_nat (n + 32) else c.

Definition same_char (ignoreCase : bool) (a b : ascii) : bool :=
  if ignoreCase then Ascii.eqb (lower a) (lower b) else Ascii.eqb a b.

(** [.] matches every character but a line terminator. *)
Definition line_terminator (c : ascii) : bool :=
  Ascii.eqb c "010" || Ascii.eqb c "013".

Fixpoint nullable (r : regex) : bool :=
  match r with
  | Void => false
  | Eps => true
  | Chr _ => false
  | Dot => false
  | Cat r s => nullable r && nullable s
  | Alt r s => nullable r || nullable s
  | Star _ => true
  end.

Fixpoint deriv (ic : bool) (c : ascii) (r : regex) : regex :=
  match r with
  | Void => Void
  | Eps => Void
  | Chr a => if same_char ic a c then Eps else Void
  | Dot => if line_terminator c then Void else Eps
  | Cat r s =>
      if nullable r then Alt (Cat (deriv ic c r) s) (deriv ic c s)
      else Cat (deriv ic c r) s
  | Alt r s => Alt (deriv ic c r) (deriv ic c s)
  | Star r => Cat (deriv ic c r) (Star r)
  end.

(** Some prefix of [s] is matched by [r]. *)
Fixpoint matches_prefix (ic : bool) (r : regex) (s : list ascii) : bool :=
  nullable r ||
  match s with
  | [] => false
  | c :: s' => matches_prefix ic (deriv ic c r) s'
  end.

(** An unanchored match: [r] matches somewhere in [s]. *)
Fixpoint matches_somewhere (ic : bool) (r : regex) (s : list ascii) : bool :=
  matches_prefix ic r s ||
  match s with
  | [] => false
  | _ :: s' => matches_somewhere ic r s'
  end.

(** A compiled pattern with its flag. *)
Record t : Type := mk { source : regex; ignoreCase : bool }.

Definition test (re : t) (s : string) : bool :=
  matches_somewhere (ignoreCase re) (source re) (list_ascii_of_string s).

(** *** The pattern parser

    The fragment that is interpreted: literals, [.], alternation [|],
    groups [( )], the quantifiers [*], [+], [?] (and their lazy forms),
    and a backslash in front of a syntax character.  A pattern that the
    constructor rejects gives [SyntaxError]; a pattern that uses
    anything else (classes, anchors, braces, [(?...)], escapes such as
    [\d]) gives [Unsupported]: this development says nothing about it. *)

Inductive compiled : Type :=
| Pattern (r : regex)
| SyntaxError
| Unsupported.

(** The syntax characters of ECMAScript patterns. *)
Definition syntax_char (c : ascii) : bool :=
  existsb (Ascii.eqb c)
    ["^"; "$"; "092"; "."; "*"; "+"; "?"; "("; ")"; "["; "]"; "{"; "}"; "|"]%char.

Definition cat_list (l : list regex) : regex := fold_right Cat Eps l.

(** One nesting level under construction: the finished alternatives and
    the atoms of the current one, both most recent first. *)
Record frame : Type := { alts : list regex; atoms : list regex }.

Definition empty_frame : frame := {| alts := []; atoms := [] |}.

Definition push_atom (f : frame) (r : regex) : frame :=
  {| alts := alts f; atoms := r :: atoms f |}.

Definition next_alt (f : frame) : frame :=
  {| alts := cat_list (rev (atoms f)) :: alts f; atoms := [] |}.

Definition close (f : frame) : regex :=
  fold_left (fun acc a => Alt a acc) (alts f) (cat_list (rev (atoms f))).

(** What a quantifier may apply to. *)
Inductive last : Type := NoAtom | Atom | Quantified | Lazy.

Definition quantify (c : ascii) (r : regex) : regex :=
  if Ascii.eqb c "*" then Star r
  else if Ascii.eqb c "+" then Cat r (Star r)
  else Alt r Eps.

Fixpoint parse (stack : list frame) (cur : frame) (q : last)
         (s : list ascii) : compiled :=
  match s with
  | [] =>
      match stack with
      | [] => Pattern (close cur)
      | _ :: _ => SyntaxError
      end
  | c :: s' =>
      if Ascii.eqb c "(" then
        match s' with
        | "?"%char :: _ => Unsupported
        | _ => parse (cur :: stack) empty_frame NoAtom s'
        end
      else if Ascii.eqb c ")" then
        match stack with
        | [] => SyntaxError
        | f :: stack' => parse stack' (push_atom f (close cur)) Atom s'
        end
      else if Ascii.eqb c "|" then parse stack (next_alt cur) NoAtom s'
      else if Ascii.eqb c "*" || Ascii.eqb c "+" || Ascii.eqb c "?" then
        match q, atoms cur with
        | Atom, a :: rest =>
            parse stack {| alts := alts cur; atoms := quantify c a :: rest |}
                  Quantified s'
        | Quantified, _ =>
            if Ascii.eqb c "?" then parse stack cur Lazy s' else SyntaxError
        | _, _ => SyntaxError
        end
      else if Ascii.eqb c "." then parse stack (push_atom cur Dot) Atom s'
      else if Ascii.eqb c "092" then
        match s' with
        | [] => SyntaxError
        | e :: s'' =>
            if syntax_char e || Ascii.eqb e "/"
            then parse stack (push_atom cur (Chr e)) Atom s''
            else Unsupported
        end
      else if syntax_char c then Unsupported
      else parse stack (push_atom cur (Chr c)) Atom s'
  end.

Inductive result : Type :=
| Compiled (re : t)
| Throws
| Uninterpreted.

(** [new RegExp(pattern, flags)]; the only flag the servers pass is
    [i]. *)
Definition new (pattern flags : string) : result :=
  match parse [] empty_frame NoAtom (list_ascii_of_string pattern) with
  | Pattern r =>
      Compiled {| source := r;
                  ignoreCase := existsb (Ascii.eqb "i")
                                  (list_ascii_of_string flags) |}
  | SyntaxError => Throws
  | Unsupported => Uninterpreted
  end.

(** *** What the spec calls a case-insensitive substring *)

Fixpoint ci_prefix (p s : list ascii) : bool :=
  match p, s with
  | [], _ => true
  | _ :: _, [] => false
  | a :: p', c :: s' => Ascii.eqb (lower a) (lower c) && ci_prefix p' s'
  end.

Fixpoint ci_infix (p s : list ascii) : bool :=
  ci_prefix p s ||
  match s with
  | [] => false
  | _ :: s' => ci_infix p s'
  end.

(** [p] occurs in [s] as a substring, ignoring ASCII case. *)
Definition occurs_ci (p s : string) : bool :=
  ci_infix (list_ascii_of_string p) (list_ascii_of_string s).

(** A search string without any syntax character. *)
Definition plain (s : string) : bool :=
  forallb (fun c => negb (syntax_char c)) (list_ascii_of_string s).

End RegExp.

(* ------------------------------------------------------------------ *)
(** ** The state monad of the handlers *)

Module Monad.

Definition M (W A : Type) : Type := W -> A * W.

Definition ret {W A : Type} (a : A) : M W A := fun w => (a, w).

Definition bind {W A B : Type} (m : M W A) (k : A -> M W B) : M W B :=
  fun w => let (a, w') := m w in k a w'.

Definition get {W : Type} : M W W := fun w => (w, w).

Definition put {W : Type} (w : W) : M W unit := fun _ => (tt, w).

Fixpoint mapM {W A B : Type} (f : A -> M W B) (l : list A) : M W (list B) :=
  match l with
  | [] => ret []
  | a :: l' => bind (f a) (fun b => bind (mapM f l') (fun bs => ret (b :: bs)))
  end.

End Monad.

Declare Scope monad_scope.
Delimit Scope monad_scope with monad.
Notation "x <- m ;; k" := (Monad.bind m (fun x => k))
  (at level 61, m at next level, right associativity) : monad_scope.
Notation "m ;;; k" := (Monad.bind m (fun _ => k))
  (at level 61, right associativity) : monad_scope.

(* ------------------------------------------------------------------ *)
(** ** The Mongoose model operations over a collection *)

Module Mongo.

Section Collection.

Variable D : Type.

(** [Model.find(filter)]. *)
Definition find (p : D -> bool) (c : list D) : list D := filter p c.

(** [Model.findOne(filter)]: the first match in natural order, with its
    position. *)
Fixpoint findOne (p : D -> bool) (c : list D) : option (nat * D) :=
  match c with
  | [] => None
  | d :: c' =>
      if p d then Some (0, d)
      else match findOne p c' with
           | Some (k, d') => Some (S k, d')
           | None => None
           end
  end.

(** Writing a loaded document back: [doc.save()]. *)
Fixpoint replace (k : nat) (d : D) (c : list D) : list D :=
  match c, k with
  | [], _ => []
  | _ :: c', 0 => d :: c'
  | x :: c', S k' => x :: replace k' d c'
  end.

Fixpoint remove (k : nat) (c : list D) : list D :=
  match c, k with
  | [], _ => []
  | _ :: c', 0 => c'
  | x :: c', S k' => x :: remove k' c'
  end.

(** [Model.findOneAndUpdate(filter, update, { new: true })]: the updated
    document is returned. *)
Definition findOneAndUpdate (p : D -> bool) (u : D -> D) (c : list D)
  : option D * list D :=
  match findOne p c with
  | Some (k, d) => (Some (u d), replace k (u d) c)
  | None => (None, c)
  end.

(** [Model.findOneAndDelete(filter)]. *)
Definition findOneAndDelete (p : D -> bool) (c : list D)
  : option D * list D :=
  match findOne p c with
  | Some (k, d) => (Some d, remove k c)
  | None => (None, c)
  end.

(** [.sort({ key: -1 })]: descending, documents with equal keys keep
    their natural order. *)
Fixpoint insert_desc (key : D -> Z) (x : D) (l : list D) : list D :=
  match l with
  | [] => [x]
  | y :: l' =>
      if (key y <=? key x)%Z then x :: y :: l'
      else y :: insert_desc key x l'
  end.

Definition sort_desc (key : D -> Z) (l : list D) : list D :=
  fold_right (insert_desc key) [] l.

(** The order of the result: [a] comes before [b]. *)
Definition desc (key : D -> Z) (a b : D) : Prop := (key b <= key a)%Z.

End Collection.

End Mongo.

(** What [err.message] reports, without its wording. *)
Inductive Details : Type :=
| ValidationFailed (paths : list string)
| InvalidRegExp (pattern : string)
| TypeError
| DuplicateKey (path : string)
| BcryptArguments.

(* ------------------------------------------------------------------ *)
(** ** Variant 1: the server without authentication
       ([src/unnamed/part_000]) *)

Module Variant1.

Import Monad.
Local Open Scope monad_scope.

(** *** [todoSchema] *)

(** [required: true] is checked when a document is saved, not when it
    is updated in place, so a stored subtask may lack its title. *)
Record Subtask : Type := {
  sub_id : string;
  sub_title : option string;
  sub_completed : bool
}.

Record Todo : Type := {
  id : string;
  title : string;
  description : option string;
  completed : bool;
  priority : string;
  category : string;
  tags : list string;
  dueDate : option Z;
  subtasks : list Subtask;
  createdAt : Z;
  updatedAt : Z
}.

(** *** Requests *)

Record SubtaskBody : Type := {
  sb_id : option string;
  sb_title : option string;
  sb_completed : option bool
}.

(** [req.body] of the todo routes. *)
Record Body : Type := {
  b_id : option string;
  b_title : option string;
  b_description : option string;
  b_completed : option bool;
  b_priority : option string;
  b_category : option string;
  b_tags : option (list string);
  b_dueDate : option Z;
  b_subtasks : option (list SubtaskBody);
  b_createdAt : option Z;
  b_updatedAt : option Z
}.

(** [req.query] of [GET /api/todos]. *)
Record Query : Type := {
  q_category : option string;
  q_priority : option string;
  q_completed : option string;
  q_search : option string
}.

(** *** Responses: [res.status(s).json(payload)] *)

Inductive Payload : Type :=
| Todos (l : list Todo)
| TodoDoc (t : Todo)
| Error (error : string) (details : option Details)
| Message (message : string).

Record Response : Type := Json { status : Z; payload : Payload }.

(** *** The world: the collection and the two oracles *)

Record World : Type := {
  todos : list Todo;
  clock : nat -> Z;
  clock_reads : nat;
  uuid : nat -> string;
  uuid_reads : nat
}.

Definition with_todos (w : World) (c : list Todo) : World :=
  {| todos := c; clock := clock w; clock_reads := clock_reads w;
     uuid := uuid w; uuid_reads := uuid_reads w |}.

(** [Date.now()]. *)
Definition Date_now : M World Z := fun w =>
  (clock w (clock_reads w),
   {| todos := todos w; clock := clock w; clock_reads := S (clock_reads w);
      uuid := uuid w; uuid_reads := uuid_reads w |}).

(** [uuidv4()]. *)
Definition uuidv4 : M World string := fun w =>
  (uuid w (uuid_reads w),
   {| todos := todos w; clock := clock w; clock_reads := clock_reads w;
      uuid := uuid w; uuid_reads := S (uuid_reads w) |}).

(** *** Schema defaults and validators *)

(** A subdocument of [subtasks] with its defaults: [id] from [uuidv4],
    [completed] false. *)
Definition new_subtask (b : SubtaskBody) : M World Subtask :=
  i <- match sb_id b with
       | Some i => ret i
       | None => uuidv4
       end ;;
  ret {| sub_id := i;
         sub_title := sb_title b;
         sub_completed := match sb_completed b with
                          | Some c => c
                          | None => false
                          end |}.

Definition new_subtasks (l : list SubtaskBody) : M World (list Subtask) :=
  mapM new_subtask l.

(** [required: true] on a String path: present and not empty. *)
Definition required (o : option string) : bool := Js.truthy o.

Definition priority_enum : list string := ["low"; "medium"; "high"].

Definition in_enum (p : string) : bool :=
  existsb (String.eqb p) priority_enum.

Definition check (path : string) (ok : bool) : list string :=
  if ok then [] else [path].

(** The paths that fail validation on [save()]. *)
Definition validation_errors (ti p c : option string) (subs : list Subtask)
  : list string :=
  check "title" (required ti)
  ++ check "priority" (required p && match p with
                                     | Some v => in_enum v
                                     | None => false
                                     end)
  ++ check "category" (required c)
  ++ check "subtasks.title"
       (forallb (fun s => required (sub_title s)) subs).

Definition validate (t : Todo) : list string :=
  validation_errors (Some (title t)) (Some (priority t)) (Some (category t))
                    (subtasks t).

Definition or_default {A : Type} (o : option A) (d : A) : A :=
  match o with
  | Some a => a
  | None => d
  end.

(** *** [GET /api/todos] *)

Inductive Clause : Type :=
| TitleRe (re : RegExp.t)
| DescriptionRe (re : RegExp.t)
| TagsRe (re : RegExp.t).

(** The [filter] object handed to [Todo.find]. *)
Record Filter : Type := {
  f_category : option string;
  f_priority : option string;
  f_completed : option bool;
  f_or : option (list Clause)
}.

Inductive Built : Type :=
| Built_filter (f : Filter)
| Built_throws (pattern : string)
| Built_uninterpreted.

(** The value of a parameter when [if (param)] holds. *)
Definition if_truthy (o : option string) : option string :=
  if Js.truthy o then o else None.

Definition build_filter (q : Query) : Built :=
  let with_or o :=
    Built_filter {| f_category := if_truthy (q_category q);
                    f_priority := if_truthy (q_priority q);
                    f_completed := match q_completed q with
                                   | Some s => Some (s =? "true")%string
                                   | None => None
                                   end;
                    f_or := o |} in
  match if_truthy (q_search q) with
  | Some search =>
      match RegExp.new search "i" with
      | RegExp.Compiled re =>
          with_or (Some [TitleRe re; DescriptionRe re; TagsRe re])
      | RegExp.Throws => Built_throws search
      | RegExp.Uninterpreted => Built_uninterpreted
      end
  | None => with_or None
  end.

Definition clause_matches (t : Todo) (c : Clause) : bool :=
  match c with
  | TitleRe re => RegExp.test re (title t)
  | DescriptionRe re =>
      match description t with
      | Some d => RegExp.test re d
      | None => false
      end
  | TagsRe re => existsb (RegExp.test re) (tags t)
  end.

Definition holds {A : Type} (o : option A) (p : A -> bool) : bool :=
  match o with
  | Some a => p a
  | None => true
  end.

Definition matches (f : Filter) (t : Todo) : bool :=
  holds (f_category f) (String.eqb (category t))
  && holds (f_priority f) (String.eqb (priority t))
  && holds (f_completed f) (Bool.eqb (completed t))
  && holds (f_or f) (existsb (clause_matches t)).

(** [None]: the search pattern is outside the interpreted fragment. *)
Definition get_todos (q : Query) : M World (option Response) :=
  match build_filter q with
  | Built_filter f =>
      w <- get ;;
      ret (Some (Json 200
             (Todos (Mongo.sort_desc createdAt
                       (Mongo.find (matches f) (todos w))))))
  | Built_throws p =>
      ret (Some (Json 500 (Error "Server error" (Some (InvalidRegExp p)))))
  | Built_uninterpreted => ret None
  end.

(** *** [POST /api/todos] *)

(** [new Todo({...})] builds the subdocuments while the fields are set
    and then applies the function defaults of the schema in its order:
    [id], [createdAt], [updatedAt], each by a call of its own.
    [save()] runs the validators; a failure is caught and reported as
    400.  A submitted [completed] is not passed to the constructor. *)
Definition post_todos (b : Body) : M World Response :=
  subs <- new_subtasks (or_default (b_subtasks b) []) ;;
  i <- uuidv4 ;;
  created <- Date_now ;;
  updated <- Date_now ;;
  match validation_errors (b_title b) (b_priority b) (b_category b) subs,
        b_title b, b_priority b, b_category b with
  | [], Some ti, Some p, Some c =>
      let newTodo :=
        {| id := i;
           title := ti;
           description := b_description b;
           completed := false;
           priority := p;
           category := c;
           tags := or_default (b_tags b) [];
           dueDate := b_dueDate b;
           subtasks := subs;
           createdAt := created;
           updatedAt := updated |} in
      w <- get ;;
      put (with_todos w (todos w ++ [newTodo])) ;;;
      ret (Json 201 (TodoDoc newTodo))
  | errs, _, _, _ =>
      ret (Json 400 (Error "Validation error" (Some (ValidationFailed errs))))
  end.

(** *** [PUT /api/todos/:id] *)

(** [$set] of every field present in the update. *)
Definition apply_update (u : Body) (subs : option (list Subtask)) (t : Todo)
  : Todo :=
  {| id := or_default (b_id u) (id t);
     title := or_default (b_title u) (title t);
     description := match b_description u with
                    | Some d => Some d
                    | None => description t
                    end;
     completed := or_default (b_completed u) (completed t);
     priority := or_default (b_priority u) (priority t);
     category := or_default (b_category u) (category t);
     tags := or_default (b_tags u) (tags t);
     dueDate := match b_dueDate u with
                | Some d => Some d
                | None => dueDate t
                end;
     subtasks := or_default subs (subtasks t);
     createdAt := or_default (b_createdAt u) (createdAt t);
     updatedAt := or_default (b_updatedAt u) (updatedAt t) |}.

(** [{ ...req.body, updatedAt: Date.now() }]. *)
Definition with_updatedAt (b : Body) (now : Z) : Body :=
  {| b_id := b_id b; b_title := b_title b; b_description := b_description b;
     b_completed := b_completed b; b_priority := b_priority b;
     b_category := b_category b; b_tags := b_tags b; b_dueDate := b_dueDate b;
     b_subtasks := b_subtasks b; b_createdAt := b_createdAt b;
     b_updatedAt := Some now |}.

(** Casting the update builds the subdocuments of [subtasks]. *)
Definition cast_subtasks (o : option (list SubtaskBody))
  : M World (option (list Subtask)) :=
  match o with
  | Some l => subs <- new_subtasks l ;; ret (Some subs)
  | None => ret None
  end.

Definition not_found : Response := Json 404 (Error "Todo not found" None).

Definition put_todo (id_param : string) (b : Body) : M World Response :=
  now <- Date_now ;;
  let updatedData := with_updatedAt b now in
  subs <- cast_subtasks (b_subtasks updatedData) ;;
  w <- get ;;
  match Mongo.findOneAndUpdate (fun t => (id t =? id_param)%string)
          (apply_update updatedData subs) (todos w) with
  | (Some updatedTodo, c) =>
      put (with_todos w c) ;;; ret (Json 200 (TodoDoc updatedTodo))
  | (None, _) => ret not_found
  end.

(** *** [DELETE /api/todos/:id] *)

Definition delete_todo (id_param : string) : M World Response :=
  w <- get ;;
  match Mongo.findOneAndDelete (fun t => (id t =? id_param)%string)
          (todos w) with
  | (Some _, c) =>
      put (with_todos w c) ;;;
      ret (Json 200 (Message "Todo deleted successfully"))
  | (None, _) => ret not_found
  end.

(** *** [PATCH /api/todos/:id/toggle] *)

Definition set_completed (t : Todo) (c : bool) : Todo :=
  {| id := id t; title := title t; description := description t;
     completed := c; priority := priority t; category := category t;
     tags := tags t; dueDate := dueDate t; subtasks := subtasks t;
     createdAt := createdAt t; updatedAt := updatedAt t |}.

Definition set_updatedAt (t : Todo) (now : Z) : Todo :=
  {| id := id t; title := title t; description := description t;
     completed := completed t; priority := priority t;
     category := category t; tags := tags t; dueDate := dueDate t;
     subtasks := subtasks t; createdAt := createdAt t; updatedAt := now |}.

(** [todo.save()] validates the loaded document before it is written;
    a failure is caught and reported as 500. *)
Definition patch_toggle (id_param : string) : M World Response :=
  w <- get ;;
  match Mongo.findOne (fun t => (id t =? id_param)%string) (todos w) with
  | None => ret not_found
  | Some (k, todo) =>
      let todo := set_completed todo (negb (completed todo)) in
      now <- Date_now ;;
      let todo := set_updatedAt todo now in
      match validate todo with
      | [] =>
          w <- get ;;
          put (with_todos w (Mongo.replace k todo (todos w))) ;;;
          ret (Json 200 (TodoDoc todo))
      | errs =>
          ret (Json 500 (Error "Server error" (Some (ValidationFailed errs))))
      end
  end.

(** *** [PUT /api/todos/:id/subtasks/:subtaskId] *)

(** [todo.subtasks.find((st) => st.id === subtaskId)]: the first match,
    with its index. *)
Definition find_subtask (subtaskId : string) (l : list Subtask)
  : option (nat * Subtask) :=
  Mongo.findOne (fun st => (sub_id st =? subtaskId)%string) l.

(** [Object.assign(subtask, req.body)]. *)
Definition assign_subtask (s : Subtask) (b : SubtaskBody) : Subtask :=
  {| sub_id := or_default (sb_id b) (sub_id s);
     sub_title := match sb_title b with
                  | Some ti => Some ti
                  | None => sub_title s
                  end;
     sub_completed := or_default (sb_completed b) (sub_completed s) |}.

Definition set_subtasks (t : Todo) (l : list Subtask) : Todo :=
  {| id := id t; title := title t; description := description t;
     completed := completed t; priority := priority t;
     category := category t; tags := tags t; dueDate := dueDate t;
     subtasks := l; createdAt := createdAt t; updatedAt := updatedAt t |}.

Definition subtask_not_found : Response :=
  Json 404 (Error "Subtask not found" None).

(** A validation failure of [todo.save()] is reported as 400 here. *)
Definition put_subtask (id_param subtaskId : string) (b : SubtaskBody)
  : M World Response :=
  w <- get ;;
  match Mongo.findOne (fun t => (id t =? id_param)%string) (todos w) with
  | None => ret not_found
  | Some (k, todo) =>
      match find_subtask subtaskId (subtasks todo) with
      | None => ret subtask_not_found
      | Some (j, subtask) =>
          let todo :=
            set_subtasks todo
              (Mongo.replace j (assign_subtask subtask b) (subtasks todo)) in
          now <- Date_now ;;
          let todo := set_updatedAt todo now in
          match validate todo with
          | [] =>
              w <- get ;;
              put (with_todos w (Mongo.replace k todo (todos w))) ;;;
              ret (Json 200 (TodoDoc todo))
          | errs =>
              ret (Json 400 (Error "Validation error"
                               (Some (ValidationFailed errs))))
          end
      end
  end.

End Variant1.

(* ------------------------------------------------------------------ *)
(** ** Variant 2: the server with accounts and the bearer-token gate
       ([src/server.js]) *)

Module Variant2.

Import Monad.
Local Open Scope monad_scope.

(** *** [userSchema] and [todoSchema] *)

Record User : Type := {
  _id : string;
  username : string;
  password : string
}.

Record Subtask : Type := {
  sub_id : string;
  sub_title : option string;
  sub_completed : bool
}.

Record Todo : Type := {
  id : string;
  userId : string;
  title : string;
  description : option string;
  completed : bool;
  priority : string;
  category : string;
  tags : list string;
  dueDate : option Z;
  subtasks : list Subtask;
  createdAt : Z;
  updatedAt : Z
}.

(** The payload of a token: [{ id, username }]. *)
Record Identity : Type := {
  user_id : string;
  user_name : string
}.

(** *** Requests *)

Inductive Method : Type := GET | POST | PUT | DELETE | PATCH.

Definition Method_eqb (a b : Method) : bool :=
  match a, b with
  | GET, GET | POST, POST | PUT, PUT | DELETE, DELETE | PATCH, PATCH => true
  | _, _ => false
  end.

Record SubtaskBody : Type := {
  sb_id : option string;
  sb_title : option string;
  sb_completed : option bool
}.

Record Body : Type := {
  b_username : option string;
  b_password : option string;
  b_id : option string;
  b_userId : option string;
  b_title : option string;
  b_description : option string;
  b_completed : option bool;
  b_priority : option string;
  b_category : option string;
  b_tags : option (list string);
  b_dueDate : option Z;
  b_subtasks : option (list SubtaskBody);
  b_createdAt : option Z;
  b_updatedAt : option Z
}.

(** A request.  [path] holds the segments of the URL path and [query]
    the pairs [key=value] of the query string, in the order in which
    they are written; [params] is filled by the router and [user] by
    the gate. *)
Record Request : Type := {
  method : Method;
  path : list string;
  authorization : option string;
  query : list (string * string);
  body : Body;
  params : list (string * string);
  user : option Identity
}.

Fixpoint lookup (k : string) (l : list (string * string)) : option string :=
  match l with
  | [] => None
  | (k', v) :: l' => if (k' =? k)%string then Some v else lookup k l'
  end.

Definition set_user (req : Request) (u : Identity) : Request :=
  {| method := method req; path := path req;
     authorization := authorization req; query := query req;
     body := body req; params := params req; user := Some u |}.

Definition set_params (req : Request) (ps : list (string * string))
  : Request :=
  {| method := method req; path := path req;
     authorization := authorization req; query := query req;
     body := body req; params := ps; user := user req |}.

(** *** Responses *)

Inductive Payload : Type :=
| Todos (l : list Todo)
| TodoDoc (t : Todo)
| Error (error : string) (details : option Details)
| Message (message : string)
| Token (token : string).

Record Response : Type := Json { status : Z; payload : Payload }.

(** *** The world *)

Record World : Type := {
  todos : list Todo;
  users : list User;
  clock : nat -> Z;
  clock_reads : nat;
  uuid : nat -> string;
  uuid_reads : nat;
  objectId : nat -> string;
  objectId_reads : nat
}.

Definition with_todos (w : World) (c : list Todo) : World :=
  {| todos := c; users := users w;
     clock := clock w; clock_reads := clock_reads w;
     uuid := uuid w; uuid_reads := uuid_reads w;
     objectId := objectId w; objectId_reads := objectId_reads w |}.

Definition with_users (w : World) (c : list User) : World :=
  {| todos := todos w; users := c;
     clock := clock w; clock_reads := clock_reads w;
     uuid := uuid w; uuid_reads := uuid_reads w;
     objectId := objectId w; objectId_reads := objectId_reads w |}.

Definition Date_now : M World Z := fun w =>
  (clock w (clock_reads w),
   {| todos := todos w; users := users w;
      clock := clock w; clock_reads := S (clock_reads w);
      uuid := uuid w; uuid_reads := uuid_reads w;
      objectId := objectId w; objectId_reads := objectId_reads w |}).

Definition uuidv4 : M World string := fun w =>
  (uuid w (uuid_reads w),
   {| todos := todos w; users := users w;
      clock := clock w; clock_reads := clock_reads w;
      uuid := uuid w; uuid_reads := S (uuid_reads w);
      objectId := objectId w; objectId_reads := objectId_reads w |}).

(** The [_id] that Mongoose gives a new document. *)
Definition new_ObjectId : M World string := fun w =>
  (objectId w (objectId_reads w),
   {| todos := todos w; users := users w;
      clock := clock w; clock_reads := clock_reads w;
      uuid := uuid w; uuid_reads := uuid_reads w;
      objectId := objectId w; objectId_reads := S (objectId_reads w) |}).

(** *** Schema defaults and validators *)

Definition new_subtask (b : SubtaskBody) : M World Subtask :=
  i <- match sb_id b with
       | Some i => ret i
       | None => uuidv4
       end ;;
  ret {| sub_id := i;
         sub_title := sb_title b;
         sub_completed := match sb_completed b with
                          | Some c => c
                          | None => false
                          end |}.

Definition new_subtasks (l : list SubtaskBody) : M World (list Subtask) :=
  mapM new_subtask l.

Definition required (o : option string) : bool := Js.truthy o.

Definition priority_enum : list string := ["low"; "medium"; "high"].

Definition in_enum (p : string) : bool :=
  existsb (String.eqb p) priority_enum.

Definition check (path : string) (ok : bool) : list string :=
  if ok then [] else [path].

Definition validation_errors (uid ti p c : option string)
           (subs : list Subtask) : list string :=
  check "userId" (required uid)
  ++ check "title" (required ti)
  ++ check "priority" (required p && match p with
                                     | Some v => in_enum v
                                     | None => false
                                     end)
  ++ check "category" (required c)
  ++ check "subtasks.title"
       (forallb (fun s => required (sub_title s)) subs).

Definition or_default {A : Type} (o : option A) (d : A) : A :=
  match o with
  | Some a => a
  | None => d
  end.

(** *** The libraries: bcrypt, jsonwebtoken, and the environment *)

Record Platform : Type := {
  bcrypt_hash : string -> string;
  bcrypt_compare : string -> string -> bool;
  jwt_sign : Identity -> string -> string;
  jwt_verify : string -> string -> option Identity;
  JWT_SECRET : option string
}.

Section Server.

Variable P : Platform.

(** [process.env.JWT_SECRET || "your_secret_key"]. *)
Definition SECRET : string :=
  if Js.truthy (JWT_SECRET P) then or_default (JWT_SECRET P) ""
  else "your_secret_key".

Definition Handler : Type := Request -> M World Response.

Definition Middleware : Type := Request -> Handler -> M World Response.

(** *** The authentication middleware *)

Definition authenticate : Middleware := fun req next =>
  let token := Js.second_word (authorization req) in
  if negb (Js.truthy token) then ret (Json 401 (Error "Unauthorized" None))
  else
    match jwt_verify P (or_default token "") SECRET with
    | None => ret (Json 403 (Error "Invalid token" None))
    | Some u => next (set_user req u)
    end.

(** *** [POST /api/register] *)

Definition register : Handler := fun req =>
  match b_password (body req) with
  | None =>
      ret (Json 400 (Error "Error registering user" (Some BcryptArguments)))
  | Some pw =>
      let hashedPassword := bcrypt_hash P pw in
      oid <- new_ObjectId ;;
      w <- get ;;
      if negb (required (b_username (body req))
               && required (Some hashedPassword)) then
        ret (Json 400 (Error "Error registering user"
                         (Some (ValidationFailed
                                  (check "username"
                                     (required (b_username (body req)))
                                   ++ check "password"
                                        (required (Some hashedPassword)))))))
      else
        let name := or_default (b_username (body req)) "" in
        if existsb (fun u => (username u =? name)%string) (users w) then
          ret (Json 400 (Error "Error registering user"
                           (Some (DuplicateKey "username"))))
        else
          put (with_users w
                 (users w ++ [{| _id := oid; username := name;
                                 password := hashedPassword |}])) ;;;
          ret (Json 201 (Message "User registered successfully"))
  end.

(** *** [POST /api/login] *)

Definition invalid_credentials : Response :=
  Json 400 (Error "Invalid credentials" None).

Definition login : Handler := fun req =>
  w <- get ;;
  let found :=
    Mongo.findOne
      (fun u => match b_username (body req) with
                | Some name => (username u =? name)%string
                | None => false
                end) (users w) in
  match found with
  | None => ret invalid_credentials
  | Some (_, u) =>
      match b_password (body req) with
      | None =>
          ret (Json 500 (Error "Error logging in" (Some BcryptArguments)))
      | Some pw =>
          if negb (bcrypt_compare P pw (password u)) then
            ret invalid_credentials
          else
            (* the token expires after one hour; expiry is decided by
               [jwt_verify] *)
            let token :=
              jwt_sign P {| user_id := _id u; user_name := username u |}
                       SECRET in
            ret (Json 200 (Token token))
      end
  end.

(** *** [GET /api/todos] *)

Definition owned_by (u : Identity) (t : Todo) : bool :=
  (userId t =? user_id u)%string.

Definition get_todos : Handler := fun req =>
  match user req with
  | None => ret (Json 500 (Error "Server error" (Some TypeError)))
  | Some u =>
      w <- get ;;
      ret (Json 200
             (Todos (Mongo.sort_desc createdAt
                       (Mongo.find (owned_by u) (todos w)))))
  end.

(** *** [POST /api/todos] *)

(** As in variant 1, with [userId] taken from [req.user.id]. *)
Definition post_todos : Handler := fun req =>
  let b := body req in
  match user req with
  | None => ret (Json 400 (Error "Validation error" (Some TypeError)))
  | Some u =>
      subs <- new_subtasks (or_default (b_subtasks b) []) ;;
      i <- uuidv4 ;;
      created <- Date_now ;;
      updated <- Date_now ;;
      match validation_errors (Some (user_id u)) (b_title b) (b_priority b)
              (b_category b) subs,
            b_title b, b_priority b, b_category b with
      | [], Some ti, Some p, Some c =>
          let newTodo :=
            {| id := i;
               userId := user_id u;
               title := ti;
               description := b_description b;
               completed := false;
               priority := p;
               category := c;
               tags := or_default (b_tags b) [];
               dueDate := b_dueDate b;
               subtasks := subs;
               createdAt := created;
               updatedAt := updated |} in
          w <- get ;;
          put (with_todos w (todos w ++ [newTodo])) ;;;
          ret (Json 201 (TodoDoc newTodo))
      | errs, _, _, _ =>
          ret (Json 400 (Error "Validation error"
                           (Some (ValidationFailed errs))))
      end
  end.

(** *** [PUT /api/todos/:id] *)

Definition apply_update (u : Body) (subs : option (list Subtask)) (t : Todo)
  : Todo :=
  {| id := or_default (b_id u) (id t);
     userId := or_default (b_userId u) (userId t);
     title := or_default (b_title u) (title t);
     description := match b_description u with
                    | Some d => Some d
                    | None => description t
                    end;
     completed := or_default (b_completed u) (completed t);
     priority := or_default (b_priority u) (priority t);
     category := or_default (b_category u) (category t);
     tags := or_default (b_tags u) (tags t);
     dueDate := match b_dueDate u with
                | Some d => Some d
                | None => dueDate t
                end;
     subtasks := or_default subs (subtasks t);
     createdAt := or_default (b_createdAt u) (createdAt t);
     updatedAt := or_default (b_updatedAt u) (updatedAt t) |}.

Definition with_updatedAt (b : Body) (now : Z) : Body :=
  {| b_username := b_username b; b_password := b_password b;
     b_id := b_id b; b_userId := b_userId b; b_title := b_title b;
     b_description := b_description b; b_completed := b_completed b;
     b_priority := b_priority b; b_category := b_category b;
     b_tags := b_tags b; b_dueDate := b_dueDate b;
     b_subtasks := b_subtasks b; b_createdAt := b_createdAt b;
     b_updatedAt := Some now |}.

Definition cast_subtasks (o : option (list SubtaskBody))
  : M World (option (list Subtask)) :=
  match o with
  | Some l => subs <- new_subtasks l ;; ret (Some subs)
  | None => ret None
  end.

Definition not_found : Response := Json 404 (Error "Todo not found" None).

(** The filter [{ id: req.params.id, userId: req.user.id }]. *)
Definition by_id_and_owner (req : Request) (u : Identity) (t : Todo) : bool :=
  match lookup "id" (params req) with
  | Some i => (id t =? i)%string
  | None => false
  end && owned_by u t.

Definition put_todo : Handler := fun req =>
  now <- Date_now ;;
  let updatedData := with_updatedAt (body req) now in
  match user req with
  | None => ret (Json 400 (Error "Validation error" (Some TypeError)))
  | Some u =>
      subs <- cast_subtasks (b_subtasks updatedData) ;;
      w <- get ;;
      match Mongo.findOneAndUpdate (by_id_and_owner req u)
              (apply_update updatedData subs) (todos w) with
      | (Some updatedTodo, c) =>
          put (with_todos w c) ;;; ret (Json 200 (TodoDoc updatedTodo))
      | (None, _) => ret not_found
      end
  end.

(** *** [DELETE /api/todos/:id] *)

Definition delete_todo : Handler := fun req =>
  match user req with
  | None => ret (Json 500 (Error "Server error" (Some TypeError)))
  | Some u =>
      w <- get ;;
      match Mongo.findOneAndDelete (by_id_and_owner req u) (todos w) with
      | (Some _, c) =>
          put (with_todos w c) ;;;
          ret (Json 200 (Message "Todo deleted successfully"))
      | (None, _) => ret not_found
      end
  end.

(** *** [GET /api/todos/filter] *)

(** [req.query.priorities] as the query parser builds it from the pairs
    of the query string: absent, a string, or, for a key that is given
    more than once, the array of its values. *)
Inductive QueryValue : Type :=
| Absent
| Single (v : string)
| Repeated (vs : list string).

Definition query_value (k : string) (q : list (string * string))
  : QueryValue :=
  match map snd (filter (fun kv => (fst kv =? k)%string) q) with
  | [] => Absent
  | [v] => Single v
  | vs => Repeated vs
  end.

(** An array is truthy and has no [split]: the call throws a TypeError,
    which the handler reports as 500. *)
Definition get_todos_filter : Handler := fun req =>
  match query_value "priorities" (query req) with
  | Repeated _ => ret (Json 500 (Error "Server error" (Some TypeError)))
  | priorities =>
      let priorityArray :=
        match priorities with
        | Single v => if Js.truthy (Some v) then Js.split "," v else []
        | _ => []
        end in
      match user req with
      | None => ret (Json 500 (Error "Server error" (Some TypeError)))
      | Some u =>
          w <- get ;;
          ret (Json 200
                 (Todos (Mongo.sort_desc createdAt
                           (Mongo.find
                              (fun t => owned_by u t
                                        && existsb (String.eqb (priority t))
                                             priorityArray)
                              (todos w)))))
      end
  end.

(** *** The route table, in registration order *)

Inductive Segment : Type :=
| Lit (s : string)
| Param (name : string).

(** The path of a request is the list of its segments: [/api/todos/7]
    is [["api"; "todos"; "7"]], and a trailing slash leaves an empty last
    segment.  The application is created by [express()] with its default
    routing: a literal segment matches whatever the case of its letters,
    a parameter matches any non-empty segment, and one trailing slash is
    allowed. *)
Fixpoint lowercase (s : string) : string :=
  match s with
  | EmptyString => EmptyString
  | String c s' => String (RegExp.lower c) (lowercase s')
  end.

Definition ci_eqb (a b : string) : bool :=
  (lowercase a =? lowercase b)%string.

Fixpoint match_path (pattern : list Segment) (p : list string)
  : option (list (string * string)) :=
  match pattern, p with
  | [], [] => Some []
  | [], x :: p' =>
      match p' with
      | [] => if (x =? "")%string then Some [] else None
      | _ :: _ => None
      end
  | Lit s :: pattern', x :: p' =>
      if ci_eqb s x then match_path pattern' p' else None
  | Param name :: pattern', x :: p' =>
      if (x =? "")%string then None
      else match match_path pattern' p' with
           | Some ps => Some ((name, x) :: ps)
           | None => None
           end
  | _, _ => None
  end.

Record Route : Type := {
  r_method : Method;
  r_path : list Segment;
  r_middleware : list Middleware;
  r_handler : Handler
}.

Definition routes : list Route :=
  [ {| r_method := POST; r_path := [Lit "api"; Lit "register"];
       r_middleware := []; r_handler := register |};
    {| r_method := POST; r_path := [Lit "api"; Lit "login"];
       r_middleware := []; r_handler := login |};
    {| r_method := GET; r_path := [Lit "api"; Lit "todos"];
       r_middleware := [authenticate]; r_handler := get_todos |};
    {| r_method := POST; r_path := [Lit "api"; Lit "todos"];
       r_middleware := [authenticate]; r_handler := post_todos |};
    {| r_method := PUT; r_path := [Lit "api"; Lit "todos"; Param "id"];
       r_middleware := [authenticate]; r_handler := put_todo |};
    {| r_method := DELETE; r_path := [Lit "api"; Lit "todos"; Param "id"];
       r_middleware := [authenticate]; r_handler := delete_todo |};
    {| r_method := GET; r_path := [Lit "api"; Lit "todos"; Lit "filter"];
       r_middleware := [authenticate]; r_handler := get_todos_filter |} ].

Fixpoint run (ms : list Middleware) (h : Handler) : Handler :=
  match ms with
  | [] => h
  | m :: ms' => fun req => m req (run ms' h)
  end.

Fixpoint dispatch (rs : list Route) (req : Request)
  : option (Route * Request) :=
  match rs with
  | [] => None
  | r :: rs' =>
      if Method_eqb (r_method r) (method req) then
        match match_path (r_path r) (path req) with
        | Some ps => Some (r, set_params req ps)
        | None => dispatch rs' req
        end
      else dispatch rs' req
  end.

(** The application.  [None]: no route of this file answers the request;
    the reply is then Express's own, produced outside this source. *)
Definition app (req : Request) : M World (option Response) :=
  match dispatch routes req with
  | Some (r, req') =>
      res <- run (r_middleware r) (r_handler r) req' ;;
      ret (Some res)
  | None => ret None
  end.

End Server.


End Variant2.

(* ------------------------------------------------------------------ *)
(** ** The language of a pattern *)

Module Lang.

Import RegExp.

(** [Matches ic r s]: the whole of [s] is a word of [r]; [ic] is the
    [i] flag. *)
Inductive Matches (ic : bool) : regex -> list ascii -> Prop :=
| M_Eps : Matches ic Eps []
| M_Chr a c : same_char ic a c = true -> Matches ic (Chr a) [c]
| M_Dot c : line_terminator c = false -> Matches ic Dot [c]
| M_Cat r s u v :
    Matches ic r u -> Matches ic s v -> Matches ic (Cat r s) (u ++ v)
| M_AltL r s u : Matches ic r u -> Matches ic (Alt r s) u
| M_AltR r s u : Matches ic s u -> Matches ic (Alt r s) u
| M_Star_nil r : Matches ic (Star r) []
| M_Star_app r u v :
    Matches ic r u -> Matches ic (Star r) v -> Matches ic (Star r) (u ++ v).

(** Two words that differ by ASCII case only. *)
Definition same_word (p u : list ascii) : Prop :=
  Forall2 (fun a c => lower a = lower c) p u.

End Lang.

(** Inversion of a [Matches] hypothesis, with the equation on the word
    that it leaves split on its first component. *)
Ltac inv_matches H :=
  inversion H; subst; clear H;
  try match goal with
      | E : ?u ++ _ = [] |- _ =>
          apply app_eq_nil in E; destruct E; subst
      | E : ?u ++ _ = _ :: _ |- _ =>
          destruct u; simpl in E; [subst | inversion E; subst; clear E]
      end.

(* ------------------------------------------------------------------ *)
(** ** The statements of the specification, in its own words *)

Module Spec1.

Import Variant1.

(** [s] occurs as a case-insensitive substring of the title, of the
    description, or of at least one tag. *)
Definition search_hit (s : string) (t : Todo) : bool :=
  RegExp.occurs_ci s (title t)
  || match description t with
     | Some d => RegExp.occurs_ci s d
     | None => false
     end
  || existsb (RegExp.occurs_ci s) (tags t).

(** The reply is 200 with exactly the documents of [c] that satisfy
    [P]. *)
Definition returns_exactly (r : option Response) (c : list Todo)
           (P : Todo -> bool) : Prop :=
  exists l, r = Some (Json 200 (Todos l))
            /\ forall t, In t l <-> In t c /\ P t = true.

Definition only_search (s : string) : Query :=
  {| q_category := None; q_priority := None; q_completed := None;
     q_search := Some s |}.

Definition only_completed (s : string) : Query :=
  {| q_category := None; q_priority := None; q_completed := Some s;
     q_search := None |}.

(** The filters of a query other than [search]. *)
Definition other_filters (q : Query) : Filter :=
  {| f_category := if_truthy (q_category q);
     f_priority := if_truthy (q_priority q);
     f_completed := match q_completed q with
                    | Some s => Some (s =? "true")%string
                    | None => None
                    end;
     f_or := None |}.

(** Descending in [createdAt]. *)
Definition newest_first (l : list Todo) : Prop :=
  StronglySorted (fun a b => (createdAt b <= createdAt a)%Z) l.

(** The schema's validators accept the stored document. *)
Definition well_formed (t : Todo) : Prop := validate t = [].

(** Every field but [completed] and [updatedAt] agrees. *)
Definition same_but_completed (a b : Todo) : Prop :=
  id a = id b /\ title a = title b /\ description a = description b
  /\ priority a = priority b /\ category a = category b
  /\ tags a = tags b /\ dueDate a = dueDate b /\ subtasks a = subtasks b
  /\ createdAt a = createdAt b.

(** A body that passes the validators of [save()]. *)
Definition valid_input (b : Body) : Prop :=
  required (b_title b) = true
  /\ required (b_priority b) = true
  /\ (exists p, b_priority b = Some p /\ in_enum p = true)
  /\ required (b_category b) = true
  /\ forall s, In s (or_default (b_subtasks b) []) ->
               required (sb_title s) = true.

(** The number of submitted subtasks that get their [id] from
    [uuidv4]. *)
Definition generated (l : list SubtaskBody) : nat :=
  List.length (filter (fun b => match sb_id b with
                                | None => true
                                | Some _ => false
                                end) l).

(** The identifier generator answers with non-empty values that no
    stored todo carries. *)
Definition fresh_ids (w : World) : Prop :=
  forall n, uuid_reads w <= n ->
            uuid w n <> "" /\ forall t, In t (todos w) -> id t <> uuid w n.

(** The subdocument built from a submitted subtask, with identifier
    [i]. *)
Definition subtask_of (b : SubtaskBody) (i : string) : Subtask :=
  {| sub_id := i; sub_title := sb_title b;
     sub_completed := or_default (sb_completed b) false |}.

(** A stored subtask echoes the submitted one. *)
Definition echoes_subtask (s : Subtask) (b : SubtaskBody) : Prop :=
  sub_title s = sb_title b
  /\ sub_completed s = or_default (sb_completed b) false
  /\ forall i, sb_id b = Some i -> sub_id s = i.

(** The fields of [t] that the update [b] does not mention keep the
    value they have in [t0]. *)
Definition frame (b : Body) (t0 t : Todo) : Prop :=
  (b_id b = None -> id t = id t0)
  /\ (b_title b = None -> title t = title t0)
  /\ (b_description b = None -> description t = description t0)
  /\ (b_completed b = None -> completed t = completed t0)
  /\ (b_priority b = None -> priority t = priority t0)
  /\ (b_category b = None -> category t = category t0)
  /\ (b_tags b = None -> tags t = tags t0)
  /\ (b_dueDate b = None -> dueDate t = dueDate t0)
  /\ (b_subtasks b = None -> subtasks t = subtasks t0)
  /\ (b_createdAt b = None -> createdAt t = createdAt t0).

End Spec1.

Module Spec2.

Import Variant2.

Definition newest_first (l : list Todo) : Prop :=
  StronglySorted (fun a b => (createdAt b <= createdAt a)%Z) l.

(** The request carries a bearer token that verifies as [a]. *)
Definition authenticated_as (P : Platform) (req : Request) (a : Identity)
  : Prop :=
  exists tok, Js.second_word (authorization req) = Some tok
              /\ tok <> ""
              /\ jwt_verify P tok (SECRET P) = Some a.



Definition frame (b : Body) (t0 t : Todo) : Prop :=
  (b_id b = None -> id t = id t0)
  /\ (b_userId b = None -> userId t = userId t0)
  /\ (b_title b = None -> title t = title t0)
  /\ (b_description b = None -> description t = description t0)
  /\ (b_completed b = None -> completed t = completed t0)
  /\ (b_priority b = None -> priority t = priority t0)
  /\ (b_category b = None -> category t = category t0)
  /\ (b_tags b = None -> tags t = tags t0)
  /\ (b_dueDate b = None -> dueDate t = dueDate t0)
  /\ (b_subtasks b = None -> subtasks t = subtasks t0)
  /\ (b_createdAt b = None -> createdAt t = createdAt t0).

End Spec2.

(* ------------------------------------------------------------------ *)
(** ** Concrete worlds and requests *)

Module Examples1.

Import Variant1.

Definition no_fields : Body :=
  {| b_id := None; b_title := None; b_description := None;
     b_completed := None; b_priority := None; b_category := None;
     b_tags := None; b_dueDate := None; b_subtasks := None;
     b_createdAt := None; b_updatedAt := None |}.

(** [{ title: "Buy milk", priority: "low", category: "errand" }]. *)
Definition buy_milk : Body :=
  {| b_id := None; b_title := Some "Buy milk"; b_description := None;
     b_completed := None; b_priority := Some "low";
     b_category := Some "errand"; b_tags := None; b_dueDate := None;
     b_subtasks := None; b_createdAt := None; b_updatedAt := None |}.

(** [{ id: "b" }]. *)
Definition rename_to_b : Body :=
  {| b_id := Some "b"; b_title := None; b_description := None;
     b_completed := None; b_priority := None; b_category := None;
     b_tags := None; b_dueDate := None; b_subtasks := None;
     b_createdAt := None; b_updatedAt := None |}.

Definition milk : Todo :=
  {| id := "a"; title := "Buy milk"; description := None;
     completed := false; priority := "low"; category := "errand";
     tags := []; dueDate := None; subtasks := [];
     createdAt := 1000; updatedAt := 1000 |}.

Definition taxes : Todo :=
  {| id := "c"; title := "File taxes"; description := Some "before April";
     completed := true; priority := "high"; category := "admin";
     tags := ["money"]; dueDate := None; subtasks := [];
     createdAt := 2000; updatedAt := 2500 |}.

(** The identifiers [u], [ux], [uxx], ... *)
Fixpoint xs (n : nat) : string :=
  match n with
  | 0 => EmptyString
  | S n' => String "x" (xs n')
  end.

Definition letters (n : nat) : string := String "u" (xs n).

(** A clock that advances by a millisecond between two reads. *)
Definition ticking : World :=
  {| todos := []; clock := fun n => (1000 + Z.of_nat n)%Z; clock_reads := 0;
     uuid := letters; uuid_reads := 0 |}.

(** A clock that still shows the millisecond at which [milk] was
    written. *)
Definition same_millisecond : World :=
  {| todos := [milk]; clock := fun _ => 1000%Z; clock_reads := 0;
     uuid := letters; uuid_reads := 0 |}.

Definition two_todos : World :=
  {| todos := [milk; taxes]; clock := fun n => (3000 + Z.of_nat n)%Z;
     clock_reads := 0; uuid := letters; uuid_reads := 0 |}.

(** [{ priority: "urgent" }]: a priority outside the enum. *)
Definition make_urgent : Body :=
  {| b_id := None; b_title := None; b_description := None;
     b_completed := None; b_priority := Some "urgent"; b_category := None;
     b_tags := None; b_dueDate := None; b_subtasks := None;
     b_createdAt := None; b_updatedAt := None |}.

(** [milk] after [PUT /api/todos/a] with that body, and the collection
    that holds it. *)
Definition urgent_milk : Todo :=
  {| id := "a"; title := "Buy milk"; description := None;
     completed := false; priority := "urgent"; category := "errand";
     tags := []; dueDate := None; subtasks := [];
     createdAt := 1000; updatedAt := 3000 |}.

Definition after_update : World :=
  {| todos := [urgent_milk; taxes]; clock := fun n => (3000 + Z.of_nat n)%Z;
     clock_reads := 1; uuid := letters; uuid_reads := 0 |}.

(** [{ id: "a" }]. *)
Definition rename_to_a : Body :=
  {| b_id := Some "a"; b_title := None; b_description := None;
     b_completed := None; b_priority := None; b_category := None;
     b_tags := None; b_dueDate := None; b_subtasks := None;
     b_createdAt := None; b_updatedAt := None |}.

(** [taxes] after [PUT /api/todos/c] with that body, and the collection
    that holds it next to [milk], whose id it now carries. *)
Definition taxes_as_a : Todo :=
  {| id := "a"; title := "File taxes"; description := Some "before April";
     completed := true; priority := "high"; category := "admin";
     tags := ["money"]; dueDate := None; subtasks := [];
     createdAt := 2000; updatedAt := 3000 |}.

Definition namesakes : World :=
  {| todos := [milk; taxes_as_a]; clock := fun n => (3000 + Z.of_nat n)%Z;
     clock_reads := 1; uuid := letters; uuid_reads := 0 |}.

End Examples1.

Module Examples2.

Import Variant2.

Definition alice : Identity := {| user_id := "uA"; user_name := "alice" |}.
Definition bob : Identity := {| user_id := "uB"; user_name := "bob" |}.

(** A platform in which the tokens [tokA] and [tokB] verify. *)
Definition platform : Platform :=
  {| bcrypt_hash := fun pw => ("h:" ++ pw)%string;
     bcrypt_compare := fun pw h => (h =? "h:" ++ pw)%string;
     jwt_sign := fun u _ => ("tok:" ++ user_id u)%string;
     jwt_verify := fun tok _ =>
       if (tok =? "tokA")%string then Some alice
       else if (tok =? "tokB")%string then Some bob
       else None;
     JWT_SECRET := None |}.

Definition no_fields : Body :=
  {| b_username := None; b_password := None; b_id := None;
     b_userId := None; b_title := None; b_description := None;
     b_completed := None; b_priority := None; b_category := None;
     b_tags := None; b_dueDate := None; b_subtasks := None;
     b_createdAt := None; b_updatedAt := None |}.

(** [{ id: "t9", userId: "uB" }]. *)
Definition give_away : Body :=
  {| b_username := None; b_password := None; b_id := Some "t9";
     b_userId := Some "uB"; b_title := None; b_description := None;
     b_completed := None; b_priority := None; b_category := None;
     b_tags := None; b_dueDate := None; b_subtasks := None;
     b_createdAt := None; b_updatedAt := None |}.

Definition credentials (name pw : string) : Body :=
  {| b_username := Some name; b_password := Some pw; b_id := None;
     b_userId := None; b_title := None; b_description := None;
     b_completed := None; b_priority := None; b_category := None;
     b_tags := None; b_dueDate := None; b_subtasks := None;
     b_createdAt := None; b_updatedAt := None |}.

Definition todo (i owner cat : string) (created : Z) : Todo :=
  {| id := i; userId := owner; title := "Report"; description := None;
     completed := false; priority := "medium"; category := cat;
     tags := []; dueDate := None; subtasks := [];
     createdAt := created; updatedAt := created |}.

Definition bobs : Todo := todo "t1" "uB" "work" 5.
Definition alices_work : Todo := todo "t2" "uA" "work" 10.
Definition alices_home : Todo := todo "t3" "uA" "home" 20.

Definition world : World :=
  {| todos := [bobs; alices_work; alices_home];
     users := [ {| _id := "uA"; username := "alice"; password := "h:secret" |};
                {| _id := "uB"; username := "bob"; password := "h:hunter2" |} ];
     clock := fun n => (1000 + Z.of_nat n)%Z; clock_reads := 0;
     uuid := fun _ => "fresh"; uuid_reads := 0;
     objectId := fun _ => "oid"; objectId_reads := 0 |}.

(** A collection in which Alice owns a todo that carries the id of
    Bob's. *)
Definition clashing_ids : World :=
  {| todos := [bobs; todo "t1" "uA" "home" 30];
     users := [];
     clock := fun n => (1000 + Z.of_nat n)%Z; clock_reads := 0;
     uuid := fun _ => "fresh"; uuid_reads := 0;
     objectId := fun _ => "oid"; objectId_reads := 0 |}.

Definition request (m : Method) (p : list string) (auth : option string)
           (q : list (string * string)) (b : Body) : Request :=
  {| method := m; path := p; authorization := auth; query := q; body := b;
     params := []; user := None |}.

Definition as_alice : option string := Some "Bearer tokA".




End Examples2.

(* ------------------------------------------------------------------ *)
(** ** Further statements about the handlers *)

Module Props1.

Import Variant1.

(** [GET /api/todos] without any parameter. *)
Definition no_params : Query :=
  {| q_category := None; q_priority := None; q_completed := None;
     q_search := None |}.

(** A text parameter selects the todos whose field equals it; an absent
    or empty parameter selects all. *)
Definition text_selects (param : option string) (field : string) : bool :=
  match param with
  | Some v => (v =? "")%string || (field =? v)%string
  | None => true
  end.

(** The todos that the parameters [category], [priority] and
    [completed] select. *)
Definition selected (q : Query) (t : Todo) : bool :=
  text_selects (q_category q) (category t)
  && text_selects (q_priority q) (priority t)
  && match q_completed q with
     | Some s => Bool.eqb (completed t) (s =? "true")%string
     | None => true
     end.

(** The filter [{ id: i }]. *)
Definition names (i : string) : Todo -> bool :=
  fun t => (id t =? i)%string.

(** Every stored todo passes the validators of the schema. *)
Definition all_well_formed (w : World) : Prop :=
  Forall Spec1.well_formed (todos w).

(** The ids of the collection are pairwise distinct. *)
Definition unique_ids (w : World) : Prop := NoDup (map id (todos w)).

(** Every field of the parent but [subtasks] and [updatedAt] agrees. *)
Definition same_parent (a b : Todo) : Prop :=
  id a = id b /\ title a = title b /\ description a = description b
  /\ completed a = completed b /\ priority a = priority b
  /\ category a = category b /\ tags a = tags b /\ dueDate a = dueDate b
  /\ createdAt a = createdAt b.

(** The subtask [s'] is [s] with the fields of the body written over
    it. *)
Definition merged (b : SubtaskBody) (s s' : Subtask) : Prop :=
  sub_id s' = Variant1.or_default (sb_id b) (sub_id s)
  /\ sub_completed s' = Variant1.or_default (sb_completed b) (sub_completed s)
  /\ (forall ti, sb_title b = Some ti -> sub_title s' = Some ti)
  /\ (sb_title b = None -> sub_title s' = sub_title s).

End Props1.

Module Props2.

Import Variant2.

(** The usernames of the collection are pairwise distinct. *)
Definition unique_usernames (w : World) : Prop :=
  NoDup (map username (users w)).

(** A string without a space. *)
Definition no_space (s : string) : bool :=
  forallb (fun c => negb (Ascii.eqb c " ")) (list_ascii_of_string s).

(** A string without a comma. *)
Definition no_comma (s : string) : bool :=
  forallb (fun c => negb (Ascii.eqb c ",")) (list_ascii_of_string s).

(** The [Authorization] header [<scheme> <token>]. *)
Definition header (scheme tok : string) : option string :=
  Some (scheme ++ String " " tok)%string.


(** The body [{ username, password }]. *)
Definition credentials_of (b : Body) (name pw : string) : Prop :=
  b_username b = Some name /\ b_password b = Some pw.

(** A body of Create that passes the validators of [save()] for the
    owner [uid]. *)
Definition valid_input (uid : string) (b : Body) : Prop :=
  uid <> ""
  /\ required (b_title b) = true
  /\ (exists p, b_priority b = Some p /\ in_enum p = true)
  /\ required (b_category b) = true
  /\ forall s, In s (or_default (b_subtasks b) []) ->
               required (sb_title s) = true.

(** What a todo route may do to the world on behalf of the caller [a]:
    nothing, append a todo owned by [a], rewrite or remove a todo owned
    by [a].  The users are never touched. *)
Definition todo_effect (a : Identity) (w w' : World) : Prop :=
  users w' = users w
  /\ (todos w' = todos w
      \/ (exists t, todos w' = todos w ++ [t] /\ userId t = user_id a)
      \/ (exists k T T',
            nth_error (todos w) k = Some T /\ owned_by a T = true
            /\ todos w' = Mongo.replace k T' (todos w))
      \/ (exists k T,
            nth_error (todos w) k = Some T /\ owned_by a T = true
            /\ todos w' = Mongo.remove k (todos w))).

(** What the account routes may do: nothing to the todos, and at most
    one new user, under a name that was free. *)
Definition account_effect (w w' : World) : Prop :=
  todos w' = todos w
  /\ (users w' = users w
      \/ exists u, users w' = users w ++ [u]
                   /\ forall x, In x (users w) -> username x <> username u).

(** A query string within what the handlers are written for: at most
    1000 parameters, which is as many as the query parser reads, and no
    key in bracket notation, which the parser would turn into a nested
    value. *)
Definition plain_key (k : string) : bool :=
  forallb (fun c => negb (Ascii.eqb c "[")) (list_ascii_of_string k).

Definition plain_query (q : list (string * string)) : Prop :=
  (List.length q <= 1000)%nat
  /\ Forall (fun kv => plain_key (fst kv) = true) q.

(** The key [k] does not occur in the query string. *)
Definition no_key (k : string) (q : list (string * string)) : Prop :=
  forall v, ~ In (k, v) q.

(** The comma-separated list of the values [ps]. *)
Fixpoint comma_list (ps : list string) : string :=
  match ps with
  | [] => EmptyString
  | [p] => p
  | p :: ps' => (p ++ String "," (comma_list ps'))%string
  end.

End Props2.

Module Examples3.

Import Variant1.

Definition with_subtask : Todo :=
  {| id := "p"; title := "Move house"; description := None;
     completed := false; priority := "high"; category := "home";
     tags := []; dueDate := None;
     subtasks := [ {| sub_id := "s1"; sub_title := Some "Pack";
                      sub_completed := false |};
                   {| sub_id := "s2"; sub_title := Some "Clean";
                      sub_completed := false |} ];
     createdAt := 500; updatedAt := 500 |}.

Definition house : World :=
  {| todos := [Examples1.milk; with_subtask];
     clock := fun n => (3000 + Z.of_nat n)%Z; clock_reads := 0;
     uuid := Examples1.letters; uuid_reads := 0 |}.

(** [{ completed: true }]. *)
Definition done : SubtaskBody :=
  {| sb_id := None; sb_title := None; sb_completed := Some true |}.

(** [{ title: "Buy milk", category: "errand" }]: no priority. *)
Definition no_priority : Body :=
  {| b_id := None; b_title := Some "Buy milk"; b_description := None;
     b_completed := None; b_priority := None;
     b_category := Some "errand"; b_tags := None; b_dueDate := None;
     b_subtasks := None; b_createdAt := None; b_updatedAt := None |}.

End Examples3.

Module Examples4.

Import Variant2.

(** A platform whose tokens are [tok-<id>] and verify as the user
    [id], here for Alice and for the user registered next. *)
Definition platform : Platform :=
  {| bcrypt_hash := fun pw => ("h:" ++ pw)%string;
     bcrypt_compare := fun pw h => (h =? "h:" ++ pw)%string;
     jwt_sign := fun u _ => ("tok-" ++ user_id u)%string;
     jwt_verify := fun tok _ =>
       if (tok =? "tok-uA")%string then Some Examples2.alice
       else if (tok =? "tok-oid")%string
       then Some {| user_id := "oid"; user_name := "carol" |}
       else None;
     JWT_SECRET := Some "s3cret" |}.

(** [{ title: "Taxes", priority: "high", category: "admin",
       userId: "uB", id: "mine", completed: true }]. *)
Definition taxes_for_bob : Body :=
  {| b_username := None; b_password := None; b_id := Some "mine";
     b_userId := Some "uB"; b_title := Some "Taxes"; b_description := None;
     b_completed := Some true; b_priority := Some "high";
     b_category := Some "admin"; b_tags := None; b_dueDate := None;
     b_subtasks := None; b_createdAt := None; b_updatedAt := None |}.

End Examples4.

(* ------------------------------------------------------------------ *)
(** ** Facts about the collection operations *)

Module MongoFacts.

Import Mongo.

Section Facts.

Variable D : Type.
Implicit Types (p : D -> bool) (c : list D) (d : D) (k : nat).

Lemma findOne_Some p c k d :
  findOne p c = Some (k, d) ->
  nth_error c k = Some d /\ p d = true.
Proof.
  revert k. induction c as [|x c IH]; intros k H; simpl in H.
  - discriminate.
  - destruct (p x) eqn:Hx.
    + inversion H; subst. auto.
    + destruct (findOne p c) as [[j y]|]; [|discriminate].
      inversion H; subst. simpl. apply IH. reflexivity.
Qed.

Lemma findOne_None p c :
  findOne p c = None <-> (forall x, In x c -> p x = false).
Proof.
  induction c as [|x c IH]; simpl.
  - split; [intros _ y []|reflexivity].
  - destruct (p x) eqn:Hx.
    + split; [discriminate|].
      intros H. rewrite (H x) in Hx by auto. discriminate.
    + destruct (findOne p c) as [[j y]|] eqn:Hf.
      * split; [discriminate|].
        intros H. destruct IH as [_ IH].
        assert (Hn : Some (j, y) = @None (nat * D))
          by (apply IH; intros z Hz; apply H; auto).
        discriminate.
      * split; [|reflexivity].
        intros _ z [<-|Hz]; [assumption|].
        destruct IH as [IH _]. apply IH; auto.
Qed.

Lemma findOne_ext p q c :
  (forall x, In x c -> p x = q x) -> findOne p c = findOne q c.
Proof.
  induction c as [|x c IH]; intros H; simpl; [reflexivity|].
  rewrite <- (H x) by (left; reflexivity).
  rewrite IH by (intros; apply H; right; assumption). reflexivity.
Qed.

Lemma nth_error_replace_eq c k d d' :
  nth_error c k = Some d -> nth_error (replace k d' c) k = Some d'.
Proof.
  revert k. induction c as [|x c IH]; intros [|k] H; simpl in *;
    try discriminate; auto.
Qed.

Lemma nth_error_replace_neq c k j d' :
  j <> k -> nth_error (replace k d' c) j = nth_error c j.
Proof.
  revert k j. induction c as [|x c IH]; intros [|k] [|j] H; simpl;
    try reflexivity; try congruence.
  apply IH. congruence.
Qed.

Lemma length_replace c k d' :
  List.length (replace k d' c) = List.length c.
Proof.
  revert k. induction c as [|x c IH]; intros [|k]; simpl; auto.
Qed.

(** A document written back is found again by a filter it still
    satisfies. *)
Lemma findOne_replace p c k d d' :
  findOne p c = Some (k, d) -> p d' = true ->
  findOne p (replace k d' c) = Some (k, d').
Proof.
  revert k. induction c as [|x c IH]; intros k H Hd'; simpl in H.
  - discriminate.
  - destruct (p x) eqn:Hx.
    + inversion H; subst. simpl. rewrite Hd'. reflexivity.
    + destruct (findOne p c) as [[j y]|] eqn:Hf; [|discriminate].
      inversion H; subst. simpl. rewrite Hx.
      rewrite (IH j eq_refl Hd'). reflexivity.
Qed.

Lemma In_remove c k x : In x (remove k c) -> In x c.
Proof.
  revert k. induction c as [|y c IH]; intros [|k] H; simpl in *; auto.
  destruct H as [H|H]; eauto.
Qed.

(** *** Sorting *)

Variable key : D -> Z.

Lemma insert_desc_perm x l : Permutation (insert_desc key x l) (x :: l).
Proof.
  induction l as [|y l IH]; simpl; [reflexivity|].
  destruct (key y <=? key x)%Z; [reflexivity|].
  rewrite IH. apply perm_swap.
Qed.

Lemma sort_desc_perm l : Permutation (sort_desc key l) l.
Proof.
  induction l as [|x l IH]; simpl; [reflexivity|].
  rewrite insert_desc_perm. constructor. exact IH.
Qed.

Lemma In_sort_desc l x : In x (sort_desc key l) <-> In x l.
Proof.
  split; apply Permutation_in;
    [apply sort_desc_perm | apply Permutation_sym, sort_desc_perm].
Qed.

Lemma insert_desc_sorted x l :
  StronglySorted (desc key) l -> StronglySorted (desc key) (insert_desc key x l).
Proof.
  induction l as [|y l IH]; intros Hs; simpl.
  - constructor; constructor.
  - inversion Hs as [|? ? Hs' Hall]; subst.
    destruct (key y <=? key x)%Z eqn:Hc.
    + apply Z.leb_le in Hc. constructor; [assumption|].
      constructor; [exact Hc|].
      eapply Forall_impl; [|exact Hall].
      intros z Hz. unfold desc in *. lia.
    + apply Z.leb_gt in Hc. constructor; [auto|].
      apply Forall_forall. intros z Hz.
      apply (Permutation_in _ (insert_desc_perm x l)) in Hz.
      destruct Hz as [<-|Hz]; [unfold desc; lia|].
      rewrite Forall_forall in Hall. auto.
Qed.

Lemma sort_desc_sorted l : StronglySorted (desc key) (sort_desc key l).
Proof.
  induction l as [|x l IH]; simpl; [constructor|].
  apply insert_desc_sorted, IH.
Qed.

End Facts.

End MongoFacts.

(* ------------------------------------------------------------------ *)
(** ** The matcher computes the language of the pattern *)

Module RegExpFacts.

Import RegExp Lang.

Section Matcher.

Variable ic : bool.

Lemma nullable_Matches r : nullable r = true <-> Matches ic r [].
Proof.
  induction r as [| | a | | r IHr s IHs | r IHr s IHs | r IHr]; simpl.
  - split; [discriminate | intros H; inversion H].
  - split; [constructor | reflexivity].
  - split; [discriminate | intros H; inversion H].
  - split; [discriminate | intros H; inversion H].
  - rewrite andb_true_iff, IHr, IHs. split.
    + intros [Hr Hs]. change (@nil ascii) with (@nil ascii ++ []).
      constructor; assumption.
    + intros H. inv_matches H. auto.
  - rewrite orb_true_iff, IHr, IHs. split.
    + intros [H|H]; [apply M_AltL | apply M_AltR]; assumption.
    + intros H. inv_matches H; auto.
  - split; [constructor | reflexivity].
Qed.

(** A non-empty word of [Star r] starts with a non-empty word of
    [r]. *)
Lemma Star_cons r c s :
  Matches ic (Star r) (c :: s) ->
  exists u v, s = u ++ v /\ Matches ic r (c :: u) /\ Matches ic (Star r) v.
Proof.
  intros H. remember (Star r) as e eqn:He. remember (c :: s) as w eqn:Hw.
  revert c s Hw.
  induction H as [| | | | | | |r' u v Hu _ Hv IHv]; intros c0 s0 Hw;
    try discriminate.
  inversion He; subst r'. destruct u as [|x u]; simpl in Hw.
  - apply (IHv eq_refl c0 s0 Hw).
  - inversion Hw; subst. exists u, v. auto.
Qed.

Lemma Matches_cons_app r t c u v :
  Matches ic r (c :: u) -> Matches ic t v ->
  Matches ic (Cat r t) (c :: u ++ v).
Proof.
  intros Hu Hv. change (c :: u ++ v) with ((c :: u) ++ v).
  constructor; assumption.
Qed.

Lemma deriv_Matches r c s :
  Matches ic (deriv ic c r) s <-> Matches ic r (c :: s).
Proof.
  revert s.
  induction r as [| | a | | r IHr t IHt | r IHr t IHt | r IHr];
    intros s; simpl.
  - split; intros H; inversion H.
  - split; intros H; inversion H.
  - destruct (same_char ic a c) eqn:Hc; split; intros H; inv_matches H.
    + constructor. assumption.
    + constructor.
    + congruence.
  - destruct (line_terminator c) eqn:Hc; split; intros H; inv_matches H.
    + congruence.
    + constructor. assumption.
    + constructor.
  - destruct (nullable r) eqn:Hn.
    + split; intros H; inv_matches H.
      * match goal with H : Matches _ (Cat _ _) _ |- _ => inv_matches H end.
        apply Matches_cons_app; [apply IHr|]; assumption.
      * change (c :: s) with ([] ++ c :: s). constructor.
        -- apply nullable_Matches. assumption.
        -- apply IHt. assumption.
      * apply M_AltR. apply IHt. assumption.
      * apply M_AltL. constructor; [apply IHr|]; assumption.
    + split; intros H; inv_matches H.
      * apply Matches_cons_app; [apply IHr|]; assumption.
      * match goal with H : Matches _ r [] |- _ =>
          apply nullable_Matches in H; congruence end.
      * constructor; [apply IHr|]; assumption.
  - split; intros H; inv_matches H.
    + apply M_AltL. apply IHr. assumption.
    + apply M_AltR. apply IHt. assumption.
    + apply M_AltL. apply IHr. assumption.
    + apply M_AltR. apply IHt. assumption.
  - split.
    + intros H. inv_matches H.
      change (c :: u ++ v) with ((c :: u) ++ v).
      apply M_Star_app; [apply IHr|]; assumption.
    + intros H. apply Star_cons in H. destruct H as (u & v & -> & Hu & Hv).
      constructor; [|assumption]. apply IHr. assumption.
Qed.

(** [matches_prefix] decides whether a prefix is a word of the
    pattern. *)
Lemma matches_prefix_spec r s :
  matches_prefix ic r s = true <->
  exists u v, s = u ++ v /\ Matches ic r u.
Proof.
  revert r. induction s as [|c s IH]; intros r; simpl.
  - rewrite orb_false_r, nullable_Matches. split.
    + intros H. exists [], []. auto.
    + intros (u & v & Heq & H). symmetry in Heq.
      apply app_eq_nil in Heq. destruct Heq; subst. assumption.
  - rewrite orb_true_iff, nullable_Matches, IH. split.
    + intros [H|(u & v & -> & H)].
      * exists [], (c :: s). auto.
      * exists (c :: u), v. split; [reflexivity|].
        apply deriv_Matches. assumption.
    + intros (u & v & Heq & H). destruct u as [|x u]; simpl in Heq.
      * left. assumption.
      * inversion Heq; subst. right. exists u, v. split; [reflexivity|].
        apply deriv_Matches. assumption.
Qed.

(** [matches_somewhere] decides whether a substring is a word of the
    pattern. *)
Lemma matches_somewhere_spec r s :
  matches_somewhere ic r s = true <->
  exists a u b, s = a ++ u ++ b /\ Matches ic r u.
Proof.
  induction s as [|c s IH]; cbn [matches_somewhere].
  - rewrite orb_false_r, matches_prefix_spec. split.
    + intros (u & v & Heq & H). exists [], u, v. auto.
    + intros (a & u & b & Heq & H). destruct a; [|discriminate].
      exists u, b. auto.
  - rewrite orb_true_iff, matches_prefix_spec, IH. split.
    + intros [(u & v & Heq & H)|(a & u & b & -> & H)].
      * exists [], u, v. auto.
      * exists (c :: a), u, b. auto.
    + intros (a & u & b & Heq & H). destruct a as [|x a]; simpl in Heq.
      * left. exists u, b. auto.
      * inversion Heq; subst. right. exists a, u, b. auto.
Qed.

End Matcher.

(** *** Patterns without syntax characters *)

Lemma Matches_literal p u :
  Matches true (cat_list (map Chr p)) u <-> same_word p u.
Proof.
  unfold same_word. revert u. induction p as [|a p IH]; intros u; simpl.
  - split; intros H; inversion H; constructor.
  - split; intros H.
    + inv_matches H.
      match goal with H : Matches _ (Chr _) _ |- _ => inv_matches H end.
      simpl. constructor; [|apply IH; assumption].
      apply Ascii.eqb_eq. assumption.
    + inversion H as [|? c ? v Hc Hv]; subst.
      change (c :: v) with ([c] ++ v). constructor; [|apply IH; assumption].
      constructor. simpl. apply Ascii.eqb_eq. assumption.
Qed.

Lemma ci_prefix_spec p s :
  ci_prefix p s = true <-> exists u v, s = u ++ v /\ same_word p u.
Proof.
  unfold same_word. revert s. induction p as [|a p IH]; intros s; simpl.
  - split; [|reflexivity]. intros _. exists [], s. split; [reflexivity|].
    constructor.
  - destruct s as [|c s].
    + split; [discriminate|]. intros (u & v & Heq & H).
      inversion H; subst. discriminate.
    + rewrite andb_true_iff, Ascii.eqb_eq, IH. split.
      * intros [Hc (u & v & -> & H)]. exists (c :: u), v.
        split; [reflexivity|]. constructor; assumption.
      * intros (u & v & Heq & H). inversion H as [|? x ? u' Hx Hu']; subst.
        inversion Heq; subst. split; [assumption|]. exists u', v. auto.
Qed.

Lemma ci_infix_spec p s :
  ci_infix p s = true <-> exists a u b, s = a ++ u ++ b /\ same_word p u.
Proof.
  induction s as [|c s IH]; cbn [ci_infix].
  - rewrite orb_false_r, ci_prefix_spec. split.
    + intros (u & v & Heq & H). exists [], u, v. auto.
    + intros (a & u & b & Heq & H). destruct a; [|discriminate].
      exists u, b. auto.
  - rewrite orb_true_iff, ci_prefix_spec, IH. split.
    + intros [(u & v & Heq & H)|(a & u & b & -> & H)].
      * exists [], u, v. auto.
      * exists (c :: a), u, b. auto.
    + intros (a & u & b & Heq & H). destruct a as [|x a]; simpl in Heq.
      * left. exists u, b. auto.
      * inversion Heq; subst. right. exists a, u, b. auto.
Qed.

(** Under the [i] flag a literal pattern is found exactly where the
    search string occurs, case ignored. *)
Lemma matches_somewhere_literal p s :
  matches_somewhere true (cat_list (map Chr p)) s = ci_infix p s.
Proof.
  apply eq_true_iff_eq.
  rewrite matches_somewhere_spec, ci_infix_spec.
  split; intros (a & u & b & Heq & H); exists a, u, b;
    (split; [assumption | apply Matches_literal; assumption]).
Qed.

Lemma plain_char c :
  syntax_char c = false ->
  Ascii.eqb c "(" = false /\ Ascii.eqb c ")" = false
  /\ Ascii.eqb c "|" = false /\ Ascii.eqb c "*" = false
  /\ Ascii.eqb c "+" = false /\ Ascii.eqb c "?" = false
  /\ Ascii.eqb c "." = false /\ Ascii.eqb c "092" = false.
Proof.
  unfold syntax_char. simpl. intros H.
  repeat match goal with
         | H : _ || _ = false |- _ =>
             apply orb_false_iff in H; destruct H
         end.
  repeat split; assumption.
Qed.

Lemma parse_plain s acc q :
  forallb (fun c => negb (syntax_char c)) s = true ->
  parse [] {| alts := []; atoms := acc |} q s
  = Pattern (cat_list (rev acc ++ map Chr s)).
Proof.
  revert acc q. induction s as [|c s IH]; intros acc q H.
  - simpl. rewrite app_nil_r. reflexivity.
  - simpl in H. apply andb_true_iff in H. destruct H as [Hc Hs].
    apply negb_true_iff in Hc.
    destruct (plain_char c Hc)
      as (H1 & H2 & H3 & H4 & H5 & H6 & H7 & H8).
    cbn [parse]. rewrite H1, H2, H3, H4, H5, H6, H7, H8, Hc. simpl orb.
    cbv iota. unfold push_atom. cbn [alts atoms].
    rewrite (IH (Chr c :: acc) Atom Hs). simpl rev.
    rewrite <- app_assoc. reflexivity.
Qed.

Lemma new_plain s :
  plain s = true ->
  new s "i"
  = Compiled {| source := cat_list (map Chr (list_ascii_of_string s));
                ignoreCase := true |}.
Proof.
  intros H. unfold new, empty_frame.
  rewrite (parse_plain _ [] NoAtom H). reflexivity.
Qed.

End RegExpFacts.

(* ------------------------------------------------------------------ *)
(** ** Variant 1: listing *)

Module ListFacts1.

Import Variant1 Spec1 Monad.

Lemma existsb_agree {A : Type} (f g : A -> bool) (l : list A) :
  (forall x, f x = g x) -> existsb f l = existsb g l.
Proof.
  intros H. induction l as [|x l IH]; simpl; [reflexivity|].
  rewrite H, IH. reflexivity.
Qed.

Lemma occurs_ci_empty t : RegExp.occurs_ci "" t = true.
Proof.
  unfold RegExp.occurs_ci. simpl.
  destruct (list_ascii_of_string t); reflexivity.
Qed.

Lemma search_hit_empty t : search_hit "" t = true.
Proof. unfold search_hit. rewrite occurs_ci_empty. reflexivity. Qed.

Lemma test_plain s x :
  RegExp.test
    {| RegExp.source :=
         RegExp.cat_list (map RegExp.Chr (list_ascii_of_string s));
       RegExp.ignoreCase := true |} x
  = RegExp.occurs_ci s x.
Proof.
  unfold RegExp.test, RegExp.occurs_ci. simpl.
  apply RegExpFacts.matches_somewhere_literal.
Qed.

(** The filter built from a search string without syntax characters
    selects the todos in which the string occurs. *)
Lemma build_filter_plain q s :
  q_search q = Some s -> RegExp.plain s = true ->
  exists f, build_filter q = Built_filter f
            /\ forall t, matches f t
                         = matches (other_filters q) t && search_hit s t.
Proof.
  intros Hq Hs. unfold build_filter. rewrite Hq.
  unfold if_truthy at 1. simpl Js.truthy.
  destruct (s =? "")%string eqn:He; simpl negb; cbv iota.
  - apply String.eqb_eq in He. subst s. eexists. split; [reflexivity|].
    intros t. rewrite search_hit_empty, andb_true_r. reflexivity.
  - rewrite (RegExpFacts.new_plain s Hs). eexists. split; [reflexivity|].
    intros t. unfold matches, other_filters, search_hit. simpl.
    rewrite !test_plain.
    assert (Ht : existsb
                   (RegExp.test
                      {| RegExp.source :=
                           RegExp.cat_list
                             (map RegExp.Chr (list_ascii_of_string s));
                         RegExp.ignoreCase := true |}) (tags t)
                 = existsb (RegExp.occurs_ci s) (tags t)).
    { apply existsb_agree. intros x. apply test_plain. }
    rewrite Ht.
    destruct (description t); rewrite ?test_plain;
      repeat (rewrite orb_false_r || rewrite orb_false_l
              || rewrite andb_true_r || rewrite orb_assoc);
      reflexivity.
Qed.

Lemma get_todos_filter q f w :
  build_filter q = Built_filter f ->
  get_todos q w
  = (Some (Json 200 (Todos (Mongo.sort_desc createdAt
                              (Mongo.find (matches f) (todos w))))), w).
Proof. intros H. unfold get_todos. rewrite H. reflexivity. Qed.

Lemma only_completed_filter s :
  build_filter (only_completed s)
  = Built_filter {| f_category := None; f_priority := None;
                    f_completed := Some (s =? "true")%string;
                    f_or := None |}.
Proof. reflexivity. Qed.

Lemma find_agree (f g : Todo -> bool) (c : list Todo) :
  (forall t, f t = g t) -> Mongo.find f c = Mongo.find g c.
Proof. intros H. apply filter_ext. exact H. Qed.

(** C9, amended.  For every search string [s] without a
    regular-expression syntax character, List with [search = s] and no
    other filter answers 200 with exactly the stored todos in which [s]
    occurs, ASCII case ignored, as a substring of the title, of the
    description or of a tag, newest first. *)
Theorem search_plain_string (s : string) (w : World) :
  RegExp.plain s = true ->
  get_todos (only_search s) w
  = (Some (Json 200 (Todos (Mongo.sort_desc createdAt
                              (filter (search_hit s) (todos w))))), w)
  /\ returns_exactly (fst (get_todos (only_search s) w)) (todos w)
                     (search_hit s)
  /\ newest_first (Mongo.sort_desc createdAt
                     (filter (search_hit s) (todos w))).
Proof.
  intros Hs.
  destruct (build_filter_plain (only_search s) eq_refl Hs) as (f & Hf & Hm).
  assert (Hget : get_todos (only_search s) w
                 = (Some (Json 200 (Todos (Mongo.sort_desc createdAt
                              (filter (search_hit s) (todos w))))), w)).
  { rewrite (get_todos_filter _ w Hf).
    rewrite (find_agree (matches f) (search_hit s))
      by (intros t; rewrite Hm; reflexivity).
    reflexivity. }
  split; [exact Hget|]. split.
  - rewrite Hget. eexists. split; [reflexivity|].
    intros t. rewrite MongoFacts.In_sort_desc. apply filter_In.
  - apply MongoFacts.sort_desc_sorted.
Qed.

(** The search string [MILK] finds the todo titled [Buy milk]. *)
Lemma search_plain_string_witness :
  RegExp.plain "MILK" = true
  /\ fst (get_todos (only_search "MILK") Examples1.two_todos)
     = Some (Json 200 (Todos [Examples1.milk])).
Proof.
  split; [reflexivity|].
  destruct (search_plain_string "MILK" Examples1.two_todos eq_refl)
    as [H _].
  rewrite H. reflexivity.
Defined.

(** C9 as stated fails: [search = .] returns the todo titled
    [Buy milk], in which no dot occurs. *)
Lemma search_dot_is_a_pattern :
  ~ returns_exactly
      (fst (get_todos (only_search ".") Examples1.same_millisecond))
      (todos Examples1.same_millisecond) (search_hit ".").
Proof.
  intros (l & Hl & Hin).
  vm_compute in Hl. injection Hl as <-.
  destruct (Hin Examples1.milk) as [H _].
  destruct (H (or_introl eq_refl)) as [_ Hhit].
  vm_compute in Hhit. discriminate.
Qed.

(** An unbalanced parenthesis is rejected by the [RegExp] constructor:
    the reply is 500. *)
Lemma search_open_paren_throws w :
  get_todos (only_search "(") w
  = (Some (Json 500 (Error "Server error" (Some (InvalidRegExp "(")))), w).
Proof. reflexivity. Qed.

(** C10.  The [completed] parameter of List is compared with the exact
    string [true].  A value other than that string makes List filter on
    [completed = false]: the filter object says so, no returned todo is
    completed, and with no other parameter the reply holds exactly the
    todos that are not completed.  The string [true] itself, and only
    it, makes List filter on [completed = true] in the same three
    senses. *)
Theorem completed_other_than_true (q : Query) (s : string) (w : World) :
  q_completed q = Some s ->
  (s <> "true" ->
   (forall f, build_filter q = Built_filter f -> f_completed f = Some false)
   /\ (forall l, fst (get_todos q w) = Some (Json 200 (Todos l)) ->
                 forall t, In t l -> completed t = false)
   /\ get_todos (only_completed s) w
      = (Some (Json 200 (Todos (Mongo.sort_desc createdAt
                                  (filter (fun t => negb (completed t))
                                          (todos w))))), w))
  /\ (s = "true" ->
      (forall f, build_filter q = Built_filter f -> f_completed f = Some true)
      /\ (forall l, fst (get_todos q w) = Some (Json 200 (Todos l)) ->
                    forall t, In t l -> completed t = true)
      /\ get_todos (only_completed s) w
         = (Some (Json 200 (Todos (Mongo.sort_desc createdAt
                                     (filter (fun t => completed t)
                                             (todos w))))), w)).
Proof.
  intros Hq.
  assert (Hf : forall f, build_filter q = Built_filter f ->
                         f_completed f = Some (s =? "true")%string).
  { intros f. unfold build_filter. rewrite Hq.
    destruct (if_truthy (q_search q)) as [x|].
    - destruct (RegExp.new x "i"); intros H; inversion H; reflexivity.
    - intros H; inversion H; reflexivity. }
  assert (Hl : forall l, fst (get_todos q w) = Some (Json 200 (Todos l)) ->
                         forall t, In t l ->
                                   completed t = (s =? "true")%string).
  { intros l Hl t Ht. unfold get_todos in Hl.
    destruct (build_filter q) as [f| |] eqn:Hb; simpl in Hl;
      try discriminate.
    injection Hl as <-.
    apply MongoFacts.In_sort_desc in Ht. apply filter_In in Ht.
    destruct Ht as [_ Ht]. unfold matches in Ht.
    rewrite (Hf f eq_refl) in Ht. simpl in Ht.
    apply andb_true_iff in Ht. destruct Ht as [Ht _].
    apply andb_true_iff in Ht. destruct Ht as [_ Ht].
    apply Bool.eqb_prop in Ht. exact Ht. }
  assert (Hg : get_todos (only_completed s) w
               = (Some (Json 200
                          (Todos (Mongo.sort_desc createdAt
                                    (filter
                                       (fun t => Bool.eqb (completed t)
                                                   (s =? "true")%string)
                                       (todos w))))), w)).
  { rewrite (get_todos_filter _ w (only_completed_filter s)).
    rewrite (find_agree _ (fun t => Bool.eqb (completed t)
                                      (s =? "true")%string));
      [reflexivity|].
    intros t. unfold matches. simpl.
    destruct (Bool.eqb (completed t) (s =? "true")%string); reflexivity. }
  split.
  - intros Hs.
    assert (Hne : (s =? "true")%string = false)
      by (apply String.eqb_neq; exact Hs).
    rewrite Hne in Hf, Hl, Hg.
    split; [exact Hf|]. split; [exact Hl|].
    rewrite Hg.
    rewrite (filter_ext (fun t => Bool.eqb (completed t) false)
                        (fun t => negb (completed t))); [reflexivity|].
    intros t. destruct (completed t); reflexivity.
  - intros Hs.
    assert (He : (s =? "true")%string = true)
      by (apply String.eqb_eq; exact Hs).
    rewrite He in Hf, Hl, Hg.
    split; [exact Hf|]. split; [exact Hl|].
    rewrite Hg.
    rewrite (filter_ext (fun t => Bool.eqb (completed t) true)
                        (fun t => completed t)); [reflexivity|].
    intros t. destruct (completed t); reflexivity.
Qed.

(** [completed=True] lists the todos that are not completed,
    [completed=true] those that are. *)
Lemma completed_other_than_true_witness :
  fst (get_todos (only_completed "True") Examples1.two_todos)
  = Some (Json 200 (Todos [Examples1.milk]))
  /\ fst (get_todos (only_completed "true") Examples1.two_todos)
     = Some (Json 200 (Todos [Examples1.taxes])).
Proof.
  split.
  - assert (Hs : "True" <> "true") by discriminate.
    destruct (completed_other_than_true (only_completed "True")
                Examples1.two_todos eq_refl) as [H _].
    destruct (H Hs) as (_ & _ & H').
    rewrite H'. reflexivity.
  - destruct (completed_other_than_true (only_completed "true")
                Examples1.two_todos eq_refl) as [_ H].
    destruct (H eq_refl) as (_ & _ & H').
    rewrite H'. reflexivity.
Defined.

End ListFacts1.

(* ------------------------------------------------------------------ *)
(** ** Variant 1: create, update, toggle *)

Module TodoFacts1.

Import Variant1 Spec1 Monad.

Lemma mapM_cons {W A B : Type} (f : A -> M W B) (a : A) (l : list A)
      (w : W) :
  mapM f (a :: l) w
  = let (b, w1) := f a w in
    let (bs, w2) := mapM f l w1 in (b :: bs, w2).
Proof.
  cbn [mapM]. unfold bind, ret. destruct (f a w) as [b w1].
  destruct (mapM f l w1) as [bs w2]. reflexivity.
Qed.

Lemma new_subtask_given b i w :
  sb_id b = Some i -> new_subtask b w = (subtask_of b i, w).
Proof.
  intros H. unfold new_subtask, bind, ret. rewrite H. reflexivity.
Qed.

Lemma new_subtask_drawn b w :
  sb_id b = None ->
  new_subtask b w = (subtask_of b (uuid w (uuid_reads w)), snd (uuidv4 w)).
Proof.
  intros H. unfold new_subtask, bind, ret. rewrite H. reflexivity.
Qed.

Lemma echoes_subtask_of b i :
  (forall j, sb_id b = Some j -> i = j) -> echoes_subtask (subtask_of b i) b.
Proof.
  intros H. unfold echoes_subtask, subtask_of. simpl. auto.
Qed.

(** Building the subdocuments only draws identifiers. *)
Lemma new_subtasks_spec l w :
  exists subs w',
    new_subtasks l w = (subs, w')
    /\ todos w' = todos w /\ clock w' = clock w
    /\ clock_reads w' = clock_reads w /\ uuid w' = uuid w
    /\ uuid_reads w' = uuid_reads w + generated l
    /\ Forall2 echoes_subtask subs l.
Proof.
  unfold new_subtasks. revert w. induction l as [|b l IH]; intros w.
  - exists [], w. unfold generated. simpl.
    rewrite Nat.add_0_r. repeat split; constructor.
  - rewrite mapM_cons. destruct (sb_id b) as [i|] eqn:Hi.
    + rewrite (new_subtask_given b w Hi).
      destruct (IH w) as (subs & w' & Hs & H1 & H2 & H3 & H4 & H5 & H6).
      rewrite Hs. eexists. exists w'. split; [reflexivity|].
      unfold generated in *. simpl. rewrite Hi.
      repeat split; try assumption.
      constructor; [|assumption].
      apply echoes_subtask_of. congruence.
    + rewrite (new_subtask_drawn b w Hi).
      destruct (IH (snd (uuidv4 w)))
        as (subs & w' & Hs & H1 & H2 & H3 & H4 & H5 & H6).
      rewrite Hs. eexists. exists w'. split; [reflexivity|].
      simpl in H1, H2, H3, H4, H5.
      unfold generated in *. simpl. rewrite Hi. simpl.
      repeat split; try assumption; try lia.
      constructor; [|assumption].
      apply echoes_subtask_of. congruence.
Qed.

Lemma required_Some o : required o = true -> exists v, o = Some v.
Proof. destruct o as [v|]; [eauto | discriminate]. Qed.

Lemma valid_subtasks subs l :
  Forall2 echoes_subtask subs l ->
  (forall s, In s l -> required (sb_title s) = true) ->
  forallb (fun s => required (sub_title s)) subs = true.
Proof.
  induction 1 as [|s b subs l Hsb _ IH]; intros H; simpl; [reflexivity|].
  destruct Hsb as (Ht & _). rewrite Ht, (H b) by (left; reflexivity).
  apply IH. intros x Hx. apply H. right. assumption.
Qed.

(** C5, amended.  A valid Create input is answered with 201 and the new
    record, which is appended to the collection.  Its [id] is the value
    drawn from the identifier generator, non-empty and carried by no
    stored todo when the generator's values are; [createdAt] and
    [updatedAt] are two successive readings of the clock, equal when
    the clock shows the same instant at both; the submitted title,
    description, priority, category, tags, dueDate and subtasks are
    echoed; [completed] is false and omitted subtasks give the empty
    sequence. *)
Theorem create_returns_record (b : Body) (w : World) :
  valid_input b -> fresh_ids w ->
  exists t w',
    post_todos b w = (Json 201 (TodoDoc t), w')
    /\ todos w' = todos w ++ [t]
    /\ id t = uuid w (uuid_reads w + generated (or_default (b_subtasks b) []))
    /\ id t <> ""
    /\ (forall t', In t' (todos w) -> id t' <> id t)
    /\ createdAt t = clock w (clock_reads w)
    /\ updatedAt t = clock w (S (clock_reads w))
    /\ (clock w (clock_reads w) = clock w (S (clock_reads w)) ->
        createdAt t = updatedAt t)
    /\ b_title b = Some (title t)
    /\ description t = b_description b
    /\ b_priority b = Some (priority t)
    /\ b_category b = Some (category t)
    /\ tags t = or_default (b_tags b) []
    /\ dueDate t = b_dueDate b
    /\ Forall2 echoes_subtask (subtasks t) (or_default (b_subtasks b) [])
    /\ completed t = false
    /\ (b_subtasks b = None -> subtasks t = []).
Proof.
  intros (Ht & Hp & (p & Hpe & Henum) & Hc & Hsub) Hfresh.
  destruct (new_subtasks_spec (or_default (b_subtasks b) []) w)
    as (subs & w1 & Hs & H1 & H2 & H3 & H4 & H5 & H6).
  assert (Hval : validation_errors (b_title b) (b_priority b) (b_category b)
                   subs = []).
  { unfold validation_errors. rewrite Ht, Hp, Hc, Hpe, Henum.
    rewrite (valid_subtasks H6 Hsub). reflexivity. }
  destruct (required_Some _ Ht) as (ti & Hti).
  destruct (required_Some _ Hc) as (c & Hcc).
  destruct (Hfresh (uuid_reads w + generated (or_default (b_subtasks b) [])))
    as [Hne Hnew]; [lia|].
  unfold post_todos, bind. rewrite Hs.
  unfold uuidv4, Date_now, get, put, ret. cbn beta iota.
  rewrite Hval, Hti, Hpe, Hcc. cbn [clock clock_reads uuid uuid_reads todos].
  rewrite H1, H2, H3, H4, H5.
  eexists. eexists. split; [reflexivity|].
  cbn [id title description completed priority category tags dueDate
       subtasks createdAt updatedAt with_todos todos].
  repeat split; try reflexivity; try assumption.
  - intros H. exact H.
  - intros Hn. rewrite Hn in H6. simpl in H6. inversion H6. reflexivity.
Qed.

(** The example of the specification: [Buy milk] is created with
    [completed: false] and [subtasks: []]. *)
Lemma create_returns_record_witness :
  exists t w',
    post_todos Examples1.buy_milk Examples1.two_todos
    = (Json 201 (TodoDoc t), w')
    /\ title t = "Buy milk" /\ completed t = false /\ subtasks t = []
    /\ id t = "u".
Proof.
  assert (Hv : valid_input Examples1.buy_milk).
  { unfold valid_input. simpl. repeat split.
    - exists "low". split; reflexivity.
    - intros s []. }
  assert (Hf : fresh_ids Examples1.two_todos).
  { intros n _. split; [discriminate|].
    intros t [<-|[<-|[]]]; discriminate. }
  destruct (create_returns_record (w := Examples1.two_todos) Hv Hf)
    as (t & w' & Hpost & _ & Hid & _ & _ & _ & _ & _ & Hti & _ & _ & _ & _
        & _ & _ & Hco & Hsu).
  exists t, w'. split; [exact Hpost|].
  simpl in Hti. injection Hti as Hti.
  repeat split; auto.
Defined.

(** C5 as stated fails: when the clock advances between the two
    defaults, the created record has [createdAt = 1000] and
    [updatedAt = 1001]. *)
Lemma create_timestamps_differ :
  ~ (exists t w',
       post_todos Examples1.buy_milk Examples1.ticking
       = (Json 201 (TodoDoc t), w')
       /\ createdAt t = updatedAt t).
Proof.
  intros (t & w' & H & Heq).
  vm_compute in H. injection H as <- _.
  vm_compute in Heq. discriminate.
Qed.

(** *** Toggle *)

Lemma patch_toggle_found w i k T :
  Mongo.findOne (fun t => (id t =? i)%string) (todos w) = Some (k, T) ->
  well_formed T ->
  let T1 := set_updatedAt (set_completed T (negb (completed T)))
                          (clock w (clock_reads w)) in
  patch_toggle i w
  = (Json 200 (TodoDoc T1),
     with_todos (snd (Date_now w)) (Mongo.replace k T1 (todos w))).
Proof.
  intros Hf Hwf T1. unfold patch_toggle, bind, get, ret. rewrite Hf.
  unfold Date_now, put. cbn beta iota.
  change (validate (set_updatedAt (set_completed T (negb (completed T)))
                                  (clock w (clock_reads w))))
    with (validate T).
  rewrite Hwf. reflexivity.
Qed.

(** C4, amended.  When the request names the stored todo [T] (the
    document that [findOne] returns for the id) and [T] satisfies the
    schema, one
    Toggle call answers 200 and stores [T] with [completed] negated and
    nothing else changed but [updatedAt]; a second call gives back the
    original value of [completed]. *)
Theorem toggle_flips_completed (w : World) (i : string) (k : nat)
        (T : Todo) :
  Mongo.findOne (fun t => (id t =? i)%string) (todos w) = Some (k, T) ->
  well_formed T ->
  exists T1 w1 T2 w2,
    patch_toggle i w = (Json 200 (TodoDoc T1), w1)
    /\ nth_error (todos w1) k = Some T1
    /\ completed T1 = negb (completed T)
    /\ same_but_completed T1 T
    /\ (forall j, j <> k -> nth_error (todos w1) j = nth_error (todos w) j)
    /\ patch_toggle i w1 = (Json 200 (TodoDoc T2), w2)
    /\ nth_error (todos w2) k = Some T2
    /\ completed T2 = completed T
    /\ same_but_completed T2 T
    /\ (forall j, j <> k -> nth_error (todos w2) j = nth_error (todos w) j).
Proof.
  intros Hf Hwf.
  destruct (MongoFacts.findOne_Some _ _ Hf) as [Hnth Hid].
  pose proof (patch_toggle_found w i Hf Hwf) as H1. cbv zeta in H1.
  set (T1 := set_updatedAt (set_completed T (negb (completed T)))
                           (clock w (clock_reads w))) in *.
  set (w1 := with_todos (snd (Date_now w)) (Mongo.replace k T1 (todos w)))
    in *.
  assert (Hf1 : Mongo.findOne (fun t => (id t =? i)%string) (todos w1)
                = Some (k, T1)).
  { unfold w1. simpl. apply MongoFacts.findOne_replace with (d := T);
      assumption. }
  assert (Hwf1 : well_formed T1) by exact Hwf.
  pose proof (patch_toggle_found w1 i Hf1 Hwf1) as H2. cbv zeta in H2.
  set (T2 := set_updatedAt (set_completed T1 (negb (completed T1)))
                           (clock w1 (clock_reads w1))) in *.
  exists T1, w1, T2. eexists. split; [exact H1|].
  split; [apply MongoFacts.nth_error_replace_eq with (d := T); exact Hnth|].
  split; [reflexivity|].
  split; [unfold same_but_completed; repeat split|].
  split; [intros j Hj; apply MongoFacts.nth_error_replace_neq; exact Hj|].
  split; [exact H2|].
  split.
  { simpl. apply MongoFacts.nth_error_replace_eq with (d := T1).
    apply MongoFacts.nth_error_replace_eq with (d := T). exact Hnth. }
  split; [simpl; apply negb_involutive|].
  split; [unfold same_but_completed; repeat split|].
  intros j Hj. simpl.
  rewrite !MongoFacts.nth_error_replace_neq by exact Hj. reflexivity.
Qed.

(** Toggling [Buy milk] twice: completed, then not completed again. *)
Lemma toggle_flips_completed_witness :
  exists T1 w1 T2 w2,
    patch_toggle "a" Examples1.two_todos = (Json 200 (TodoDoc T1), w1)
    /\ completed T1 = true
    /\ patch_toggle "a" w1 = (Json 200 (TodoDoc T2), w2)
    /\ completed T2 = false.
Proof.
  assert (Hf : Mongo.findOne (fun t => (id t =? "a")%string)
                 (todos Examples1.two_todos) = Some (0, Examples1.milk))
    by reflexivity.
  assert (Hwf : well_formed Examples1.milk) by reflexivity.
  destruct (toggle_flips_completed Examples1.two_todos "a" Hf Hwf)
    as (T1 & w1 & T2 & w2 & H1 & _ & Hc1 & _ & _ & H2 & _ & Hc2 & _).
  exists T1, w1, T2, w2. auto.
Defined.

(** C4 as stated fails for a stored todo that does not pass the
    validators, and for one that is not the first of its id; an Update
    stores either.  [PUT /api/todos/a] with the body
    [{ priority: "urgent" }] is answered 200, since [findOneAndUpdate]
    runs no validator; a Toggle of the stored todo is then refused by
    [save()] with 500, and [completed] keeps its value.
    [PUT /api/todos/c] with the body [{ id: "a" }] is answered 200 and
    leaves two todos of the id [a]; a Toggle that names this id is
    answered 200 with the first of them, and the second is stored as it
    was. *)
Lemma toggle_of_an_unvalidated_todo :
  (put_todo "a" Examples1.make_urgent Examples1.two_todos
   = (Json 200 (TodoDoc Examples1.urgent_milk), Examples1.after_update)
   /\ nth_error (todos Examples1.after_update) 0
      = Some Examples1.urgent_milk
   /\ fst (patch_toggle (id Examples1.urgent_milk) Examples1.after_update)
      = Json 500 (Error "Server error"
                    (Some (ValidationFailed ["priority"])))
   /\ nth_error
        (todos (snd (patch_toggle (id Examples1.urgent_milk)
                       Examples1.after_update))) 0
      = Some Examples1.urgent_milk)
  /\ (put_todo "c" Examples1.rename_to_a Examples1.two_todos
      = (Json 200 (TodoDoc Examples1.taxes_as_a), Examples1.namesakes)
      /\ nth_error (todos Examples1.namesakes) 1
         = Some Examples1.taxes_as_a
      /\ (exists T1,
            fst (patch_toggle (id Examples1.taxes_as_a) Examples1.namesakes)
            = Json 200 (TodoDoc T1)
            /\ title T1 = title Examples1.milk)
      /\ nth_error
           (todos (snd (patch_toggle (id Examples1.taxes_as_a)
                          Examples1.namesakes))) 1
         = Some Examples1.taxes_as_a).
Proof.
  split.
  - repeat split.
  - split; [reflexivity|]. split; [reflexivity|].
    split; [eexists; split; reflexivity | reflexivity].
Qed.

(** In a collection with unique ids, every stored todo is the one that
    its id names. *)
Lemma stored_todo_is_found (c : list Todo) (k : nat) (T : Todo) :
  NoDup (map id c) -> nth_error c k = Some T ->
  Mongo.findOne (fun t => (id t =? id T)%string) c = Some (k, T).
Proof.
  revert k. induction c as [|x c IH]; intros k Hnd Hk.
  - destruct k; discriminate.
  - inversion Hnd as [|? ? Hnotin Hnd']; subst. destruct k as [|k]; simpl in *.
    + inversion Hk; subst. rewrite String.eqb_refl. reflexivity.
    + assert (Hx : (id x =? id T)%string = false).
      { apply String.eqb_neq. intros He. apply Hnotin. rewrite He.
        apply in_map. apply nth_error_In with (n := k). exact Hk. }
      rewrite Hx, (IH k Hnd' Hk). reflexivity.
Qed.

(** *** Update *)

Lemma cast_subtasks_spec o w :
  exists subs w',
    cast_subtasks o w = (subs, w')
    /\ todos w' = todos w
    /\ (o = None -> subs = None).
Proof.
  destruct o as [l|]; simpl.
  - destruct (new_subtasks_spec l w) as (subs & w' & Hs & H1 & _).
    unfold bind, ret. rewrite Hs. exists (Some subs), w'.
    repeat split; [assumption | discriminate].
  - exists None, w. repeat split.
Qed.

(** An Update that finds its todo stores the merged record, stamped
    with the clock reading taken by the handler. *)
Lemma put_todo_found w i b k T :
  Mongo.findOne (fun t => (id t =? i)%string) (todos w) = Some (k, T) ->
  exists T' w',
    put_todo i b w = (Json 200 (TodoDoc T'), w')
    /\ nth_error (todos w') k = Some T'
    /\ updatedAt T' = clock w (clock_reads w)
    /\ frame b T T'
    /\ (forall j, j <> k -> nth_error (todos w') j = nth_error (todos w) j).
Proof.
  intros Hf. destruct (MongoFacts.findOne_Some _ _ Hf) as [Hnth _].
  unfold put_todo, bind. unfold Date_now at 1.
  match goal with
  | |- context [cast_subtasks ?o ?w1] =>
      destruct (cast_subtasks_spec o w1) as (subs & w2 & Hc & Ht & Hnone);
      rewrite Hc
  end.
  simpl in Ht, Hnone. unfold get, Mongo.findOneAndUpdate.
  rewrite Ht, Hf. unfold put, ret.
  eexists. eexists. split; [reflexivity|].
  split; [simpl; apply MongoFacts.nth_error_replace_eq with (d := T);
          exact Hnth|].
  split; [reflexivity|].
  split.
  - unfold frame. simpl.
    repeat split; intros H; rewrite ?H; try reflexivity.
    rewrite (Hnone H). reflexivity.
  - intros j Hj. simpl. apply MongoFacts.nth_error_replace_neq. exact Hj.
Qed.

End TodoFacts1.

(* ------------------------------------------------------------------ *)
(** ** Variant 2: the gate and the routes *)

Module GateFacts2.

Import Variant2 Spec2 Monad.

Section Gate.

Variable P : Platform.


Lemma truthy_Some tok : tok <> "" -> Js.truthy (Some tok) = true.
Proof.
  intros H. simpl. apply negb_true_iff. apply String.eqb_neq. exact H.
Qed.


Lemma authenticate_good_token req next w tok u :
  Js.second_word (authorization req) = Some tok -> tok <> "" ->
  jwt_verify P tok (SECRET P) = Some u ->
  authenticate P req next w = next (set_user req u) w.
Proof.
  intros Ht Hne Hv. unfold authenticate.
  rewrite Ht, (truthy_Some Hne). simpl. rewrite Hv. reflexivity.
Qed.

Lemma authenticate_as req next w a :
  authenticated_as P req a ->
  authenticate P req next w = next (set_user req a) w.
Proof.
  intros (tok & Ht & Hne & Hv).
  apply authenticate_good_token with (tok := tok); assumption.
Qed.

(** The route that answers is one of the table, and the request it
    receives differs from the incoming one by its parameters only. *)
Lemma dispatch_In rs req r req' :
  dispatch rs req = Some (r, req') ->
  In r rs /\ exists ps, req' = set_params req ps.
Proof.
  induction rs as [|x rs IH]; simpl; [discriminate|].
  destruct (Method_eqb (r_method x) (method req)).
  - destruct (match_path (r_path x) (path req)) as [ps|].
    + intros H. inversion H; subst. split; [left; reflexivity|].
      exists ps. reflexivity.
    + intros H. destruct (IH H) as [Hin Hps]. auto.
  - intros H. destruct (IH H) as [Hin Hps]. auto.
Qed.



End Gate.


End GateFacts2.

(* ------------------------------------------------------------------ *)
(** ** Variant 2: login, list, update, delete *)

Module HandlerFacts2.

Import Variant2 Spec2 Monad.

Section Handlers.

Variable P : Platform.

(** *** Which route answers *)

Lemma app_login req w :
  method req = POST -> path req = ["api"; "login"] ->
  app P req w
  = (let (res, w') := login P (set_params req []) w in (Some res, w')).
Proof.
  intros Hm Hp. unfold app, routes, dispatch. cbn [r_method r_path].
  rewrite Hm, Hp. reflexivity.
Qed.

Lemma app_get_todos req w :
  method req = GET -> path req = ["api"; "todos"] ->
  app P req w
  = (let (res, w') :=
       authenticate P (set_params req []) get_todos w in (Some res, w')).
Proof.
  intros Hm Hp. unfold app, routes, dispatch. cbn [r_method r_path].
  rewrite Hm, Hp. reflexivity.
Qed.

Lemma app_put_todo req i w :
  method req = PUT -> path req = ["api"; "todos"; i] -> i <> "" ->
  app P req w
  = (let (res, w') :=
       authenticate P (set_params req [("id", i)]) put_todo w in
     (Some res, w')).
Proof.
  intros Hm Hp Hi. apply String.eqb_neq in Hi.
  unfold app, routes, dispatch. cbn [r_method r_path].
  rewrite Hm, Hp. simpl. rewrite Hi. reflexivity.
Qed.

Lemma app_delete_todo req i w :
  method req = DELETE -> path req = ["api"; "todos"; i] -> i <> "" ->
  app P req w
  = (let (res, w') :=
       authenticate P (set_params req [("id", i)]) delete_todo w in
     (Some res, w')).
Proof.
  intros Hm Hp Hi. apply String.eqb_neq in Hi.
  unfold app, routes, dispatch. cbn [r_method r_path].
  rewrite Hm, Hp. simpl. rewrite Hi. reflexivity.
Qed.

Lemma authenticated_set_params req ps a :
  authenticated_as P req a -> authenticated_as P (set_params req ps) a.
Proof. intros H. exact H. Qed.

(** *** Login *)

Lemma login_no_user req w name :
  b_username (body req) = Some name ->
  (forall x, In x (users w) -> username x <> name) ->
  login P req w = (Json 400 (Error "Invalid credentials" None), w).
Proof.
  intros Hn Hno. unfold login, bind, get. rewrite Hn.
  assert (Hf : Mongo.findOne (fun u => (username u =? name)%string)
                 (users w) = None).
  { apply MongoFacts.findOne_None. intros x Hx.
    apply String.eqb_neq. apply Hno. exact Hx. }
  rewrite Hf. reflexivity.
Qed.

Lemma login_wrong_password req w name pw k u :
  b_username (body req) = Some name ->
  b_password (body req) = Some pw ->
  Mongo.findOne (fun x => (username x =? name)%string) (users w)
  = Some (k, u) ->
  bcrypt_compare P pw (password u) = false ->
  login P req w = (Json 400 (Error "Invalid credentials" None), w).
Proof.
  intros Hn Hp Hf Hc. unfold login, bind, get. rewrite Hn, Hf, Hp, Hc.
  reflexivity.
Qed.

End Handlers.

(** C7.  A Login for a username that no user carries and a Login for an
    existing user whose password fails the hash comparison are answered
    alike: status 400 and the message [Invalid credentials], with the
    world left as it was. *)
Theorem login_failures_look_alike (P : Platform) (req1 req2 : Request)
        (w1 w2 : World) (name1 pw1 name2 pw2 : string) (k : nat) (u : User) :
  method req1 = POST -> path req1 = ["api"; "login"] ->
  b_username (body req1) = Some name1 ->
  b_password (body req1) = Some pw1 ->
  method req2 = POST -> path req2 = ["api"; "login"] ->
  b_username (body req2) = Some name2 ->
  b_password (body req2) = Some pw2 ->
  (forall x, In x (users w1) -> username x <> name1) ->
  Mongo.findOne (fun x => (username x =? name2)%string) (users w2)
  = Some (k, u) ->
  bcrypt_compare P pw2 (password u) = false ->
  app P req1 w1 = (Some (Json 400 (Error "Invalid credentials" None)), w1)
  /\ app P req2 w2 = (Some (Json 400 (Error "Invalid credentials" None)), w2)
  /\ fst (app P req1 w1) = fst (app P req2 w2).
Proof.
  intros Hm1 Hp1 Hn1 Hw1 Hm2 Hp2 Hn2 Hw2 Hno Hf Hc.
  assert (H1 : app P req1 w1
               = (Some (Json 400 (Error "Invalid credentials" None)), w1)).
  { rewrite (app_login P req1 w1 Hm1 Hp1).
    rewrite (@login_no_user P (set_params req1 []) w1 name1 Hn1 Hno).
    reflexivity. }
  assert (H2 : app P req2 w2
               = (Some (Json 400 (Error "Invalid credentials" None)), w2)).
  { rewrite (app_login P req2 w2 Hm2 Hp2).
    rewrite (@login_wrong_password P (set_params req2 []) w2 name2 pw2 k u
               Hn2 Hw2 Hf Hc).
    reflexivity. }
  rewrite H1, H2. auto.
Qed.

(** Nobody is called [carol]; [alice] exists but her password is not
    [guess]: the two replies are the same. *)
Lemma login_failures_look_alike_witness :
  fst (app Examples2.platform
         (Examples2.request POST ["api"; "login"] None []
            (Examples2.credentials "carol" "guess")) Examples2.world)
  = fst (app Examples2.platform
           (Examples2.request POST ["api"; "login"] None []
              (Examples2.credentials "alice" "guess")) Examples2.world).
Proof.
  refine (proj2 (proj2
    (@login_failures_look_alike Examples2.platform
       (Examples2.request POST ["api"; "login"] None []
          (Examples2.credentials "carol" "guess"))
       (Examples2.request POST ["api"; "login"] None []
          (Examples2.credentials "alice" "guess"))
       Examples2.world Examples2.world "carol" "guess" "alice" "guess"
       0 {| _id := "uA"; username := "alice"; password := "h:secret" |}
       eq_refl eq_refl eq_refl eq_refl eq_refl eq_refl eq_refl eq_refl
       _ eq_refl eq_refl))).
  intros x [<-|[<-|[]]]; discriminate.
Defined.

(** *** List *)

(** C2, amended.  In variant 2, List answers 200 with exactly the
    stored todos whose [userId] is the caller's id, ordered by
    [createdAt] descending; the query string plays no part: two
    requests of the same caller get the same reply. *)
Theorem list_returns_callers_todos (P : Platform) (req : Request)
        (a : Identity) (w : World) :
  method req = GET -> path req = ["api"; "todos"] ->
  authenticated_as P req a ->
  app P req w
  = (Some (Json 200 (Todos (Mongo.sort_desc createdAt
                              (filter (owned_by a) (todos w))))), w)
  /\ (forall t, In t (Mongo.sort_desc createdAt
                        (filter (owned_by a) (todos w)))
                <-> In t (todos w) /\ userId t = user_id a)
  /\ newest_first (Mongo.sort_desc createdAt
                     (filter (owned_by a) (todos w)))
  /\ (forall req2,
        method req2 = GET -> path req2 = ["api"; "todos"] ->
        authenticated_as P req2 a ->
        fst (app P req2 w) = fst (app P req w)).
Proof.
  intros Hm Hp Ha.
  assert (Hall : forall r, method r = GET -> path r = ["api"; "todos"] ->
                           authenticated_as P r a ->
                           app P r w
                           = (Some (Json 200
                                (Todos (Mongo.sort_desc createdAt
                                   (filter (owned_by a) (todos w))))), w)).
  { intros r Hrm Hrp Hra. rewrite (app_get_todos P r w Hrm Hrp).
    rewrite (@GateFacts2.authenticate_as P (set_params r []) get_todos w a
               (authenticated_set_params [] Hra)).
    reflexivity. }
  split; [apply Hall; assumption|]. split; [|split].
  - intros t. rewrite MongoFacts.In_sort_desc, filter_In.
    unfold owned_by. rewrite String.eqb_eq. reflexivity.
  - apply MongoFacts.sort_desc_sorted.
  - intros req2 H1 H2 H3. rewrite !Hall by assumption. reflexivity.
Qed.

(** Alice lists her two todos, the newer first. *)
Lemma list_returns_callers_todos_witness :
  app Examples2.platform
      (Examples2.request GET ["api"; "todos"] Examples2.as_alice []
         Examples2.no_fields) Examples2.world
  = (Some (Json 200 (Todos [Examples2.alices_home; Examples2.alices_work])),
     Examples2.world).
Proof.
  assert (Ha : authenticated_as Examples2.platform
                 (Examples2.request GET ["api"; "todos"] Examples2.as_alice
                    [] Examples2.no_fields) Examples2.alice).
  { exists "tokA". repeat split. discriminate. }
  destruct (@list_returns_callers_todos Examples2.platform
              (Examples2.request GET ["api"; "todos"] Examples2.as_alice
                 [] Examples2.no_fields)
              Examples2.alice Examples2.world eq_refl eq_refl Ha) as [H _].
  rewrite H. reflexivity.
Defined.

(** C2 as stated fails: with [category=work] in the query, Alice still
    gets her todo of category [home]. *)
Lemma list_ignores_category :
  ~ (exists l,
       fst (app Examples2.platform
              (Examples2.request GET ["api"; "todos"] Examples2.as_alice
                 [("category", "work")] Examples2.no_fields)
              Examples2.world)
       = Some (Json 200 (Todos l))
       /\ forall t, In t l <->
                    In t (todos Examples2.world)
                    /\ userId t = "uA" /\ category t = "work").
Proof.
  intros (l & Hl & Hin).
  vm_compute in Hl. injection Hl as <-.
  destruct (Hin Examples2.alices_home) as [H _].
  destruct (H (or_introl eq_refl)) as (_ & _ & Hc).
  discriminate.
Qed.

(** *** Update and Delete across users *)


Lemma new_subtasks_keeps l w :
  todos (snd (new_subtasks l w)) = todos w
  /\ users (snd (new_subtasks l w)) = users w.
Proof.
  unfold new_subtasks. revert w. induction l as [|b l IH]; intros w.
  - split; reflexivity.
  - rewrite TodoFacts1.mapM_cons.
    unfold new_subtask at 1 3. unfold bind, ret.
    destruct (sb_id b).
    + destruct (IH w) as [H1 H2].
      destruct (mapM new_subtask l w) as [bs w2]. auto.
    + unfold uuidv4.
      match goal with
      | |- context [mapM new_subtask l ?w1] =>
          destruct (IH w1) as [H1 H2];
          destruct (mapM new_subtask l w1) as [bs w2]
      end. auto.
Qed.

Lemma cast_subtasks_keeps o w :
  exists subs w',
    cast_subtasks o w = (subs, w')
    /\ todos w' = todos w /\ users w' = users w
    /\ (o = None -> subs = None).
Proof.
  destruct o as [l|]; simpl.
  - destruct (new_subtasks_keeps l w) as [H1 H2].
    unfold bind, ret. destruct (new_subtasks l w) as [subs w'].
    exists (Some subs), w'. repeat split; [assumption.. | discriminate].
  - exists None, w. repeat split.
Qed.



Lemma delete_todo_none req a w :
  user req = Some a ->
  Mongo.findOne (by_id_and_owner req a) (todos w) = None ->
  delete_todo req w = (not_found, w).
Proof.
  intros Hu Hf. unfold delete_todo, bind, get, Mongo.findOneAndDelete.
  rewrite Hu, Hf. reflexivity.
Qed.







(** Without unique ids the id of Bob's todo may also name one of
    Alice's own, and her Update then succeeds on hers; Bob's todo is
    still untouched. *)
Lemma same_id_names_ones_own :
  exists T' w',
    app Examples2.platform
        (Examples2.request PUT ["api"; "todos"; "t1"] Examples2.as_alice []
           Examples2.no_fields) Examples2.clashing_ids
    = (Some (Json 200 (TodoDoc T')), w')
    /\ userId T' = "uA"
    /\ nth_error (todos w') 0 = Some Examples2.bobs.
Proof. eexists. eexists. repeat split. Qed.

(** *** Update of one's own todo *)

Lemma put_own_todo_found req a w k T :
  user req = Some a ->
  Mongo.findOne (by_id_and_owner req a) (todos w) = Some (k, T) ->
  exists T' w',
    put_todo req w = (Json 200 (TodoDoc T'), w')
    /\ nth_error (todos w') k = Some T'
    /\ updatedAt T' = clock w (clock_reads w)
    /\ frame (body req) T T'
    /\ (forall j, j <> k -> nth_error (todos w') j = nth_error (todos w) j).
Proof.
  intros Hu Hf. destruct (MongoFacts.findOne_Some _ _ Hf) as [Hnth _].
  unfold put_todo, bind. unfold Date_now at 1. rewrite Hu.
  match goal with
  | |- context [cast_subtasks ?o ?w1] =>
      destruct (cast_subtasks_keeps o w1)
        as (subs & w2 & Hc & Ht & _ & Hnone);
      rewrite Hc
  end.
  simpl in Ht, Hnone. unfold get, Mongo.findOneAndUpdate.
  rewrite Ht, Hf. unfold put, ret.
  eexists. eexists. split; [reflexivity|].
  split; [simpl; apply MongoFacts.nth_error_replace_eq with (d := T);
          exact Hnth|].
  split; [reflexivity|].
  split.
  - unfold frame. simpl.
    repeat split; intros H; rewrite ?H; try reflexivity.
    rewrite (Hnone H). reflexivity.
  - intros j Hj. simpl. apply MongoFacts.nth_error_replace_neq. exact Hj.
Qed.

Lemma app_put_found P req a w i k T :
  method req = PUT -> path req = ["api"; "todos"; i] -> i <> "" ->
  authenticated_as P req a ->
  Mongo.findOne (fun t => (id t =? i)%string && owned_by a t) (todos w)
  = Some (k, T) ->
  exists T' w',
    app P req w = (Some (Json 200 (TodoDoc T')), w')
    /\ nth_error (todos w') k = Some T'
    /\ updatedAt T' = clock w (clock_reads w)
    /\ frame (body req) T T'
    /\ (forall j, j <> k -> nth_error (todos w') j = nth_error (todos w) j).
Proof.
  intros Hm Hp Hne Ha Hf.
  rewrite (app_put_todo P req w Hm Hp Hne).
  rewrite (@GateFacts2.authenticate_as P _ put_todo w a
             (authenticated_set_params [("id", i)] Ha)).
  destruct (@put_own_todo_found (set_user (set_params req [("id", i)]) a) a w
              k T eq_refl Hf) as (T' & w' & Hput & H).
  rewrite Hput. exists T', w'. split; [reflexivity | exact H].
Qed.

End HandlerFacts2.

(* ------------------------------------------------------------------ *)
(** ** Update in both variants *)

Module UpdateFacts.

(** C6, amended.  In both variants a successful Update stores and
    returns the record with [updatedAt] set to the clock reading taken
    by the handler (so [updatedAt] grows strictly whenever that reading
    is later than the stored value), every field that the body does not
    mention keeps its value, and no other document changes. *)
Theorem update_stamps_and_frames :
  (forall (w : Variant1.World) (i : string) (b : Variant1.Body) (k : nat)
          (T : Variant1.Todo),
      Mongo.findOne (fun t => (Variant1.id t =? i)%string) (Variant1.todos w)
      = Some (k, T) ->
      exists T' w',
        Variant1.put_todo i b w
        = (Variant1.Json 200 (Variant1.TodoDoc T'), w')
        /\ nth_error (Variant1.todos w') k = Some T'
        /\ Variant1.updatedAt T'
           = Variant1.clock w (Variant1.clock_reads w)
        /\ ((Variant1.updatedAt T
             < Variant1.clock w (Variant1.clock_reads w))%Z ->
            (Variant1.updatedAt T < Variant1.updatedAt T')%Z)
        /\ Spec1.frame b T T'
        /\ (forall j, j <> k ->
                      nth_error (Variant1.todos w') j
                      = nth_error (Variant1.todos w) j))
  /\ (forall (P : Variant2.Platform) (req : Variant2.Request)
             (a : Variant2.Identity) (w : Variant2.World) (i : string)
             (k : nat) (T : Variant2.Todo),
         Variant2.method req = Variant2.PUT ->
         Variant2.path req = ["api"; "todos"; i] -> i <> "" ->
         Spec2.authenticated_as P req a ->
         Mongo.findOne
           (fun t => (Variant2.id t =? i)%string && Variant2.owned_by a t)
           (Variant2.todos w) = Some (k, T) ->
         exists T' w',
           Variant2.app P req w
           = (Some (Variant2.Json 200 (Variant2.TodoDoc T')), w')
           /\ nth_error (Variant2.todos w') k = Some T'
           /\ Variant2.updatedAt T'
              = Variant2.clock w (Variant2.clock_reads w)
           /\ ((Variant2.updatedAt T
                < Variant2.clock w (Variant2.clock_reads w))%Z ->
               (Variant2.updatedAt T < Variant2.updatedAt T')%Z)
           /\ Spec2.frame (Variant2.body req) T T'
           /\ (forall j, j <> k ->
                         nth_error (Variant2.todos w') j
                         = nth_error (Variant2.todos w) j)).
Proof.
  split.
  - intros w i b k T Hf.
    destruct (@TodoFacts1.put_todo_found w i b k T Hf)
      as (T' & w' & H1 & H2 & H3 & H4 & H5).
    exists T', w'. split; [exact H1|]. split; [exact H2|].
    split; [exact H3|]. split; [intros Hlt; rewrite H3; exact Hlt|].
    split; [exact H4 | exact H5].
  - intros P req a w i k T Hm Hp Hne Ha Hf.
    destruct (@HandlerFacts2.app_put_found P req a w i k T Hm Hp Hne Ha Hf)
      as (T' & w' & H1 & H2 & H3 & H4 & H5).
    exists T', w'. split; [exact H1|]. split; [exact H2|].
    split; [exact H3|]. split; [intros Hlt; rewrite H3; exact Hlt|].
    split; [exact H4 | exact H5].
Qed.

(** An empty Update of [Buy milk] two seconds after it was written:
    only [updatedAt] changes, and it grows. *)
Lemma update_stamps_and_frames_witness :
  exists T' w',
    Variant1.put_todo "a" Examples1.no_fields Examples1.two_todos
    = (Variant1.Json 200 (Variant1.TodoDoc T'), w')
    /\ Variant1.updatedAt T' = 3000%Z
    /\ (Variant1.updatedAt Examples1.milk < Variant1.updatedAt T')%Z
    /\ Variant1.title T' = "Buy milk".
Proof.
  assert (Hf : Mongo.findOne (fun t => (Variant1.id t =? "a")%string)
                 (Variant1.todos Examples1.two_todos)
               = Some (0, Examples1.milk)) by reflexivity.
  destruct (proj1 update_stamps_and_frames Examples1.two_todos "a"
              Examples1.no_fields 0 Examples1.milk Hf)
    as (T' & w' & H1 & _ & H3 & H4 & H5 & _).
  exists T', w'. split; [exact H1|]. split; [exact H3|].
  split; [apply H4; reflexivity|].
  destruct H5 as (_ & Ht & _). apply Ht. reflexivity.
Defined.

(** C6 as stated fails: an Update in the millisecond in which the todo
    was last written leaves [updatedAt] at 1000. *)
Lemma update_in_the_same_millisecond :
  ~ (exists T' w',
       Variant1.put_todo "a" Examples1.no_fields Examples1.same_millisecond
       = (Variant1.Json 200 (Variant1.TodoDoc T'), w')
       /\ (Variant1.updatedAt Examples1.milk < Variant1.updatedAt T')%Z).
Proof.
  intros (T' & w' & H & Hlt).
  vm_compute in H. injection H as <- _.
  vm_compute in Hlt. discriminate.
Qed.

(** C3, the code at the failing inputs.  In variant 1 the body
    [{ id: "b" }] sent to [PUT /api/todos/a] renames the stored todo;
    in variant 2 Alice's body [{ id: "t9", userId: "uB" }] sent to
    [PUT /api/todos/t2] renames her todo and hands it to Bob. *)
Theorem update_overwrites_id_and_owner :
  map Variant1.id
      (Variant1.todos
         (snd (Variant1.put_todo "a" Examples1.rename_to_b
                 Examples1.same_millisecond)))
  = ["b"]
  /\ map (fun t => (Variant2.id t, Variant2.userId t))
         (Variant2.todos
            (snd (Variant2.app Examples2.platform
                    (Examples2.request Variant2.PUT ["api"; "todos"; "t2"]
                       Examples2.as_alice [] Examples2.give_away)
                    Examples2.world)))
     = [("t1", "uB"); ("t9", "uB"); ("t3", "uA")].
Proof. split; reflexivity. Qed.

End UpdateFacts.

(* ------------------------------------------------------------------ *)
(** ** Variant 1: more about List and Create *)

Module ListCreate1.

Import Variant1 Spec1 Props1 Monad.

Lemma holds_text_selects (param : option string) (field : string) :
  holds (if_truthy param) (String.eqb field) = text_selects param field.
Proof.
  destruct param as [v|]; [|reflexivity].
  unfold if_truthy, text_selects. simpl.
  destruct (v =? "")%string; reflexivity.
Qed.

Lemma build_filter_no_search q :
  Js.truthy (q_search q) = false ->
  exists f, build_filter q = Built_filter f
            /\ forall t, matches f t = selected q t.
Proof.
  intros Hs. unfold build_filter, if_truthy at 1. rewrite Hs.
  eexists. split; [reflexivity|].
  intros t. unfold matches, selected. simpl.
  rewrite !holds_text_selects, andb_true_r.
  destruct (q_completed q); reflexivity.
Qed.

(** X1.  Without a search string, List answers 200 and leaves the world
    as it is; the reply holds, newest first and each once, the stored
    todos whose category and priority equal the parameters given (an
    empty parameter counts as absent) and whose [completed] equals the
    test [completed === "true"] when that parameter is given. *)
Theorem list_selects_by_parameters (q : Query) (w : World) :
  Js.truthy (q_search q) = false ->
  get_todos q w
  = (Some (Json 200 (Todos (Mongo.sort_desc createdAt
                              (filter (selected q) (todos w))))), w)
  /\ Permutation (Mongo.sort_desc createdAt (filter (selected q) (todos w)))
                 (filter (selected q) (todos w))
  /\ (forall t, In t (Mongo.sort_desc createdAt
                        (filter (selected q) (todos w)))
                <-> In t (todos w) /\ selected q t = true)
  /\ newest_first (Mongo.sort_desc createdAt
                     (filter (selected q) (todos w))).
Proof.
  intros Hs. destruct (build_filter_no_search q Hs) as (f & Hf & Hm).
  split.
  - rewrite (ListFacts1.get_todos_filter _ w Hf).
    rewrite (ListFacts1.find_agree (matches f) (selected q) _ Hm).
    reflexivity.
  - split; [apply MongoFacts.sort_desc_perm|]. split.
    + intros t. rewrite MongoFacts.In_sort_desc. apply filter_In.
    + apply MongoFacts.sort_desc_sorted.
Qed.

(** [category=errand&priority=] lists the errands of every priority. *)
Lemma list_selects_by_parameters_witness :
  get_todos {| q_category := Some "errand"; q_priority := Some "";
               q_completed := None; q_search := None |}
            Examples1.two_todos
  = (Some (Json 200 (Todos [Examples1.milk])), Examples1.two_todos).
Proof.
  destruct (list_selects_by_parameters
              {| q_category := Some "errand"; q_priority := Some "";
                 q_completed := None; q_search := None |}
              Examples1.two_todos eq_refl) as (H & _).
  rewrite H. reflexivity.
Defined.

(** *** Create *)

Lemma filter_true_all {A : Type} (l : list A) :
  filter (fun _ => true) l = l.
Proof.
  induction l as [|x l IH]; simpl; [reflexivity|]. rewrite IH. reflexivity.
Qed.

Lemma app_nil_iff {A : Type} (l l' : list A) :
  l ++ l' = [] <-> l = [] /\ l' = [].
Proof.
  split; [apply app_eq_nil|]. intros [-> ->]. reflexivity.
Qed.

Lemma check_nil path ok : check path ok = [] <-> ok = true.
Proof. destruct ok; simpl; split; congruence. Qed.

Lemma forallb_echo subs l :
  Forall2 echoes_subtask subs l ->
  forallb (fun s => required (sub_title s)) subs
  = forallb (fun b => required (sb_title b)) l.
Proof.
  induction 1 as [|s b subs l (Ht & _) _ IH]; simpl; [reflexivity|].
  rewrite Ht, IH. reflexivity.
Qed.

(** The validators pass exactly on the valid inputs. *)
Lemma validation_errors_nil b subs :
  Forall2 echoes_subtask subs (or_default (b_subtasks b) []) ->
  validation_errors (b_title b) (b_priority b) (b_category b) subs = []
  <-> valid_input b.
Proof.
  intros He. unfold validation_errors, valid_input.
  rewrite (forallb_echo He), !app_nil_iff, !check_nil.
  rewrite andb_true_iff, forallb_forall.
  split.
  - intros (Ht & (Hp & Hen) & Hc & Hs). repeat split; try assumption.
    destruct (b_priority b) as [p|]; [|discriminate]. exists p. auto.
  - intros (Ht & Hp & (p & Hpe & Hen) & Hc & Hs).
    repeat split; try assumption. rewrite Hpe. exact Hen.
Qed.

(** What a Create with a valid body does to the world. *)
Lemma post_todos_valid b w :
  valid_input b ->
  exists t w',
    post_todos b w = (Json 201 (TodoDoc t), w')
    /\ todos w' = todos w ++ [t]
    /\ validate t = []
    /\ id t = uuid w (uuid_reads w + generated (or_default (b_subtasks b) []))
    /\ completed t = false.
Proof.
  intros Hv.
  destruct (TodoFacts1.new_subtasks_spec (or_default (b_subtasks b) []) w)
    as (subs & w1 & Hs & H1 & H2 & H3 & H4 & H5 & H6).
  pose proof (proj2 (validation_errors_nil b H6) Hv) as Hval.
  destruct Hv as (Ht & Hp & (p & Hpe & Henum) & Hc & Hsub).
  destruct (TodoFacts1.required_Some _ Ht) as (ti & Hti).
  destruct (TodoFacts1.required_Some _ Hc) as (c & Hcc).
  unfold post_todos, bind. rewrite Hs.
  unfold uuidv4, Date_now, get, put, ret. cbn beta iota.
  rewrite Hval, Hti, Hpe, Hcc. cbn [clock clock_reads uuid uuid_reads todos].
  rewrite H1, H4, H5.
  eexists. eexists. split; [reflexivity|].
  split; [reflexivity|]. split; [|split; reflexivity].
  unfold validate. cbn [title priority category subtasks].
  rewrite <- Hti, <- Hpe, <- Hcc. exact Hval.
Qed.

Lemma post_todos_invalid (b : Body) (w : World) :
  ~ valid_input b ->
  exists errs w',
    post_todos b w
    = (Json 400 (Error "Validation error" (Some (ValidationFailed errs))),
       w')
    /\ errs <> []
    /\ todos w' = todos w.
Proof.
  intros Hinv.
  destruct (TodoFacts1.new_subtasks_spec (or_default (b_subtasks b) []) w)
    as (subs & w1 & Hs & H1 & _ & _ & _ & _ & H6).
  unfold post_todos, bind. rewrite Hs.
  unfold uuidv4, Date_now, get, put, ret. cbn beta iota.
  destruct (validation_errors (b_title b) (b_priority b) (b_category b) subs)
    as [|e errs] eqn:Hval.
  - exfalso. apply Hinv. apply (validation_errors_nil b H6). exact Hval.
  - eexists. eexists. split; [reflexivity|]. split; [discriminate|].
    simpl. exact H1.
Qed.

(** Whether a body is valid can be decided. *)
Lemma valid_input_dec (b : Body) : valid_input b \/ ~ valid_input b.
Proof.
  destruct (TodoFacts1.new_subtasks_spec (or_default (b_subtasks b) [])
              Examples1.ticking)
    as (subs & w1 & _ & _ & _ & _ & _ & _ & H6).
  destruct (validation_errors (b_title b) (b_priority b) (b_category b) subs)
    as [|e errs] eqn:Hval.
  - left. apply (validation_errors_nil b H6). exact Hval.
  - right. intros Hv. apply (validation_errors_nil b H6) in Hv. congruence.
Qed.

(** X2.  A body that fails a validator of the schema (title, priority
    or category missing or empty, priority outside low, medium, high, a
    subtask without title) is answered 400 [Validation error], and the
    collection is left as it was. *)
Theorem create_rejects_invalid_input (b : Body) (w : World) :
  ~ valid_input b ->
  exists errs w',
    post_todos b w
    = (Json 400 (Error "Validation error" (Some (ValidationFailed errs))),
       w')
    /\ errs <> []
    /\ todos w' = todos w.
Proof. apply post_todos_invalid. Qed.

(** A body without priority is refused. *)
Lemma create_rejects_invalid_input_witness :
  status (fst (post_todos Examples3.no_priority Examples1.two_todos)) = 400%Z
  /\ todos (snd (post_todos Examples3.no_priority Examples1.two_todos))
     = todos Examples1.two_todos.
Proof.
  assert (Hinv : ~ valid_input Examples3.no_priority).
  { intros (_ & Hp & _). discriminate. }
  destruct (@create_rejects_invalid_input Examples3.no_priority
              Examples1.two_todos Hinv) as (errs & w' & H & _ & Ht).
  rewrite H. split; [reflexivity | exact Ht].
Defined.

(** X3.  After a Create with a valid body, List without parameters
    returns the created todo together with the todos stored before. *)
Theorem created_todo_is_listed (b : Body) (w : World) :
  valid_input b ->
  exists t w' l,
    post_todos b w = (Json 201 (TodoDoc t), w')
    /\ get_todos no_params w' = (Some (Json 200 (Todos l)), w')
    /\ (forall x, In x l <-> x = t \/ In x (todos w)).
Proof.
  intros Hv.
  destruct (@post_todos_valid b w Hv) as (t & w' & Hp & Ht & _).
  exists t, w', (Mongo.sort_desc createdAt (todos w')).
  split; [exact Hp|]. split.
  - rewrite (@ListFacts1.get_todos_filter no_params _ w' eq_refl).
    rewrite (ListFacts1.find_agree _ (fun _ => true)) by reflexivity.
    unfold Mongo.find. rewrite filter_true_all. reflexivity.
  - intros x. rewrite MongoFacts.In_sort_desc, Ht, in_app_iff. simpl.
    intuition.
Qed.

End ListCreate1.

(* ------------------------------------------------------------------ *)
(** ** More facts about the collection operations *)

Module MongoMore.

Import Mongo.

Section Facts.

Variable D : Type.
Implicit Types (c : list D) (d : D) (k : nat).

Lemma Forall_replace (Q : D -> Prop) c k d :
  Forall Q c -> Q d -> Forall Q (replace k d c).
Proof.
  intros Hc Hd. revert k. induction Hc as [|x c Hx Hc IH]; intros [|k];
    simpl; constructor; auto.
Qed.

Lemma Forall_remove (Q : D -> Prop) c k :
  Forall Q c -> Forall Q (remove k c).
Proof.
  intros Hc. revert k. induction Hc as [|x c Hx Hc IH]; intros [|k];
    simpl; try constructor; auto.
Qed.

Lemma In_replace c k d x :
  In x (replace k d c) -> x = d \/ In x c.
Proof.
  revert k. induction c as [|y c IH]; intros [|k]; simpl; try tauto.
  - intros [H|H]; auto.
  - intros [H|H]; auto. destruct (IH k H); auto.
Qed.

Lemma In_kept_by_replace c k d d' x :
  nth_error c k = Some d -> In x c -> x <> d -> In x (replace k d' c).
Proof.
  revert k. induction c as [|y c IH]; intros [|k] Hk Hx Hne; simpl in *;
    try contradiction.
  - inversion Hk; subst. destruct Hx as [Hx|Hx]; [congruence | auto].
  - destruct Hx as [Hx|Hx]; [auto | right; eauto].
Qed.

Lemma In_kept_by_remove c k d x :
  nth_error c k = Some d -> In x c -> x <> d -> In x (remove k c).
Proof.
  revert k. induction c as [|y c IH]; intros [|k] Hk Hx Hne; simpl in *;
    try contradiction.
  - inversion Hk; subst. destruct Hx as [Hx|Hx]; [congruence | auto].
  - destruct Hx as [Hx|Hx]; [auto | right; eauto].
Qed.

Lemma length_remove c k d :
  nth_error c k = Some d -> S (List.length (remove k c)) = List.length c.
Proof.
  revert k. induction c as [|y c IH]; intros [|k] Hk; simpl in *;
    try discriminate; auto.
Qed.

Variable key : D -> string.

Lemma map_replace c k d d' :
  nth_error c k = Some d -> key d' = key d ->
  map key (replace k d' c) = map key c.
Proof.
  revert k. induction c as [|y c IH]; intros [|k] Hk He; simpl in *;
    try discriminate.
  - inversion Hk; subst. rewrite He. reflexivity.
  - rewrite (IH k Hk He). reflexivity.
Qed.

Lemma NoDup_map_remove c k :
  NoDup (map key c) -> NoDup (map key (remove k c)).
Proof.
  revert k. induction c as [|y c IH]; intros [|k] H; simpl in *; auto.
  - inversion H; assumption.
  - inversion H as [|? ? Hn Hd]; subst. constructor; [|auto].
    intros Hin. apply Hn. apply in_map_iff in Hin.
    destruct Hin as (z & Hz & Hin). apply in_map_iff. exists z.
    split; [exact Hz|]. eapply MongoFacts.In_remove. exact Hin.
Qed.

(** With unique keys, the document removed is the only one that
    leaves. *)
Lemma removed_is_gone c k d x :
  NoDup (map key c) -> nth_error c k = Some d ->
  In x (remove k c) -> key x <> key d.
Proof.
  revert k. induction c as [|y c IH]; intros [|k] Hnd Hk Hx; simpl in *;
    try discriminate.
  - inversion Hk; subst. inversion Hnd as [|? ? Hn _]; subst.
    intros He. apply Hn. rewrite <- He. apply in_map. exact Hx.
  - inversion Hnd as [|? ? Hn Hd]; subst. destruct Hx as [<-|Hx].
    + intros He. apply Hn. rewrite He. apply in_map.
      apply nth_error_In with (n := k). exact Hk.
    + eauto.
Qed.

End Facts.

End MongoMore.

(* ------------------------------------------------------------------ *)
(** ** Variant 1: what the handlers do to the collection *)

Module Store1.

Import Variant1 Spec1 Props1 Monad.

Lemma nobody_named i c :
  (forall t, In t c -> id t <> i) -> Mongo.findOne (names i) c = None.
Proof.
  intros H. apply MongoFacts.findOne_None. intros t Ht.
  apply String.eqb_neq. apply H. exact Ht.
Qed.

Lemma delete_todo_some w i k T :
  Mongo.findOne (names i) (todos w) = Some (k, T) ->
  delete_todo i w
  = (Json 200 (Message "Todo deleted successfully"),
     with_todos w (Mongo.remove k (todos w))).
Proof.
  intros Hf. unfold delete_todo, bind, get, Mongo.findOneAndDelete.
  fold (names i). rewrite Hf. reflexivity.
Qed.

Lemma delete_unknown_id w i :
  Mongo.findOne (names i) (todos w) = None ->
  delete_todo i w = (not_found, w).
Proof.
  intros Hf. unfold delete_todo, bind, get, Mongo.findOneAndDelete.
  fold (names i). rewrite Hf. reflexivity.
Qed.

Lemma patch_toggle_none w i :
  Mongo.findOne (names i) (todos w) = None ->
  patch_toggle i w = (not_found, w).
Proof.
  intros Hf. unfold patch_toggle, bind, get. fold (names i). rewrite Hf.
  reflexivity.
Qed.

Lemma put_subtask_none w i sid sb :
  Mongo.findOne (names i) (todos w) = None ->
  put_subtask i sid sb w = (not_found, w).
Proof.
  intros Hf. unfold put_subtask, bind, get. fold (names i). rewrite Hf.
  reflexivity.
Qed.

Lemma update_unknown_id w i b :
  Mongo.findOne (names i) (todos w) = None ->
  exists w', put_todo i b w = (not_found, w') /\ todos w' = todos w.
Proof.
  intros Hf. unfold put_todo, bind. unfold Date_now at 1.
  match goal with
  | |- context [cast_subtasks ?o ?w1] =>
      destruct (TodoFacts1.cast_subtasks_spec o w1)
        as (subs & w2 & Hc & Ht & _);
      rewrite Hc
  end.
  simpl in Ht. unfold get, Mongo.findOneAndUpdate. fold (names i).
  rewrite Ht, Hf. exists w2. split; [reflexivity | exact Ht].
Qed.

(** X4.  An id that no stored todo carries: Delete, Toggle and
    Update-subtask answer 404 [Todo not found] and leave the world as it
    is; Update answers the same and leaves the collection as it is. *)
Theorem unknown_id_is_not_found (w : World) (i : string) :
  (forall t, In t (todos w) -> id t <> i) ->
  delete_todo i w = (Json 404 (Error "Todo not found" None), w)
  /\ patch_toggle i w = (Json 404 (Error "Todo not found" None), w)
  /\ (forall sid sb,
        put_subtask i sid sb w = (Json 404 (Error "Todo not found" None), w))
  /\ (forall b, exists w',
        put_todo i b w = (Json 404 (Error "Todo not found" None), w')
        /\ todos w' = todos w).
Proof.
  intros H. pose proof (@nobody_named i _ H) as Hf.
  split; [apply delete_unknown_id; exact Hf|].
  split; [apply patch_toggle_none; exact Hf|].
  split; [intros sid sb; apply put_subtask_none; exact Hf|].
  intros b. apply update_unknown_id. exact Hf.
Qed.

(** No todo is called [zz]. *)
Lemma unknown_id_is_not_found_witness :
  patch_toggle "zz" Examples1.two_todos
  = (Json 404 (Error "Todo not found" None), Examples1.two_todos).
Proof.
  assert (H : forall t, In t (todos Examples1.two_todos) -> id t <> "zz").
  { intros t [<-|[<-|[]]]; discriminate. }
  destruct (@unknown_id_is_not_found Examples1.two_todos "zz" H)
    as (_ & Ht & _).
  exact Ht.
Defined.

(** X5.  In a collection with unique ids, a Delete that finds its todo
    answers 200 and removes that todo and no other; afterwards Delete,
    Toggle and Update of the same id answer 404. *)
Theorem deleted_todo_is_gone (w : World) (i : string) (k : nat) (T : Todo) :
  unique_ids w ->
  Mongo.findOne (names i) (todos w) = Some (k, T) ->
  exists w',
    delete_todo i w = (Json 200 (Message "Todo deleted successfully"), w')
    /\ S (List.length (todos w')) = List.length (todos w)
    /\ (forall t, In t (todos w') <-> In t (todos w) /\ t <> T)
    /\ delete_todo i w' = (Json 404 (Error "Todo not found" None), w')
    /\ patch_toggle i w' = (Json 404 (Error "Todo not found" None), w')
    /\ (forall b, fst (put_todo i b w')
                  = Json 404 (Error "Todo not found" None)).
Proof.
  intros Hu Hf. destruct (@MongoFacts.findOne_Some _ _ _ _ _ Hf) as [Hk Hid].
  apply String.eqb_eq in Hid.
  exists (with_todos w (Mongo.remove k (todos w))).
  assert (Hgone : forall t, In t (Mongo.remove k (todos w)) -> id t <> i).
  { intros t Ht. rewrite <- Hid.
    apply (@MongoMore.removed_is_gone _ id (todos w) k T t Hu Hk Ht). }
  pose proof (@nobody_named i _ Hgone) as Hnone.
  split; [apply delete_todo_some with (T := T); exact Hf|].
  split; [simpl; apply MongoMore.length_remove with (d := T); exact Hk|].
  split.
  { intros t. simpl. split.
    - intros Ht. split; [eapply MongoFacts.In_remove; exact Ht|].
      intros ->. apply (Hgone T Ht). exact Hid.
    - intros [Ht Hne]. apply MongoMore.In_kept_by_remove with (d := T);
        assumption. }
  split; [apply delete_unknown_id; exact Hnone|].
  split; [apply patch_toggle_none; exact Hnone|].
  intros b.
  destruct (@update_unknown_id (with_todos w (Mongo.remove k (todos w))) i b
              Hnone) as (w' & H & _).
  rewrite H. reflexivity.
Qed.

(** [Buy milk] is deleted; a second Delete finds nothing. *)
Lemma deleted_todo_is_gone_witness :
  exists w',
    delete_todo "a" Examples1.two_todos
    = (Json 200 (Message "Todo deleted successfully"), w')
    /\ todos w' = [Examples1.taxes]
    /\ delete_todo "a" w' = (Json 404 (Error "Todo not found" None), w').
Proof.
  assert (Hu : unique_ids Examples1.two_todos).
  { unfold unique_ids. simpl. repeat constructor; simpl;
      intuition discriminate. }
  destruct (@deleted_todo_is_gone Examples1.two_todos "a" 0 Examples1.milk
              Hu eq_refl) as (w' & H1 & _ & _ & H4 & _).
  exists w'. split; [exact H1|]. split; [|exact H4].
  vm_compute in H1. injection H1 as <-. reflexivity.
Defined.

(** *** The cases of Toggle and of Update-subtask *)

Lemma patch_toggle_invalid w i k T :
  Mongo.findOne (names i) (todos w) = Some (k, T) ->
  validate T <> [] ->
  exists errs w',
    patch_toggle i w
    = (Json 500 (Error "Server error" (Some (ValidationFailed errs))), w')
    /\ todos w' = todos w.
Proof.
  intros Hf Hv. unfold patch_toggle, bind, get, ret. fold (names i).
  rewrite Hf. unfold Date_now, put. cbn beta iota.
  change (validate (set_updatedAt (set_completed T (negb (completed T)))
                                  (clock w (clock_reads w))))
    with (validate T).
  destruct (validate T) as [|e errs]; [congruence|].
  eexists. eexists. split; reflexivity.
Qed.

Lemma patch_toggle_cases w i :
  (exists k T T',
      Mongo.findOne (names i) (todos w) = Some (k, T)
      /\ id T' = id T /\ validate T' = []
      /\ fst (patch_toggle i w) = Json 200 (TodoDoc T')
      /\ todos (snd (patch_toggle i w)) = Mongo.replace k T' (todos w))
  \/ (status (fst (patch_toggle i w)) <> 200%Z
      /\ todos (snd (patch_toggle i w)) = todos w).
Proof.
  destruct (Mongo.findOne (names i) (todos w)) as [[k T]|] eqn:Hf.
  - destruct (validate T) as [|e errs] eqn:Hv.
    + left. pose proof (@TodoFacts1.patch_toggle_found w i k T Hf Hv) as H.
      cbv zeta in H.
      exists k, T, (set_updatedAt (set_completed T (negb (completed T)))
                                  (clock w (clock_reads w))).
      rewrite H. split; [reflexivity|]. split; [reflexivity|].
      split; [exact Hv|]. split; reflexivity.
    + right.
      destruct (@patch_toggle_invalid w i k T Hf) as (errs' & w' & H & Ht);
        [congruence|].
      rewrite H. split; [discriminate | exact Ht].
  - right. rewrite (patch_toggle_none w i Hf). split; [discriminate|].
    reflexivity.
Qed.

(** The parent after [Object.assign] and the refreshed [updatedAt]. *)
Lemma put_subtask_found w i sid b k T j S :
  Mongo.findOne (names i) (todos w) = Some (k, T) ->
  find_subtask sid (subtasks T) = Some (j, S) ->
  let T' := set_updatedAt
              (set_subtasks T (Mongo.replace j (assign_subtask S b)
                                 (subtasks T)))
              (clock w (clock_reads w)) in
  (validate T' = [] ->
   put_subtask i sid b w
   = (Json 200 (TodoDoc T'),
      with_todos (snd (Date_now w)) (Mongo.replace k T' (todos w))))
  /\ (validate T' <> [] ->
      exists errs w',
        put_subtask i sid b w
        = (Json 400 (Error "Validation error"
                       (Some (ValidationFailed errs))), w')
        /\ todos w' = todos w).
Proof.
  intros Hf Hs T'. unfold put_subtask, bind, get, ret. fold (names i).
  rewrite Hf, Hs. unfold Date_now, put. cbn beta iota. fold T'.
  split; intros Hv.
  - rewrite Hv. reflexivity.
  - destruct (validate T') as [|e errs]; [congruence|].
    eexists. eexists. split; reflexivity.
Qed.

Lemma put_subtask_no_subtask w i sid b k T :
  Mongo.findOne (names i) (todos w) = Some (k, T) ->
  find_subtask sid (subtasks T) = None ->
  put_subtask i sid b w = (Json 404 (Error "Subtask not found" None), w).
Proof.
  intros Hf Hs. unfold put_subtask, bind, get, ret. fold (names i).
  rewrite Hf, Hs. reflexivity.
Qed.

Lemma put_subtask_cases w i sid b :
  (exists k T T',
      Mongo.findOne (names i) (todos w) = Some (k, T)
      /\ id T' = id T /\ validate T' = []
      /\ fst (put_subtask i sid b w) = Json 200 (TodoDoc T')
      /\ todos (snd (put_subtask i sid b w)) = Mongo.replace k T' (todos w))
  \/ (status (fst (put_subtask i sid b w)) <> 200%Z
      /\ todos (snd (put_subtask i sid b w)) = todos w).
Proof.
  destruct (Mongo.findOne (names i) (todos w)) as [[k T]|] eqn:Hf.
  - destruct (find_subtask sid (subtasks T)) as [[j S]|] eqn:Hs.
    + destruct (@put_subtask_found w i sid b k T j S Hf Hs) as [Hok Hbad].
      cbv zeta in Hok, Hbad.
      match type of Hok with
      | validate ?T' = [] -> _ =>
          destruct (validate T') eqn:Hv; [left; exists k, T, T' | right]
      end.
      * rewrite (Hok eq_refl).
        split; [reflexivity|]. split; [reflexivity|].
        split; [exact Hv|]. split; reflexivity.
      * destruct Hbad as (errs & w' & H & Ht); [discriminate|].
        rewrite H. split; [discriminate | exact Ht].
    + right. rewrite (@put_subtask_no_subtask w i sid b k T Hf Hs).
      split; [discriminate | reflexivity].
  - right. rewrite (put_subtask_none w i sid b Hf).
    split; [discriminate | reflexivity].
Qed.

(** *** Invariants *)

Lemma delete_todo_cases w i :
  (exists k, todos (snd (delete_todo i w)) = Mongo.remove k (todos w)
             /\ status (fst (delete_todo i w)) = 200%Z)
  \/ (status (fst (delete_todo i w)) <> 200%Z
      /\ todos (snd (delete_todo i w)) = todos w).
Proof.
  destruct (Mongo.findOne (names i) (todos w)) as [[k T]|] eqn:Hf.
  - left. exists k. rewrite (@delete_todo_some w i k T Hf). auto.
  - right. rewrite (delete_unknown_id w i Hf).
    split; [discriminate | reflexivity].
Qed.

Lemma post_todos_cases b w :
  (exists t w',
      post_todos b w = (Json 201 (TodoDoc t), w')
      /\ todos w' = todos w ++ [t] /\ validate t = []
      /\ id t
         = uuid w (uuid_reads w + generated (or_default (b_subtasks b) [])))
  \/ (status (fst (post_todos b w)) <> 201%Z
      /\ todos (snd (post_todos b w)) = todos w).
Proof.
  destruct (ListCreate1.valid_input_dec b) as [Hv|Hv].
  - left. destruct (@ListCreate1.post_todos_valid b w Hv)
      as (t & w' & H1 & H2 & H3 & H4 & _).
    exists t, w'. auto.
  - right. destruct (@ListCreate1.post_todos_invalid b w Hv)
      as (errs & w' & H & _ & Ht).
    rewrite H. split; [discriminate | exact Ht].
Qed.

(** X6.  Create, Toggle, Delete and Update-subtask keep the collection
    within the schema: when every stored todo passes the validators
    before the call, every stored todo passes them after it. *)
Theorem schema_is_kept (w : World) :
  all_well_formed w ->
  (forall b, all_well_formed (snd (post_todos b w)))
  /\ (forall i, all_well_formed (snd (patch_toggle i w)))
  /\ (forall i, all_well_formed (snd (delete_todo i w)))
  /\ (forall i sid sb, all_well_formed (snd (put_subtask i sid sb w))).
Proof.
  unfold all_well_formed. intros Hw. repeat split.
  - intros b.
    destruct (post_todos_cases b w) as [(t & w' & H & Ht & Hv & _)|[_ Ht]].
    + rewrite H. simpl. rewrite Ht. apply Forall_app. split; [exact Hw|].
      constructor; [exact Hv | constructor].
    + rewrite Ht. exact Hw.
  - intros i.
    destruct (patch_toggle_cases w i)
      as [(k & T & T' & _ & _ & Hv & _ & Ht)|[_ Ht]]; rewrite Ht.
    + apply MongoMore.Forall_replace; assumption.
    + exact Hw.
  - intros i. destruct (delete_todo_cases w i) as [(k & Ht & _)|[_ Ht]];
      rewrite Ht.
    + apply MongoMore.Forall_remove. exact Hw.
    + exact Hw.
  - intros i sid sb.
    destruct (put_subtask_cases w i sid sb)
      as [(k & T & T' & _ & _ & Hv & _ & Ht)|[_ Ht]]; rewrite Ht.
    + apply MongoMore.Forall_replace; assumption.
    + exact Hw.
Qed.

(** The two stored todos are well formed, and stay so when one is
    toggled. *)
Lemma schema_is_kept_witness :
  all_well_formed (snd (patch_toggle "a" Examples1.two_todos)).
Proof.
  assert (Hw : all_well_formed Examples1.two_todos).
  { repeat constructor. }
  destruct (schema_is_kept Hw) as (_ & H & _). apply H.
Defined.

(** X7.  Toggle, Delete and Update-subtask keep the ids of the
    collection pairwise distinct, and so does Create when the
    identifier generator answers with values that no stored todo
    carries. *)
Theorem ids_stay_unique (w : World) :
  unique_ids w ->
  (forall i, unique_ids (snd (patch_toggle i w)))
  /\ (forall i, unique_ids (snd (delete_todo i w)))
  /\ (forall i sid sb, unique_ids (snd (put_subtask i sid sb w)))
  /\ (fresh_ids w -> forall b, unique_ids (snd (post_todos b w))).
Proof.
  unfold unique_ids. intros Hu. repeat split.
  - intros i.
    destruct (patch_toggle_cases w i)
      as [(k & T & T' & Hf & Hid & _ & _ & Ht)|[_ Ht]]; rewrite Ht.
    + destruct (@MongoFacts.findOne_Some _ _ _ _ _ Hf) as [Hk _].
      rewrite (@MongoMore.map_replace _ id (todos w) k T T' Hk Hid).
      exact Hu.
    + exact Hu.
  - intros i. destruct (delete_todo_cases w i) as [(k & Ht & _)|[_ Ht]];
      rewrite Ht.
    + apply MongoMore.NoDup_map_remove. exact Hu.
    + exact Hu.
  - intros i sid sb.
    destruct (put_subtask_cases w i sid sb)
      as [(k & T & T' & Hf & Hid & _ & _ & Ht)|[_ Ht]]; rewrite Ht.
    + destruct (@MongoFacts.findOne_Some _ _ _ _ _ Hf) as [Hk _].
      rewrite (@MongoMore.map_replace _ id (todos w) k T T' Hk Hid).
      exact Hu.
    + exact Hu.
  - intros Hfresh b.
    destruct (post_todos_cases b w) as [(t & w' & H & Ht & _ & Hid)|[_ Ht]].
    + rewrite H. simpl. rewrite Ht, map_app. simpl.
      apply (Permutation_NoDup (Permutation_cons_append _ _)).
      constructor; [|exact Hu].
      intros Hin. apply in_map_iff in Hin. destruct Hin as (x & Hx & Hin).
      destruct (Hfresh (uuid_reads w
                        + generated (or_default (b_subtasks b) [])))
        as [_ Hnew]; [lia|].
      apply (Hnew x Hin). rewrite Hx. exact Hid.
    + rewrite Ht. exact Hu.
Qed.

(** The ids [a] and [c] stay distinct when [a] is deleted and when a
    todo is created. *)
Lemma ids_stay_unique_witness :
  unique_ids (snd (delete_todo "a" Examples1.two_todos))
  /\ unique_ids (snd (post_todos Examples1.buy_milk Examples1.two_todos)).
Proof.
  assert (Hu : unique_ids Examples1.two_todos).
  { unfold unique_ids. simpl. repeat constructor; simpl;
      intuition discriminate. }
  assert (Hf : fresh_ids Examples1.two_todos).
  { intros n _. split; [discriminate|].
    intros t [<-|[<-|[]]]; discriminate. }
  destruct (ids_stay_unique Hu) as (_ & Hd & _ & Hp).
  split; [apply Hd | apply Hp; exact Hf].
Defined.

(** X8.  A handler that does not answer with its success status leaves
    the collection as it was: nothing is written on a 400, 404 or
    500. *)
Theorem only_success_writes (w : World) :
  (forall b, status (fst (post_todos b w)) <> 201%Z ->
             todos (snd (post_todos b w)) = todos w)
  /\ (forall i b, status (fst (put_todo i b w)) <> 200%Z ->
                  todos (snd (put_todo i b w)) = todos w)
  /\ (forall i, status (fst (delete_todo i w)) <> 200%Z ->
                todos (snd (delete_todo i w)) = todos w)
  /\ (forall i, status (fst (patch_toggle i w)) <> 200%Z ->
                todos (snd (patch_toggle i w)) = todos w)
  /\ (forall i sid sb, status (fst (put_subtask i sid sb w)) <> 200%Z ->
                       todos (snd (put_subtask i sid sb w)) = todos w).
Proof.
  repeat split.
  - intros b Hs.
    destruct (post_todos_cases b w) as [(t & w' & H & _)|[_ Ht]];
      [|exact Ht].
    rewrite H in Hs. simpl in Hs. congruence.
  - intros i b Hs.
    destruct (Mongo.findOne (names i) (todos w)) as [[k T]|] eqn:Hf.
    + destruct (@TodoFacts1.put_todo_found w i b k T Hf)
        as (T' & w' & H & _).
      rewrite H in Hs. simpl in Hs. congruence.
    + destruct (@update_unknown_id w i b Hf) as (w' & H & Ht).
      rewrite H. exact Ht.
  - intros i Hs.
    destruct (delete_todo_cases w i) as [(k & _ & H)|[_ Ht]];
      [congruence | exact Ht].
  - intros i Hs.
    destruct (patch_toggle_cases w i)
      as [(k & T & T' & _ & _ & _ & H & _)|[_ Ht]]; [|exact Ht].
    rewrite H in Hs. simpl in Hs. congruence.
  - intros i sid sb Hs.
    destruct (put_subtask_cases w i sid sb)
      as [(k & T & T' & _ & _ & _ & H & _)|[_ Ht]]; [|exact Ht].
    rewrite H in Hs. simpl in Hs. congruence.
Qed.

(** An Update of an unknown id answers 404 and writes nothing. *)
Lemma only_success_writes_witness :
  todos (snd (put_todo "zz" Examples1.rename_to_b Examples1.two_todos))
  = todos Examples1.two_todos.
Proof.
  destruct (only_success_writes Examples1.two_todos) as (_ & H & _).
  apply H. discriminate.
Defined.

(** *** Update-subtask *)

Lemma validate_nil t :
  validate t = [] <->
  required (Some (title t)) = true
  /\ in_enum (priority t) = true
  /\ required (Some (priority t)) = true
  /\ required (Some (category t)) = true
  /\ forallb (fun s => required (sub_title s)) (subtasks t) = true.
Proof.
  unfold validate, validation_errors.
  rewrite !ListCreate1.app_nil_iff, !ListCreate1.check_nil, andb_true_iff.
  tauto.
Qed.

Lemma forallb_replace {A : Type} (f : A -> bool) (l : list A) (j : nat)
      (d : A) :
  forallb f l = true -> f d = true ->
  forallb f (Mongo.replace j d l) = true.
Proof.
  revert j. induction l as [|x l IH]; intros [|j] Hl Hd; simpl in *;
    try reflexivity; apply andb_true_iff in Hl; destruct Hl as [Hx Hl];
    apply andb_true_iff; auto.
Qed.

Lemma forallb_replace_false {A : Type} (f : A -> bool) (l : list A)
      (j : nat) (x d : A) :
  nth_error l j = Some x -> f d = false ->
  forallb f (Mongo.replace j d l) = false.
Proof.
  revert j. induction l as [|y l IH]; intros [|j] Hj Hd; simpl in *;
    try discriminate.
  - rewrite Hd. reflexivity.
  - rewrite (IH j Hj Hd). apply andb_false_r.
Qed.

(** X9.  Update-subtask on a stored, well-formed todo and one of its
    subtasks, with a body whose title (if any) is not empty: the reply
    is 200 with the parent; the subtask carries the fields of the body
    written over its own, the other subtasks and the other fields of
    the parent are as before, [updatedAt] is the clock reading, and no
    other todo changes. *)
Theorem subtask_update_merges (w : World) (i sid : string) (b : SubtaskBody)
        (k j : nat) (T : Todo) (S : Subtask) :
  Mongo.findOne (names i) (todos w) = Some (k, T) ->
  find_subtask sid (subtasks T) = Some (j, S) ->
  well_formed T ->
  (forall ti, sb_title b = Some ti -> ti <> "") ->
  exists T' S' w',
    put_subtask i sid b w = (Json 200 (TodoDoc T'), w')
    /\ nth_error (todos w') k = Some T'
    /\ nth_error (subtasks T') j = Some S'
    /\ merged b S S'
    /\ (forall j', j' <> j ->
                   nth_error (subtasks T') j' = nth_error (subtasks T) j')
    /\ same_parent T' T
    /\ updatedAt T' = clock w (clock_reads w)
    /\ (forall k', k' <> k ->
                   nth_error (todos w') k' = nth_error (todos w) k').
Proof.
  intros Hf Hs Hwf Hti.
  destruct (@MongoFacts.findOne_Some _ _ _ _ _ Hf) as [Hk _].
  destruct (@MongoFacts.findOne_Some _ _ _ _ _ Hs) as [Hj _].
  destruct (@put_subtask_found w i sid b k T j S Hf Hs) as [Hok _].
  cbv zeta in Hok.
  set (T' := set_updatedAt
               (set_subtasks T (Mongo.replace j (assign_subtask S b)
                                  (subtasks T)))
               (clock w (clock_reads w))) in *.
  assert (Hv : validate T' = []).
  { apply validate_nil in Hwf. destruct Hwf as (H1 & H2 & H3 & H4 & H5).
    apply validate_nil. repeat split; try assumption.
    unfold T'. simpl. apply forallb_replace; [exact H5|].
    unfold assign_subtask. simpl.
    destruct (sb_title b) as [ti|] eqn:Hb.
    - simpl. apply negb_true_iff. apply String.eqb_neq. apply Hti.
      reflexivity.
    - rewrite forallb_forall in H5. apply H5.
      apply nth_error_In with (n := j). exact Hj. }
  exists T', (assign_subtask S b). eexists. split; [exact (Hok Hv)|].
  split; [simpl; apply MongoFacts.nth_error_replace_eq with (d := T);
          exact Hk|].
  split; [simpl; apply MongoFacts.nth_error_replace_eq with (d := S);
          exact Hj|].
  split.
  { unfold merged, assign_subtask. simpl. repeat split.
    - intros ti H. rewrite H. reflexivity.
    - intros H. rewrite H. reflexivity. }
  split; [intros j' Hj'; simpl;
          apply MongoFacts.nth_error_replace_neq; exact Hj'|].
  split; [unfold same_parent; repeat split|].
  split; [reflexivity|].
  intros k' Hk'. simpl. apply MongoFacts.nth_error_replace_neq. exact Hk'.
Qed.

(** The subtask [s2] of [Move house] is marked completed; its title
    stays, and so does the subtask [s1]. *)
Lemma subtask_update_merges_witness :
  exists T' w',
    put_subtask "p" "s2" Examples3.done Examples3.house
    = (Json 200 (TodoDoc T'), w')
    /\ nth_error (subtasks T') 1
       = Some {| sub_id := "s2"; sub_title := Some "Clean";
                 sub_completed := true |}
    /\ nth_error (subtasks T') 0
       = nth_error (subtasks Examples3.with_subtask) 0.
Proof.
  assert (Hti : forall ti, sb_title Examples3.done = Some ti -> ti <> "")
    by discriminate.
  destruct (@subtask_update_merges Examples3.house "p" "s2" Examples3.done
              1 1 Examples3.with_subtask
              {| sub_id := "s2"; sub_title := Some "Clean";
                 sub_completed := false |}
              eq_refl eq_refl eq_refl Hti)
    as (T' & S' & w' & H1 & _ & H3 & (Hid & Hc & _ & Ht) & H5 & _).
  exists T', w'. split; [exact H1|]. split.
  - rewrite H3. f_equal. destruct S' as [si st sc]. simpl in *.
    rewrite Hid, Hc, (Ht eq_refl). reflexivity.
  - apply H5. discriminate.
Defined.

(** X10.  Update-subtask on a stored todo: a subtask id that none of
    its subtasks carries is answered 404 [Subtask not found] with the
    world untouched, and a body with the empty title is answered 400
    [Validation error] with the collection untouched. *)
Theorem subtask_update_failures (w : World) (i sid : string)
        (b : SubtaskBody) (k : nat) (T : Todo) :
  Mongo.findOne (names i) (todos w) = Some (k, T) ->
  (find_subtask sid (subtasks T) = None ->
   put_subtask i sid b w = (Json 404 (Error "Subtask not found" None), w))
  /\ (forall j S,
        find_subtask sid (subtasks T) = Some (j, S) ->
        sb_title b = Some "" ->
        exists errs w',
          put_subtask i sid b w
          = (Json 400 (Error "Validation error"
                         (Some (ValidationFailed errs))), w')
          /\ todos w' = todos w).
Proof.
  intros Hf. split.
  - intros Hs. apply put_subtask_no_subtask with (k := k) (T := T);
      assumption.
  - intros j S Hs Hb.
    destruct (@MongoFacts.findOne_Some _ _ _ _ _ Hs) as [Hj _].
    destruct (@put_subtask_found w i sid b k T j S Hf Hs) as [_ Hbad].
    cbv zeta in Hbad. apply Hbad. intros Hv.
    apply validate_nil in Hv. destruct Hv as (_ & _ & _ & _ & Hall).
    simpl in Hall.
    rewrite (@forallb_replace_false _ _ (subtasks T) j S
               (assign_subtask S b) Hj) in Hall; [discriminate|].
    unfold assign_subtask. simpl. rewrite Hb. reflexivity.
Qed.

(** [Move house] has no subtask [s9]. *)
Lemma subtask_update_failures_witness :
  put_subtask "p" "s9" Examples3.done Examples3.house
  = (Json 404 (Error "Subtask not found" None), Examples3.house).
Proof.
  destruct (@subtask_update_failures Examples3.house "p" "s9" Examples3.done
              1 Examples3.with_subtask eq_refl) as [H _].
  apply H. reflexivity.
Defined.

End Store1.

(* ------------------------------------------------------------------ *)
(** ** [split] and the Authorization header *)

Module HeaderFacts.

Import Props2.

Lemma split_no_sep (sep : ascii) (s : string) :
  forallb (fun c => negb (Ascii.eqb c sep)) (list_ascii_of_string s) = true ->
  Js.split sep s = [s].
Proof.
  induction s as [|c s IH]; simpl; [reflexivity|].
  intros H. apply andb_true_iff in H. destruct H as [Hc Hs].
  apply negb_true_iff in Hc. rewrite Hc, (IH Hs). reflexivity.
Qed.

Lemma split_first (sep : ascii) (a rest : string) :
  forallb (fun c => negb (Ascii.eqb c sep)) (list_ascii_of_string a) = true ->
  Js.split sep (a ++ String sep rest)%string = a :: Js.split sep rest.
Proof.
  induction a as [|c a IH]; simpl.
  - intros _. rewrite Ascii.eqb_refl. reflexivity.
  - intros H. apply andb_true_iff in H. destruct H as [Hc Ha].
    apply negb_true_iff in Hc. rewrite Hc, (IH Ha). reflexivity.
Qed.

(** The token of the header [<scheme> <token>]. *)
Lemma second_word_header (scheme tok : string) :
  no_space scheme = true -> no_space tok = true ->
  Js.second_word (header scheme tok) = Some tok.
Proof.
  intros Hs Ht. unfold Js.second_word, header.
  rewrite (split_first " " scheme tok Hs), (split_no_sep " " tok Ht).
  reflexivity.
Qed.

(** [split] undoes the comma-separated list. *)
Lemma split_comma_list (ps : list string) :
  ps <> [] ->
  Forall (fun p => no_comma p = true) ps ->
  Js.split "," (comma_list ps) = ps.
Proof.
  induction ps as [|p ps IH]; [congruence|]. intros _ Hall.
  inversion Hall as [|? ? Hp Hps]; subst.
  destruct ps as [|q ps].
  - simpl. apply split_no_sep. exact Hp.
  - change (comma_list (p :: q :: ps))
      with (p ++ String "," (comma_list (q :: ps)))%string.
    rewrite (split_first "," p _ Hp). f_equal.
    apply IH; [discriminate | exact Hps].
Qed.




End HeaderFacts.

(* ------------------------------------------------------------------ *)
(** ** Variant 2: the gate, on the Authorization header *)

Module GateHeader2.

Import Variant2 Spec2 Props2 Monad.



End GateHeader2.

(* ------------------------------------------------------------------ *)
(** ** Variant 2: what a request may do to the world *)

Module Effects2.

Import Variant2 Spec2 Props2 Monad.

Lemma todo_effect_refl a w w' :
  todos w' = todos w -> users w' = users w -> todo_effect a w w'.
Proof. intros Ht Hu. split; [exact Hu | left; exact Ht]. Qed.

Lemma get_todos_reads req w : snd (get_todos req w) = w.
Proof. unfold get_todos. destruct (user req); reflexivity. Qed.

Lemma get_todos_filter_reads req w : snd (get_todos_filter req w) = w.
Proof.
  unfold get_todos_filter.
  destruct (query_value "priorities" (query req));
    destruct (user req); reflexivity.
Qed.

Lemma login_reads P req w : snd (login P req w) = w.
Proof.
  unfold login, bind, get.
  destruct (Mongo.findOne _ (users w)) as [[k u]|]; [|reflexivity].
  destruct (b_password (body req)) as [pw|]; [|reflexivity].
  destruct (bcrypt_compare P pw (password u)); reflexivity.
Qed.

Lemma post_effect req a w :
  user req = Some a -> todo_effect a w (snd (post_todos req w)).
Proof.
  intros Hu. unfold post_todos. rewrite Hu. unfold bind.
  destruct (HandlerFacts2.new_subtasks_keeps
              (or_default (b_subtasks (body req)) []) w) as [H1 H2].
  destruct (new_subtasks (or_default (b_subtasks (body req)) []) w)
    as [subs w1].
  simpl in H1, H2. unfold uuidv4, Date_now, get, put, ret. cbn beta iota.
  destruct (validation_errors (Some (user_id a)) (b_title (body req))
              (b_priority (body req)) (b_category (body req)) subs);
    [destruct (b_title (body req)), (b_priority (body req)),
       (b_category (body req))|];
    simpl; try (apply todo_effect_refl; assumption).
  split; [exact H2|]. right. left. eexists. rewrite H1.
  split; reflexivity.
Qed.

Lemma put_effect req a w :
  user req = Some a -> todo_effect a w (snd (put_todo req w)).
Proof.
  intros Hu. unfold put_todo, bind. unfold Date_now at 1. rewrite Hu.
  match goal with
  | |- context [cast_subtasks ?o ?w1] =>
      destruct (HandlerFacts2.cast_subtasks_keeps o w1)
        as (subs & w2 & Hc & Ht & Hus & _);
      rewrite Hc
  end.
  simpl in Ht, Hus. unfold get, Mongo.findOneAndUpdate.
  destruct (Mongo.findOne (by_id_and_owner req a) (todos w2))
    as [[k T]|] eqn:Hf; simpl.
  - destruct (@MongoFacts.findOne_Some _ _ _ _ _ Hf) as [Hk Hp].
    unfold by_id_and_owner in Hp. apply andb_true_iff in Hp.
    destruct Hp as [_ Hown]. rewrite Ht in Hk.
    split; [exact Hus|]. right. right. left.
    eexists k, T, _. rewrite Ht. repeat split; assumption.
  - apply todo_effect_refl; assumption.
Qed.

Lemma delete_effect req a w :
  user req = Some a -> todo_effect a w (snd (delete_todo req w)).
Proof.
  intros Hu. unfold delete_todo, bind, get, Mongo.findOneAndDelete.
  rewrite Hu.
  destruct (Mongo.findOne (by_id_and_owner req a) (todos w))
    as [[k T]|] eqn:Hf; simpl.
  - destruct (@MongoFacts.findOne_Some _ _ _ _ _ Hf) as [Hk Hp].
    unfold by_id_and_owner in Hp. apply andb_true_iff in Hp.
    destruct Hp as [_ Hown].
    split; [reflexivity|]. right. right. right.
    exists k, T. repeat split; assumption.
  - apply todo_effect_refl; reflexivity.
Qed.

Lemma register_effect P req w :
  account_effect w (snd (register P req w)).
Proof.
  unfold register.
  destruct (b_password (body req)) as [pw|];
    [|split; [reflexivity | left; reflexivity]].
  unfold bind, new_ObjectId, get, put, ret. cbn beta iota.
  destruct (negb (required (b_username (body req))
                  && required (Some (bcrypt_hash P pw))));
    [split; [reflexivity | left; reflexivity]|].
  cbn [users].
  destruct (existsb _ (users w)) eqn:He;
    [split; [reflexivity | left; reflexivity]|].
  split; [reflexivity|]. right. eexists. split; [reflexivity|].
  intros x Hx. simpl. apply String.eqb_neq.
  rewrite <- Bool.not_true_iff_false in He.
  destruct (username x =? or_default (b_username (body req)) "")%string
    eqn:Hn; [|reflexivity].
  exfalso. apply He. apply existsb_exists. exists x. auto.
Qed.

(** Behind the gate, a handler acts for the identity of the token or
    not at all. *)
Lemma gated_effect P (h : Handler) :
  (forall req a w, user req = Some a -> todo_effect a w (snd (h req w))) ->
  forall req w,
    (todos (snd (authenticate P req h w)) = todos w
     /\ users (snd (authenticate P req h w)) = users w)
    \/ exists a, authenticated_as P req a
                 /\ todo_effect a w (snd (authenticate P req h w)).
Proof.
  intros Hh req w. unfold authenticate.
  destruct (Js.second_word (authorization req)) as [tok|] eqn:Ht;
    [|left; split; reflexivity].
  unfold Js.truthy. destruct (tok =? "")%string eqn:He; simpl;
    [left; split; reflexivity|].
  destruct (jwt_verify P tok (SECRET P)) as [u|] eqn:Hv;
    [|left; split; reflexivity].
  right. exists u. split.
  - exists tok. split; [exact Ht|]. split; [|exact Hv].
    apply String.eqb_neq. exact He.
  - apply Hh. reflexivity.
Qed.

(** Every request either acts as an account route or acts on the todos
    for the identity of its token. *)
Lemma app_effect P req w :
  account_effect w (snd (app P req w))
  \/ exists a, authenticated_as P req a
               /\ todo_effect a w (snd (app P req w)).
Proof.
  assert (Hsame : forall w', todos w' = todos w -> users w' = users w ->
                             account_effect w w').
  { intros w' H1 H2. split; [exact H1 | left; exact H2]. }
  assert (Hgate : forall (h : Handler) req',
             authorization req' = authorization req ->
             (forall r a w0, user r = Some a ->
                             todo_effect a w0 (snd (h r w0))) ->
             account_effect w (snd (authenticate P req' h w))
             \/ exists a, authenticated_as P req a
                          /\ todo_effect a w (snd (authenticate P req' h w))).
  { intros h req' Hauth Hh.
    destruct (gated_effect P h Hh req' w) as [[H1 H2]|(a & Ha & He)].
    - left. apply Hsame; assumption.
    - right. exists a. split; [|exact He].
      unfold authenticated_as in *. rewrite <- Hauth. exact Ha. }
  unfold app.
  destruct (dispatch (routes P) req) as [[r req']|] eqn:Hd;
    [|left; apply Hsame; reflexivity].
  destruct (@GateFacts2.dispatch_In _ _ _ _ Hd) as [Hin (ps & ->)].
  unfold bind, ret.
  match goal with
  | |- context [run ?m ?h ?q w] =>
      replace (snd (let (a, w') := run m h q w in (Some a, w')))
        with (snd (run m h q w)) by (destruct (run m h q w); reflexivity)
  end.
  unfold routes in Hin. simpl in Hin.
  destruct Hin as [<-|[<-|[<-|[<-|[<-|[<-|[<-|[]]]]]]]]; cbn [run r_middleware
    r_handler].
  - left. apply register_effect.
  - left. rewrite login_reads. apply Hsame; reflexivity.
  - apply Hgate; [reflexivity|]. intros r a w0 _.
    rewrite get_todos_reads. apply todo_effect_refl; reflexivity.
  - apply Hgate; [reflexivity|]. intros r a w0. apply post_effect.
  - apply Hgate; [reflexivity|]. intros r a w0. apply put_effect.
  - apply Hgate; [reflexivity|]. intros r a w0. apply delete_effect.
  - apply Hgate; [reflexivity|]. intros r a w0 _.
    rewrite get_todos_filter_reads. apply todo_effect_refl; reflexivity.
Qed.

End Effects2.

(* ------------------------------------------------------------------ *)
(** ** Variant 2: isolation and invariants of the whole application *)

Module Isolation2.

Import Variant2 Spec2 Props2 Monad.

(** X11.  Whatever the request, the usernames of the collection stay
    pairwise distinct: only Register adds a user, and only under a name
    that no user carries. *)
Theorem usernames_stay_unique (P : Platform) (req : Request) (w : World) :
  unique_usernames w -> unique_usernames (snd (app P req w)).
Proof.
  unfold unique_usernames. intros Hu.
  destruct (Effects2.app_effect P req w)
    as [[_ [Hs|(u & Hs & Hfree)]]|(a & _ & Hs & _)]; rewrite Hs;
    try exact Hu.
  rewrite map_app. simpl.
  apply (Permutation_NoDup (Permutation_cons_append _ _)).
  constructor; [|exact Hu].
  intros Hin. apply in_map_iff in Hin. destruct Hin as (x & Hx & Hin).
  apply (Hfree x Hin). exact Hx.
Qed.

(** A second registration of [alice] leaves the two users as they
    are. *)
Lemma usernames_stay_unique_witness :
  unique_usernames
    (snd (app Examples2.platform
            (Examples2.request POST ["api"; "register"] None []
               (Examples2.credentials "alice" "other")) Examples2.world)).
Proof.
  apply usernames_stay_unique. unfold unique_usernames. simpl.
  repeat constructor; simpl; intuition discriminate.
Defined.

(** X12.  A stored todo stays in the collection, unchanged, through
    every request that does not carry a token of its owner: only the
    owner can rewrite or remove it. *)
Theorem only_the_owner_changes_a_todo (P : Platform) (req : Request)
        (w : World) (t : Todo) :
  In t (todos w) ->
  (forall a, authenticated_as P req a -> userId t <> user_id a) ->
  In t (todos (snd (app P req w))).
Proof.
  intros Hin Hother.
  destruct (Effects2.app_effect P req w)
    as [[Hs _]|(a & Ha & _ & Hcases)]; [rewrite Hs; exact Hin|].
  specialize (Hother a Ha).
  assert (Hne : forall T, owned_by a T = true -> t <> T).
  { intros T Hown ->. apply Hother. unfold owned_by in Hown.
    apply String.eqb_eq. exact Hown. }
  destruct Hcases as [Hs|[(x & Hs & _)|[(k & T & T' & Hk & Hown & Hs)
                                       |(k & T & Hk & Hown & Hs)]]];
    rewrite Hs.
  - exact Hin.
  - apply in_app_iff. left. exact Hin.
  - apply MongoMore.In_kept_by_replace with (d := T); auto.
  - apply MongoMore.In_kept_by_remove with (d := T); auto.
Qed.

(** Alice's Delete of [t1] and her Update of [t2] leave Bob's todo in
    place. *)
Lemma only_the_owner_changes_a_todo_witness :
  In Examples2.bobs
     (todos (snd (app Examples2.platform
                    (Examples2.request PUT ["api"; "todos"; "t2"]
                       Examples2.as_alice [] Examples2.give_away)
                    Examples2.world))).
Proof.
  apply only_the_owner_changes_a_todo; [left; reflexivity|].
  intros a (tok & Ht & _ & Hv). simpl in Ht. injection Ht as <-.
  simpl in Hv. injection Hv as <-. discriminate.
Defined.

(** *** Requests that only read *)

Lemma dispatch_method rs req r req' :
  dispatch rs req = Some (r, req') ->
  In r rs /\ Method_eqb (r_method r) (method req) = true
  /\ exists ps, match_path (r_path r) (path req) = Some ps
                /\ req' = set_params req ps.
Proof.
  induction rs as [|x rs IH]; simpl; [discriminate|].
  destruct (Method_eqb (r_method x) (method req)) eqn:Hm.
  - destruct (match_path (r_path x) (path req)) as [ps|] eqn:Hp.
    + intros H. inversion H; subst. split; [left; reflexivity|].
      split; [exact Hm|]. exists ps. auto.
    + intros H. destruct (IH H) as (Hin & H1 & H2). auto.
  - intros H. destruct (IH H) as (Hin & H1 & H2). auto.
Qed.

Lemma authenticate_reads P (h : Handler) req w :
  (forall r w0, snd (h r w0) = w0) -> snd (authenticate P req h w) = w.
Proof.
  intros Hh. unfold authenticate.
  destruct (negb (Js.truthy (Js.second_word (authorization req))));
    [reflexivity|].
  destruct (jwt_verify P _ (SECRET P)); [apply Hh | reflexivity].
Qed.

(** X13.  No GET request and no Login changes the world: neither the
    todos, nor the users, nor the clock and the generators are
    touched. *)
Theorem reading_requests_change_nothing (P : Platform) (req : Request)
        (w : World) :
  method req = GET
  \/ (method req = POST /\ path req = ["api"; "login"]) ->
  snd (app P req w) = w.
Proof.
  intros Hcase. unfold app.
  destruct (dispatch (routes P) req) as [[r req']|] eqn:Hd;
    [|reflexivity].
  destruct (@dispatch_method _ _ _ _ Hd) as (Hin & Hm & ps & Hp & ->).
  unfold bind, ret.
  match goal with
  | |- snd (let (a, w') := ?m in _) = _ =>
      replace (snd (let (a, w') := m in (Some a, w'))) with (snd m)
        by (destruct m; reflexivity)
  end.
  unfold routes in Hin. simpl in Hin.
  destruct Hcase as [Hg|[Hpost Hpath]].
  - rewrite Hg in Hm.
    destruct Hin as [<-|[<-|[<-|[<-|[<-|[<-|[<-|[]]]]]]]]; simpl in Hm;
      try discriminate; cbn [run r_middleware r_handler];
      apply authenticate_reads; intros r w0.
    + apply Effects2.get_todos_reads.
    + apply Effects2.get_todos_filter_reads.
  - rewrite Hpost in Hm. rewrite Hpath in Hp.
    destruct Hin as [<-|[<-|[<-|[<-|[<-|[<-|[<-|[]]]]]]]]; simpl in Hm, Hp;
      try discriminate; cbn [run r_middleware r_handler].
    apply Effects2.login_reads.
Qed.

(** A failed and a successful Login leave the world alone. *)
Lemma reading_requests_change_nothing_witness :
  snd (app Examples2.platform
         (Examples2.request POST ["api"; "login"] None []
            (Examples2.credentials "alice" "secret")) Examples2.world)
  = Examples2.world.
Proof.
  apply reading_requests_change_nothing. right. split; reflexivity.
Defined.

(** X14.  Variant 2 has no route for PATCH, nor for a path whose first
    segment is not [api] in some case of its letters ([/API/todos] is
    routed, since the router ignores case): such a request is answered
    by no handler of the server and leaves the world as it is. *)
Theorem no_route_for_patch (P : Platform) (req : Request) (w : World) :
  method req = PATCH
  \/ (forall x rest, path req = x :: rest -> ci_eqb "api" x = false) ->
  app P req w = (None, w).
Proof.
  intros Hcase. unfold app.
  destruct (dispatch (routes P) req) as [[r req']|] eqn:Hd;
    [exfalso|reflexivity].
  destruct (@dispatch_method _ _ _ _ Hd) as (Hin & Hm & ps & Hp & _).
  unfold routes in Hin. simpl in Hin.
  destruct Hcase as [Hpatch|Hpath].
  - rewrite Hpatch in Hm.
    destruct Hin as [<-|[<-|[<-|[<-|[<-|[<-|[<-|[]]]]]]]]; discriminate.
  - destruct (path req) as [|x rest] eqn:Hx.
    + destruct Hin as [<-|[<-|[<-|[<-|[<-|[<-|[<-|[]]]]]]]];
        discriminate.
    + specialize (Hpath x rest eq_refl).
      destruct Hin as [<-|[<-|[<-|[<-|[<-|[<-|[<-|[]]]]]]]];
        cbn [r_path match_path] in Hp;
        rewrite Hpath in Hp; discriminate.
Qed.

(** The Toggle of variant 1 has no counterpart here, and neither has a
    path outside [/api]; the case of the letters does not matter. *)
Lemma no_route_for_patch_witness :
  app Examples2.platform
      (Examples2.request PATCH ["api"; "todos"; "t2"; "toggle"]
         Examples2.as_alice [] Examples2.no_fields) Examples2.world
  = (None, Examples2.world)
  /\ app Examples2.platform
       (Examples2.request GET ["v1"; "todos"]
          Examples2.as_alice [] Examples2.no_fields) Examples2.world
     = (None, Examples2.world)
  /\ fst (app Examples2.platform
            (Examples2.request GET ["API"; "Todos"]
               Examples2.as_alice [] Examples2.no_fields) Examples2.world)
     <> None.
Proof.
  split; [|split].
  - apply no_route_for_patch. left. reflexivity.
  - apply no_route_for_patch. right.
    intros x rest H. injection H as <- _. reflexivity.
  - vm_compute. discriminate.
Defined.

End Isolation2.

(* ------------------------------------------------------------------ *)
(** ** Variant 2: accounts and tokens *)

Module Accounts2.

Import Variant2 Spec2 Props2 Monad.

Lemma app_register P req w :
  method req = POST -> path req = ["api"; "register"] ->
  app P req w
  = (let (res, w') := register P (set_params req []) w in (Some res, w')).
Proof.
  intros Hm Hp. unfold app, routes, dispatch. cbn [r_method r_path].
  rewrite Hm, Hp. reflexivity.
Qed.

Lemma findOne_appended {D : Type} (p : D -> bool) (l : list D) (d : D) :
  Mongo.findOne p l = None -> p d = true ->
  Mongo.findOne p (l ++ [d]) = Some (List.length l, d).
Proof.
  induction l as [|x l IH]; simpl; intros Hn Hd.
  - rewrite Hd. reflexivity.
  - destruct (p x); [discriminate|].
    destruct (Mongo.findOne p l) as [[k y]|]; [discriminate|].
    rewrite (IH eq_refl Hd). reflexivity.
Qed.

Lemma name_is_free (w : World) (name : string) :
  (forall x, In x (users w) -> username x <> name) ->
  existsb (fun u => (username u =? name)%string) (users w) = false.
Proof.
  intros H. apply Bool.not_true_iff_false. intros He.
  apply existsb_exists in He. destruct He as (x & Hx & Hn).
  apply String.eqb_eq in Hn. apply (H x Hx Hn).
Qed.

Lemma required_nonempty (s : string) : s <> "" -> required (Some s) = true.
Proof.
  intros H. simpl. apply negb_true_iff. apply String.eqb_neq. exact H.
Qed.

Lemma register_ok P req w name pw :
  credentials_of (body req) name pw ->
  name <> "" -> bcrypt_hash P pw <> "" ->
  (forall x, In x (users w) -> username x <> name) ->
  register P req w
  = (Json 201 (Message "User registered successfully"),
     with_users (snd (new_ObjectId w))
       (users w ++ [{| _id := objectId w (objectId_reads w);
                       username := name;
                       password := bcrypt_hash P pw |}])).
Proof.
  intros [Hn Hp] Hne Hh Hfree. unfold register. rewrite Hp.
  unfold bind, new_ObjectId, get, put, ret. cbn beta iota.
  rewrite Hn, (required_nonempty Hne), (required_nonempty Hh).
  cbn [negb andb or_default users].
  rewrite (name_is_free w Hfree). reflexivity.
Qed.

Lemma login_ok P req w name pw k u :
  credentials_of (body req) name pw ->
  Mongo.findOne (fun x => (username x =? name)%string) (users w)
  = Some (k, u) ->
  bcrypt_compare P pw (password u) = true ->
  login P req w
  = (Json 200 (Token (jwt_sign P {| user_id := _id u;
                                    user_name := username u |}
                               (SECRET P))), w).
Proof.
  intros [Hn Hp] Hf Hc. unfold login, bind, get. rewrite Hn, Hf, Hp, Hc.
  reflexivity.
Qed.

(** X15.  Register with a free, non-empty username answers 201 and
    stores the user with the hash of the password, never the password
    itself, and leaves the todos alone; a Login with the same
    credentials then answers 200 with a token signed for the new user's
    id and name.  (bcrypt is assumed to accept a password against its
    own hash.) *)
Theorem register_then_login (P : Platform) (req : Request) (w : World)
        (name pw : string) :
  method req = POST -> path req = ["api"; "register"] ->
  credentials_of (body req) name pw ->
  name <> "" ->
  (forall x, In x (users w) -> username x <> name) ->
  bcrypt_hash P pw <> "" ->
  bcrypt_compare P pw (bcrypt_hash P pw) = true ->
  exists w',
    app P req w
    = (Some (Json 201 (Message "User registered successfully")), w')
    /\ users w'
       = users w ++ [{| _id := objectId w (objectId_reads w);
                        username := name;
                        password := bcrypt_hash P pw |}]
    /\ todos w' = todos w
    /\ forall req2,
         method req2 = POST -> path req2 = ["api"; "login"] ->
         credentials_of (body req2) name pw ->
         app P req2 w'
         = (Some (Json 200
              (Token (jwt_sign P
                        {| user_id := objectId w (objectId_reads w);
                           user_name := name |} (SECRET P)))), w').
Proof.
  intros Hm Hp Hc Hne Hfree Hh Hcmp.
  rewrite (app_register P req w Hm Hp).
  rewrite (@register_ok P (set_params req []) w name pw Hc Hne Hh Hfree).
  eexists. split; [reflexivity|]. split; [reflexivity|].
  split; [reflexivity|].
  intros req2 Hm2 Hp2 Hc2.
  set (newu := {| _id := objectId w (objectId_reads w); username := name;
                  password := bcrypt_hash P pw |}).
  set (w1 := with_users (snd (new_ObjectId w)) (users w ++ [newu])).
  assert (Hfind : Mongo.findOne (fun x => (username x =? name)%string)
                    (users w1) = Some (List.length (users w), newu)).
  { unfold w1. cbn [users with_users].
    apply findOne_appended; [|apply String.eqb_refl].
    apply MongoFacts.findOne_None. intros x Hx.
    apply String.eqb_neq. apply Hfree. exact Hx. }
  rewrite (HandlerFacts2.app_login P req2 w1 Hm2 Hp2).
  rewrite (@login_ok P (set_params req2 []) w1 name pw
             (List.length (users w)) newu Hc2 Hfind Hcmp).
  reflexivity.
Qed.

(** Carol registers and logs in. *)
Lemma register_then_login_witness :
  exists w',
    app Examples4.platform
        (Examples2.request POST ["api"; "register"] None []
           (Examples2.credentials "carol" "pw1")) Examples2.world
    = (Some (Json 201 (Message "User registered successfully")), w')
    /\ app Examples4.platform
           (Examples2.request POST ["api"; "login"] None []
              (Examples2.credentials "carol" "pw1")) w'
       = (Some (Json 200 (Token "tok-oid")), w').
Proof.
  assert (Hfree : forall x, In x (users Examples2.world) ->
                            username x <> "carol").
  { intros x [<-|[<-|[]]]; discriminate. }
  assert (Hne : "carol" <> "") by discriminate.
  assert (Hh : bcrypt_hash Examples4.platform "pw1" <> "") by discriminate.
  destruct (@register_then_login Examples4.platform
              (Examples2.request POST ["api"; "register"] None []
                 (Examples2.credentials "carol" "pw1"))
              Examples2.world "carol" "pw1" eq_refl eq_refl
              (conj eq_refl eq_refl) Hne Hfree Hh eq_refl)
    as (w' & H1 & _ & _ & H4).
  exists w'. split; [exact H1|].
  apply (H4 (Examples2.request POST ["api"; "login"] None []
               (Examples2.credentials "carol" "pw1"))
            eq_refl eq_refl (conj eq_refl eq_refl)).
Defined.

(** X16.  Register without a password, without a username, with the
    empty username, or with a username that a user already carries is
    answered 400 [Error registering user]; neither the users nor the
    todos change. *)
Theorem register_failures (P : Platform) (req : Request) (w : World) :
  method req = POST -> path req = ["api"; "register"] ->
  b_password (body req) = None
  \/ b_username (body req) = None
  \/ b_username (body req) = Some ""
  \/ (exists name x, b_username (body req) = Some name
                     /\ In x (users w) /\ username x = name) ->
  exists details w',
    app P req w
    = (Some (Json 400 (Error "Error registering user" (Some details))), w')
    /\ users w' = users w /\ todos w' = todos w.
Proof.
  intros Hm Hp Hcase. rewrite (app_register P req w Hm Hp).
  unfold register. cbn [body set_params].
  destruct (b_password (body req)) as [pw|] eqn:Hpw;
    [|eexists; eexists; split; [reflexivity | split; reflexivity]].
  unfold bind, new_ObjectId, get, put, ret. cbn beta iota.
  destruct (negb (required (b_username (body req))
                  && required (Some (bcrypt_hash P pw)))) eqn:Hv;
    [eexists; eexists; split; [reflexivity | split; reflexivity]|].
  apply negb_false_iff in Hv. apply andb_true_iff in Hv.
  destruct Hv as [Hu _]. cbn [users].
  destruct Hcase as [H|[H|[H|(name & x & Hn & Hx & Hxn)]]];
    try congruence;
    try (rewrite H in Hu; simpl in Hu; discriminate).
  rewrite Hn. cbn [or_default].
  assert (He : existsb (fun u => (username u =? name)%string) (users w)
               = true).
  { apply existsb_exists. exists x. split; [exact Hx|].
    apply String.eqb_eq. exact Hxn. }
  rewrite He. eexists. eexists. split; [reflexivity | split; reflexivity].
Qed.

(** [alice] is taken. *)
Lemma register_failures_witness :
  fst (app Examples2.platform
         (Examples2.request POST ["api"; "register"] None []
            (Examples2.credentials "alice" "other")) Examples2.world)
  = Some (Json 400 (Error "Error registering user"
                      (Some (DuplicateKey "username")))).
Proof.
  destruct (@register_failures Examples2.platform
              (Examples2.request POST ["api"; "register"] None []
                 (Examples2.credentials "alice" "other"))
              Examples2.world eq_refl eq_refl) as (d & w' & H & _).
  - right. right. right.
    exists "alice",
      {| _id := "uA"; username := "alice"; password := "h:secret" |}.
    split; [reflexivity|]. split; [left; reflexivity | reflexivity].
  - reflexivity.
Defined.

End Accounts2.

(* ------------------------------------------------------------------ *)
(** ** Variant 2: tokens at the gate, Create, Filter and Delete *)

Module Todos2.

Import Variant2 Spec2 Props2 Monad.



(** X18.  The token that Login issues opens the gate for its user: when
    jsonwebtoken verifies the token it signed, a List request carrying
    [Bearer <token>] is answered with exactly the todos whose [userId]
    is the [_id] of the user who logged in. *)
Theorem login_token_opens_gate (P : Platform) (req : Request) (w : World)
        (name pw : string) (k : nat) (u : User) :
  method req = POST -> path req = ["api"; "login"] ->
  credentials_of (body req) name pw ->
  Mongo.findOne (fun x => (username x =? name)%string) (users w)
  = Some (k, u) ->
  bcrypt_compare P pw (password u) = true ->
  no_space (jwt_sign P {| user_id := _id u; user_name := username u |}
                     (SECRET P)) = true ->
  jwt_sign P {| user_id := _id u; user_name := username u |} (SECRET P)
  <> "" ->
  jwt_verify P
    (jwt_sign P {| user_id := _id u; user_name := username u |} (SECRET P))
    (SECRET P)
  = Some {| user_id := _id u; user_name := username u |} ->
  exists tok,
    app P req w = (Some (Json 200 (Token tok)), w)
    /\ forall req2,
         authorization req2 = header "Bearer" tok ->
         method req2 = GET -> path req2 = ["api"; "todos"] ->
         app P req2 w
         = (Some (Json 200
              (Todos (Mongo.sort_desc createdAt
                        (filter (fun t => (userId t =? _id u)%string)
                                (todos w))))), w).
Proof.
  intros Hm Hp Hc Hf Hcmp Hsp Hne Hv.
  set (ident := {| user_id := _id u; user_name := username u |}) in *.
  exists (jwt_sign P ident (SECRET P)). split.
  - rewrite (HandlerFacts2.app_login P req w Hm Hp).
    rewrite (@Accounts2.login_ok P (set_params req []) w name pw k u
               Hc Hf Hcmp).
    reflexivity.
  - intros req2 Hauth Hm2 Hp2.
    assert (Ha : authenticated_as P req2 ident).
    { exists (jwt_sign P ident (SECRET P)). split; [|split; assumption].
      rewrite Hauth. apply HeaderFacts.second_word_header;
        [reflexivity | exact Hsp]. }
    rewrite (HandlerFacts2.app_get_todos P req2 w Hm2 Hp2).
    rewrite (@GateFacts2.authenticate_as P (set_params req2 []) get_todos w
               ident Ha).
    reflexivity.
Qed.

(** Alice logs in and lists her todos with the token she got. *)
Lemma login_token_opens_gate_witness :
  exists tok,
    app Examples4.platform
        (Examples2.request POST ["api"; "login"] None []
           (Examples2.credentials "alice" "secret")) Examples2.world
    = (Some (Json 200 (Token tok)), Examples2.world)
    /\ app Examples4.platform
           (Examples2.request GET ["api"; "todos"] (header "Bearer" tok) []
              Examples2.no_fields) Examples2.world
       = (Some (Json 200 (Todos [Examples2.alices_home;
                                 Examples2.alices_work])),
          Examples2.world).
Proof.
  assert (Hne : "tok-uA" <> "") by discriminate.
  destruct (@login_token_opens_gate Examples4.platform
              (Examples2.request POST ["api"; "login"] None []
                 (Examples2.credentials "alice" "secret"))
              Examples2.world "alice" "secret" 0
              {| _id := "uA"; username := "alice"; password := "h:secret" |}
              eq_refl eq_refl (conj eq_refl eq_refl) eq_refl eq_refl
              eq_refl Hne eq_refl) as (tok & H1 & H2).
  exists tok. split; [exact H1|].
  rewrite (H2 (Examples2.request GET ["api"; "todos"] (header "Bearer" tok)
                 [] Examples2.no_fields) eq_refl eq_refl eq_refl).
  reflexivity.
Defined.

(** *** Create *)

Lemma app_post_todos P req w :
  method req = POST -> path req = ["api"; "todos"] ->
  app P req w
  = (let (res, w') :=
       authenticate P (set_params req []) post_todos w in (Some res, w')).
Proof.
  intros Hm Hp. unfold app, routes, dispatch. cbn [r_method r_path].
  rewrite Hm, Hp. reflexivity.
Qed.

Lemma new_subtasks_full l w :
  exists subs w1,
    new_subtasks l w = (subs, w1)
    /\ todos w1 = todos w /\ users w1 = users w
    /\ clock w1 = clock w /\ clock_reads w1 = clock_reads w
    /\ uuid w1 = uuid w /\ uuid_reads w <= uuid_reads w1
    /\ map sub_title subs = map sb_title l.
Proof.
  unfold new_subtasks. revert w. induction l as [|b l IH]; intros w.
  - exists [], w. simpl. repeat split. lia.
  - rewrite TodoFacts1.mapM_cons.
    unfold new_subtask at 1. unfold bind, ret.
    destruct (sb_id b).
    + destruct (IH w) as (subs & w1 & Hs & H1 & H2 & H3 & H4 & H5 & H6 & H7).
      rewrite Hs. eexists. exists w1. split; [reflexivity|].
      simpl. rewrite H7. repeat split; assumption.
    + unfold uuidv4.
      match goal with
      | |- context [mapM new_subtask l ?w0] =>
          destruct (IH w0)
            as (subs & w1 & Hs & H1 & H2 & H3 & H4 & H5 & H6 & H7)
      end.
      rewrite Hs. eexists. exists w1. split; [reflexivity|].
      simpl in *. rewrite H7. repeat split; try assumption. lia.
Qed.

Lemma titles_required subs l :
  map sub_title subs = map sb_title l ->
  (forall s, In s l -> required (sb_title s) = true) ->
  forallb (fun s => required (sub_title s)) subs = true.
Proof.
  revert l. induction subs as [|s subs IH]; intros [|b l] Hm H;
    simpl in *; try reflexivity; try discriminate.
  injection Hm as Hs Hm. rewrite Hs, (H b) by auto. simpl.
  apply IH with (l := l); auto.
Qed.

Lemma post_for_caller req a w :
  user req = Some a -> valid_input (user_id a) (body req) ->
  exists t w',
    post_todos req w = (Json 201 (TodoDoc t), w')
    /\ todos w' = todos w ++ [t] /\ users w' = users w
    /\ userId t = user_id a /\ completed t = false
    /\ (exists n, uuid_reads w <= n /\ id t = uuid w n)
    /\ b_title (body req) = Some (title t)
    /\ b_priority (body req) = Some (priority t)
    /\ b_category (body req) = Some (category t).
Proof.
  intros Hu (Hid & Ht & (p & Hpe & Hen) & Hc & Hsub).
  destruct (new_subtasks_full (or_default (b_subtasks (body req)) []) w)
    as (subs & w1 & Hs & H1 & H2 & H3 & H4 & H5 & H6 & H7).
  assert (Hval : validation_errors (Some (user_id a)) (b_title (body req))
                   (b_priority (body req)) (b_category (body req)) subs
                 = []).
  { assert (Hp : required (Some p) = true).
    { simpl. destruct (p =? "")%string eqn:He; [|reflexivity].
      apply String.eqb_eq in He. subst p. vm_compute in Hen.
      discriminate. }
    unfold validation_errors.
    rewrite (Accounts2.required_nonempty Hid), Ht, Hc, Hpe, Hen, Hp.
    rewrite (@titles_required _ _ H7 Hsub). reflexivity. }
  destruct (b_title (body req)) as [ti|] eqn:Hti; [|discriminate].
  destruct (b_category (body req)) as [c|] eqn:Hcc; [|discriminate].
  unfold post_todos. rewrite Hu. unfold bind. rewrite Hs.
  unfold uuidv4, Date_now, get, put, ret. cbn beta iota.
  rewrite Hti, Hcc, Hpe in *. rewrite Hval.
  cbn [clock clock_reads uuid uuid_reads todos users with_todos].
  eexists. eexists. split; [reflexivity|].
  cbn [id userId title completed priority category todos users with_todos].
  rewrite H1, H2, H5.
  repeat split; try reflexivity.
  exists (uuid_reads w1). split; [exact H6 | reflexivity].
Qed.

(** X19.  Create in variant 2 stores the todo for the caller: with a
    body that passes the validators, the reply is 201 and the new
    record has the caller's id as [userId], a generated [id] and
    [completed] false, whatever [userId], [id] and [completed] the body
    carries; the users are untouched and the caller's next List holds
    the record. *)
Theorem create_belongs_to_caller (P : Platform) (req : Request)
        (a : Identity) (w : World) :
  method req = POST -> path req = ["api"; "todos"] ->
  authenticated_as P req a ->
  valid_input (user_id a) (body req) ->
  exists t w',
    app P req w = (Some (Json 201 (TodoDoc t)), w')
    /\ todos w' = todos w ++ [t] /\ users w' = users w
    /\ userId t = user_id a /\ completed t = false
    /\ (exists n, uuid_reads w <= n /\ id t = uuid w n)
    /\ b_title (body req) = Some (title t)
    /\ b_priority (body req) = Some (priority t)
    /\ b_category (body req) = Some (category t)
    /\ (forall req2,
          authenticated_as P req2 a ->
          method req2 = GET -> path req2 = ["api"; "todos"] ->
          exists l, app P req2 w' = (Some (Json 200 (Todos l)), w')
                    /\ In t l).
Proof.
  intros Hm Hp Ha Hv.
  rewrite (app_post_todos P req w Hm Hp).
  rewrite (@GateFacts2.authenticate_as P (set_params req []) post_todos w a
             Ha).
  destruct (@post_for_caller (set_user (set_params req []) a) a w eq_refl
              Hv)
    as (t & w' & H1 & H2 & H3 & H4 & H5 & H6 & H7 & H8 & H9).
  rewrite H1. exists t, w'. split; [reflexivity|].
  repeat (split; [assumption|]).
  intros req2 Ha2 Hm2 Hp2.
  rewrite (HandlerFacts2.app_get_todos P req2 w' Hm2 Hp2).
  rewrite (@GateFacts2.authenticate_as P (set_params req2 []) get_todos w'
             a Ha2).
  eexists. split; [reflexivity|].
  apply MongoFacts.In_sort_desc. apply filter_In. split.
  - rewrite H2. apply in_app_iff. right. left. reflexivity.
  - unfold owned_by. rewrite H4. apply String.eqb_refl.
Qed.

(** Alice's body names Bob as the owner; the todo is hers all the
    same. *)
Lemma create_belongs_to_caller_witness :
  exists t w',
    app Examples2.platform
        (Examples2.request POST ["api"; "todos"] Examples2.as_alice []
           Examples4.taxes_for_bob) Examples2.world
    = (Some (Json 201 (TodoDoc t)), w')
    /\ userId t = "uA" /\ id t = "fresh" /\ completed t = false.
Proof.
  assert (Ha : authenticated_as Examples2.platform
                 (Examples2.request POST ["api"; "todos"] Examples2.as_alice
                    [] Examples4.taxes_for_bob) Examples2.alice).
  { exists "tokA". repeat split. discriminate. }
  assert (Hv : valid_input (user_id Examples2.alice)
                 (body (Examples2.request POST ["api"; "todos"]
                          Examples2.as_alice [] Examples4.taxes_for_bob))).
  { unfold valid_input. simpl. split; [discriminate|].
    split; [reflexivity|]. split; [exists "high"; split; reflexivity|].
    split; [reflexivity|]. intros s []. }
  destruct (@create_belongs_to_caller Examples2.platform
              (Examples2.request POST ["api"; "todos"] Examples2.as_alice
                 [] Examples4.taxes_for_bob) Examples2.alice
              Examples2.world eq_refl eq_refl Ha Hv)
    as (t & w' & H1 & _ & _ & H4 & H5 & (n & _ & H6) & _).
  exists t, w'. split; [exact H1|]. split; [exact H4|].
  split; [exact H6 | exact H5].
Defined.

(** *** Filter by a set of priorities *)

Lemma app_filter P req w :
  method req = GET -> path req = ["api"; "todos"; "filter"] ->
  app P req w
  = (let (res, w') :=
       authenticate P (set_params req []) get_todos_filter w in
     (Some res, w')).
Proof.
  intros Hm Hp. unfold app, routes, dispatch. cbn [r_method r_path].
  rewrite Hm, Hp. reflexivity.
Qed.

Lemma filter_none {A : Type} (f : A -> bool) (l : list A) :
  (forall x, f x = false) -> filter f l = [].
Proof.
  intros H. induction l as [|x l IH]; simpl; [reflexivity|].
  rewrite H. exact IH.
Qed.

Lemma existsb_eqb_In (x : string) (l : list string) :
  existsb (String.eqb x) l = true <-> In x l.
Proof.
  rewrite existsb_exists. split.
  - intros (y & Hy & He). apply String.eqb_eq in He. subst. exact Hy.
  - intros H. exists x. split; [exact H | apply String.eqb_refl].
Qed.

Lemma values_no_key (k : string) (q : list (string * string)) :
  no_key k q ->
  map snd (filter (fun kv => (fst kv =? k)%string) q) = [].
Proof.
  intros H. induction q as [|[k' v] q IH]; [reflexivity|].
  cbn [filter fst]. destruct (k' =? k)%string eqn:He.
  - apply String.eqb_eq in He. subst k'.
    exfalso. apply (H v). left. reflexivity.
  - apply IH. intros v' Hin. apply (H v'). right. exact Hin.
Qed.

Lemma values_split (k v : string) (q1 q2 : list (string * string)) :
  map snd (filter (fun kv => (fst kv =? k)%string)
             (q1 ++ (k, v) :: q2))
  = map snd (filter (fun kv => (fst kv =? k)%string) q1)
    ++ v :: map snd (filter (fun kv => (fst kv =? k)%string) q2).
Proof.
  rewrite filter_app, map_app. cbn [filter fst].
  rewrite String.eqb_refl. reflexivity.
Qed.

Lemma query_value_absent (k : string) (q : list (string * string)) :
  no_key k q -> query_value k q = Absent.
Proof. intros H. unfold query_value. rewrite (values_no_key H). reflexivity. Qed.

Lemma query_value_single (k v : string) (q1 q2 : list (string * string)) :
  no_key k q1 -> no_key k q2 ->
  query_value k (q1 ++ (k, v) :: q2) = Single v.
Proof.
  intros H1 H2. unfold query_value.
  rewrite values_split, (values_no_key H1), (values_no_key H2).
  reflexivity.
Qed.

Lemma query_value_repeated (k v1 v2 : string)
      (q1 q2 q3 : list (string * string)) :
  exists vs,
    query_value k (q1 ++ (k, v1) :: q2 ++ (k, v2) :: q3) = Repeated vs.
Proof.
  unfold query_value. rewrite values_split, values_split.
  destruct (map snd (filter _ q1)) as [|x [|y l]]; simpl.
  - destruct (map snd (filter _ q2)); simpl; eexists; reflexivity.
  - destruct (map snd (filter _ q2)); simpl; eexists; reflexivity.
  - eexists; reflexivity.
Qed.

(** X20.  Filter, for a query string of plain keys.  When the parameter
    [priorities] is absent or empty the reply is the empty list.  When
    it is given once, the reply is, newest first, exactly the caller's
    todos whose priority is one of its comma-separated values.  When it
    is given more than once the query parser makes it an array, the
    call of [split] throws and the reply is 500 [Server error].  The
    world is not changed. *)
Theorem filter_by_priorities (P : Platform) (req : Request) (a : Identity)
        (w : World) :
  method req = GET -> path req = ["api"; "todos"; "filter"] ->
  authenticated_as P req a ->
  plain_query (query req) ->
  (no_key "priorities" (query req) ->
   app P req w = (Some (Json 200 (Todos [])), w))
  /\ (forall q1 q2,
        query req = q1 ++ ("priorities", "") :: q2 ->
        no_key "priorities" q1 -> no_key "priorities" q2 ->
        app P req w = (Some (Json 200 (Todos [])), w))
  /\ (forall ps q1 q2,
        ps <> [] -> Forall (fun p => no_comma p = true) ps ->
        comma_list ps <> "" ->
        query req = q1 ++ ("priorities", comma_list ps) :: q2 ->
        no_key "priorities" q1 -> no_key "priorities" q2 ->
        exists l,
          app P req w = (Some (Json 200 (Todos l)), w)
          /\ (forall t, In t l <->
                        In t (todos w) /\ userId t = user_id a
                        /\ In (priority t) ps)
          /\ newest_first l)
  /\ (forall q1 v1 q2 v2 q3,
        query req
        = q1 ++ ("priorities", v1) :: q2 ++ ("priorities", v2) :: q3 ->
        app P req w
        = (Some (Json 500 (Error "Server error" (Some TypeError))), w)).
Proof.
  intros Hm Hp Ha _.
  rewrite (app_filter P req w Hm Hp).
  rewrite (@GateFacts2.authenticate_as P (set_params req [])
             get_todos_filter w a Ha).
  unfold get_todos_filter, bind, get, ret.
  cbn [user set_user query set_params].
  assert (Hnone : (let (res, w') :=
                     (Json 200
                        (Todos (Mongo.sort_desc createdAt
                                  (Mongo.find
                                     (fun t => owned_by a t
                                               && existsb
                                                    (String.eqb (priority t))
                                                    [])
                                     (todos w)))), w) in
                   (Some res, w'))
                  = (Some (Json 200 (Todos [])), w)).
  { unfold Mongo.find. rewrite filter_none; [reflexivity|].
    intros x. simpl. apply andb_false_r. }
  split; [|split; [|split]].
  - intros Hno. rewrite (query_value_absent Hno). exact Hnone.
  - intros q1 q2 Hq H1 H2. rewrite Hq, (query_value_single "" H1 H2).
    exact Hnone.
  - intros ps q1 q2 Hne Hall Hs Hq H1 H2.
    rewrite Hq, (query_value_single (comma_list ps) H1 H2).
    assert (Htr : Js.truthy (Some (comma_list ps)) = true)
      by (apply (Accounts2.required_nonempty Hs)).
    rewrite Htr.
    rewrite (HeaderFacts.split_comma_list Hne Hall).
    eexists. split; [reflexivity|]. split.
    + intros t. rewrite MongoFacts.In_sort_desc. unfold Mongo.find.
      rewrite filter_In, andb_true_iff, existsb_eqb_In.
      unfold owned_by. rewrite String.eqb_eq. tauto.
    + apply MongoFacts.sort_desc_sorted.
  - intros q1 v1 q2 v2 q3 Hq. rewrite Hq.
    destruct (query_value_repeated "priorities" v1 v2 q1 q2 q3)
      as (vs & ->).
    reflexivity.
Qed.

(** [priorities=low,medium] gives Alice her two todos of priority
    [medium]; [priorities=low&priorities=medium] is answered 500. *)
Lemma filter_by_priorities_witness :
  app Examples2.platform
      (Examples2.request GET ["api"; "todos"; "filter"] Examples2.as_alice
         [("priorities", "low,medium")] Examples2.no_fields)
      Examples2.world
  = (Some (Json 200 (Todos [Examples2.alices_home; Examples2.alices_work])),
     Examples2.world)
  /\ app Examples2.platform
         (Examples2.request GET ["api"; "todos"; "filter"]
            Examples2.as_alice
            [("priorities", "low"); ("priorities", "medium")]
            Examples2.no_fields) Examples2.world
     = (Some (Json 500 (Error "Server error" (Some TypeError))),
        Examples2.world).
Proof.
  split.
  - assert (Ha : authenticated_as Examples2.platform
                   (Examples2.request GET ["api"; "todos"; "filter"]
                      Examples2.as_alice [("priorities", "low,medium")]
                      Examples2.no_fields) Examples2.alice).
    { exists "tokA". repeat split. discriminate. }
    assert (Hq : plain_query [("priorities", "low,medium")]).
    { split; [simpl; lia | repeat constructor]. }
    destruct (@filter_by_priorities Examples2.platform
                (Examples2.request GET ["api"; "todos"; "filter"]
                   Examples2.as_alice [("priorities", "low,medium")]
                   Examples2.no_fields) Examples2.alice Examples2.world
                eq_refl eq_refl Ha Hq) as (_ & _ & H & _).
    assert (Hne : ["low"; "medium"] <> []) by discriminate.
    assert (Hs : comma_list ["low"; "medium"] <> "") by discriminate.
    assert (Hall : Forall (fun p => no_comma p = true) ["low"; "medium"])
      by (repeat constructor).
    assert (Hno : no_key "priorities" []) by (intros v []).
    destruct (H ["low"; "medium"] [] [] Hne Hall Hs eq_refl Hno Hno)
      as (l & Hl & _).
    rewrite Hl. vm_compute in Hl. injection Hl as <-. reflexivity.
  - assert (Ha : authenticated_as Examples2.platform
                   (Examples2.request GET ["api"; "todos"; "filter"]
                      Examples2.as_alice
                      [("priorities", "low"); ("priorities", "medium")]
                      Examples2.no_fields) Examples2.alice).
    { exists "tokA". repeat split. discriminate. }
    assert (Hq : plain_query
                   [("priorities", "low"); ("priorities", "medium")]).
    { split; [simpl; lia | repeat constructor]. }
    destruct (@filter_by_priorities Examples2.platform
                (Examples2.request GET ["api"; "todos"; "filter"]
                   Examples2.as_alice
                   [("priorities", "low"); ("priorities", "medium")]
                   Examples2.no_fields)
                Examples2.alice Examples2.world eq_refl eq_refl Ha Hq)
      as (_ & _ & _ & H).
    apply (H [] "low" [] "medium" []). reflexivity.
Defined.

(** *** Delete of one's own todo *)

(** X21.  A Delete that finds a todo of the caller answers 200 and
    removes that todo and no other; the users are untouched.  In a
    collection with unique ids the same request, sent again, is
    answered 404. *)
Theorem own_todo_is_deleted (P : Platform) (req : Request) (a : Identity)
        (w : World) (i : string) (k : nat) (T : Todo) :
  method req = DELETE -> path req = ["api"; "todos"; i] -> i <> "" ->
  authenticated_as P req a ->
  Mongo.findOne (fun t => (id t =? i)%string && owned_by a t) (todos w)
  = Some (k, T) ->
  app P req w
  = (Some (Json 200 (Message "Todo deleted successfully")),
     with_todos w (Mongo.remove k (todos w)))
  /\ (forall t, In t (todos w) -> t <> T ->
                In t (Mongo.remove k (todos w)))
  /\ S (List.length (Mongo.remove k (todos w))) = List.length (todos w)
  /\ (NoDup (map id (todos w)) ->
      fst (app P req (with_todos w (Mongo.remove k (todos w))))
      = Some (Json 404 (Error "Todo not found" None))).
Proof.
  intros Hm Hp Hne Ha Hf.
  destruct (@MongoFacts.findOne_Some _ _ _ _ _ Hf) as [Hk Hpred].
  apply andb_true_iff in Hpred. destruct Hpred as [Hid _].
  apply String.eqb_eq in Hid.
  assert (Hdel : forall w0,
             app P req w0
             = (let (res, w') :=
                  delete_todo (set_user (set_params req [("id", i)]) a) w0 in
                (Some res, w'))).
  { intros w0. rewrite (HandlerFacts2.app_delete_todo P req w0 Hm Hp Hne).
    rewrite (@GateFacts2.authenticate_as P _ delete_todo w0 a
               (HandlerFacts2.authenticated_set_params [("id", i)] Ha)).
    reflexivity. }
  split.
  { rewrite Hdel. unfold delete_todo, bind, get, Mongo.findOneAndDelete.
    cbn [user set_user].
    change (by_id_and_owner (set_user (set_params req [("id", i)]) a) a)
      with (fun t => (id t =? i)%string && owned_by a t).
    rewrite Hf. reflexivity. }
  split.
  { intros t Ht Hnt. apply MongoMore.In_kept_by_remove with (d := T);
      assumption. }
  split; [apply MongoMore.length_remove with (d := T); exact Hk|].
  intros Hnd. rewrite Hdel.
  rewrite (@HandlerFacts2.delete_todo_none
             (set_user (set_params req [("id", i)]) a) a
             (with_todos w (Mongo.remove k (todos w))) eq_refl);
    [reflexivity|].
  apply MongoFacts.findOne_None. intros x Hx. cbn [todos with_todos] in Hx.
  unfold by_id_and_owner. cbn [params set_user set_params lookup].
  simpl. apply andb_false_iff. left. apply String.eqb_neq.
  rewrite <- Hid.
  apply (@MongoMore.removed_is_gone _ id (todos w) k T x Hnd Hk Hx).
Qed.

(** Alice deletes her todo [t2]; the second Delete finds nothing. *)
Lemma own_todo_is_deleted_witness :
  exists w',
    app Examples2.platform
        (Examples2.request DELETE ["api"; "todos"; "t2"] Examples2.as_alice
           [] Examples2.no_fields) Examples2.world
    = (Some (Json 200 (Message "Todo deleted successfully")), w')
    /\ todos w' = [Examples2.bobs; Examples2.alices_home]
    /\ fst (app Examples2.platform
               (Examples2.request DELETE ["api"; "todos"; "t2"]
                  Examples2.as_alice [] Examples2.no_fields) w')
       = Some (Json 404 (Error "Todo not found" None)).
Proof.
  assert (Ha : authenticated_as Examples2.platform
                 (Examples2.request DELETE ["api"; "todos"; "t2"]
                    Examples2.as_alice [] Examples2.no_fields)
                 Examples2.alice).
  { exists "tokA". repeat split. discriminate. }
  assert (Hne : "t2" <> "") by discriminate.
  assert (Hnd : NoDup (map id (todos Examples2.world))).
  { simpl. repeat constructor; simpl; intuition discriminate. }
  destruct (@own_todo_is_deleted Examples2.platform
              (Examples2.request DELETE ["api"; "todos"; "t2"]
                 Examples2.as_alice [] Examples2.no_fields)
              Examples2.alice Examples2.world "t2" 1 Examples2.alices_work
              eq_refl eq_refl Hne Ha eq_refl) as (H1 & _ & _ & H4).
  eexists. split; [exact H1|]. split; [reflexivity|]. exact (H4 Hnd).
Defined.

End Todos2.

(* ------------------------------------------------------------------ *)
(** ** Further examples for variant 1 *)

Module MoreExamples1.

Import Variant1 Spec1 Props1.

(** [Buy milk] is created and then listed. *)
Lemma created_todo_is_listed_witness :
  exists t w' l,
    post_todos Examples1.buy_milk Examples1.two_todos
    = (Json 201 (TodoDoc t), w')
    /\ get_todos no_params w' = (Some (Json 200 (Todos l)), w')
    /\ In t l /\ In Examples1.taxes l.
Proof.
  assert (Hv : valid_input Examples1.buy_milk).
  { unfold valid_input. simpl. repeat split.
    - exists "low". split; reflexivity.
    - intros s []. }
  destruct (@ListCreate1.created_todo_is_listed Examples1.buy_milk
              Examples1.two_todos Hv) as (t & w' & l & H1 & H2 & H3).
  exists t, w', l. split; [exact H1|]. split; [exact H2|]. split.
  - apply H3. left. reflexivity.
  - apply H3. right. right. left. reflexivity.
Defined.

End MoreExamples1.
